(** * GitHub profile scraper: a shallow embedding of [src/scraper]

    The embedding follows [github_scraper.py], [models.py] and the save path
    of [file_handler.py].  Python values that come out of [response.json()]
    are kept dynamically typed ([Json]); the scraper object, the clock, the
    remote API and the disk are threaded through an explicit state and an
    environment.  Of logging, the set-up of the loggers is modelled
    ([logging_config.py]); what is logged is not. *)

From Stdlib Require Import ZArith List String Ascii Bool Lia Permutation Sorted.
Import ListNotations.
Local Open Scope string_scope.
Local Open Scope Z_scope.

Set Implicit Arguments.
Set Warnings "-register-all".

(** ** Python values *)

Module Py.

(** What [response.json()] can return.  JSON numbers are integers here, as
    all counters of the API are; [JNull] is Python's [None]. *)
Inductive Json : Type :=
| JNull
| JBool (b : bool)
| JInt (z : Z)
| JStr (s : string)
| JList (l : list Json)
| JDict (d : list (string * Json)).

(** Exceptions.  [RequestException] stands for the whole
    [requests.exceptions.RequestException] family (connection errors,
    timeouts, [HTTPError], [JSONDecodeError]). *)
Inductive PyExn : Type :=
| RequestException (msg : string)
| AttributeError (msg : string)
| TypeError (msg : string)
| ValueError (msg : string)
| RecursionError
| OSError (msg : string)
| PlainException (msg : string).

(** [str(e)] *)
Definition str_exn (e : PyExn) : string :=
  match e with
  | RequestException m | AttributeError m | TypeError m | ValueError m
  | OSError m | PlainException m => m
  | RecursionError => "maximum recursion depth exceeded"
  end.

Definition Result (A : Type) : Type := (PyExn + A)%type.

(** [bool(v)] *)
Definition truthy (v : Json) : bool :=
  match v with
  | JNull => false
  | JBool b => b
  | JInt z => negb (z =? 0)
  | JStr s => negb (s =? EmptyString)%string
  | JList l => match l with [] => false | _ => true end
  | JDict d => match d with [] => false | _ => true end
  end.

(** Truthiness of an [Optional[str]]. *)
Definition truthy_opt_str (o : option string) : bool :=
  match o with
  | None => false
  | Some s => negb (s =? EmptyString)%string
  end.

(** *** Insertion-ordered dictionaries

    A Python [dict] keeps its keys in first-insertion order; assigning to a
    key that is present keeps the key where it is. *)
Section Dict.
Variable V : Type.

Definition dict : Type := list (string * V).

Fixpoint dict_lookup (k : string) (d : dict) : option V :=
    match d with
    | [] => None
    | (k', v) :: rest => if (k =? k')%string then Some v else dict_lookup k rest
    end.

  (** [d.get(k, default)] *)
Definition dict_get (k : string) (default : V) (d : dict) : V :=
    match dict_lookup k d with
    | Some v => v
    | None => default
    end.

  (** [d[k] = v] *)
Fixpoint dict_set (k : string) (v : V) (d : dict) : dict :=
    match d with
    | [] => [(k, v)]
    | (k', v') :: rest =>
        if (k =? k')%string then (k', v) :: rest
        else (k', v') :: dict_set k v rest
    end.

  (** [list(d.keys())] *)
Definition dict_keys (d : dict) : list string := map fst d.

  (** [list(d.values())] *)
Definition dict_values (d : dict) : list V := map snd d.
End Dict.

(** [type(v).__name__] *)
Definition type_name (v : Json) : string :=
  match v with
  | JNull => "NoneType"
  | JBool _ => "bool"
  | JInt _ => "int"
  | JStr _ => "str"
  | JList _ => "list"
  | JDict _ => "dict"
  end.

(** What looking up a method the value does not have raises. *)
Definition no_attribute (v : Json) (attr : string) : PyExn :=
  AttributeError
    ("'" ++ type_name v ++ "' object has no attribute '" ++ attr ++ "'").

(** [v.get(key, default)] on a value of unknown type: only a dict has
    [get]. *)
Definition py_get (v : Json) (key : string) (default : Json) : Result Json :=
  match v with
  | JDict d => inr (dict_get key default d)
  | _ => inl (no_attribute v "get")
  end.

(** [v.items()] *)
Definition py_items (v : Json) : Result (list (string * Json)) :=
  match v with
  | JDict d => inr d
  | _ => inl (no_attribute v "items")
  end.

(** Strings hold text in UTF-8; a character is a byte that does not
    continue another one, with the bytes that continue it. *)
Definition is_continuation (c : ascii) : bool :=
  let n := nat_of_ascii c in (Nat.leb 128 n && Nat.ltb n 192)%bool.

(** [len(s)]: the number of characters. *)
Fixpoint str_len (s : string) : nat :=
  match s with
  | EmptyString => O
  | String c rest => ((if is_continuation c then 0 else 1) + str_len rest)%nat
  end.

(** [len(v)] *)
Definition py_len (v : Json) : Result Z :=
  match v with
  | JStr s => inr (Z.of_nat (str_len s))
  | JList l => inr (Z.of_nat (List.length l))
  | JDict d => inr (Z.of_nat (List.length d))
  | _ => inl (TypeError ("object of type '" ++ type_name v ++ "' has no len()"))
  end.

(** The characters of a string, each a string of its own. *)
Fixpoint chars (s : string) : list Json :=
  match s with
  | EmptyString => []
  | String c rest =>
      match chars rest with
      | JStr (String c' t) :: more =>
          if is_continuation c'
          then JStr (String c (String c' t)) :: more
          else JStr (String c EmptyString) :: JStr (String c' t) :: more
      | more => JStr (String c EmptyString) :: more
      end
  end.

(** The items a [for x in v] loop visits. *)
Definition py_iter (v : Json) : Result (list Json) :=
  match v with
  | JList l => inr l
  | JDict d => inr (map (fun kv => JStr (fst kv)) d)
  | JStr s => inr (chars s)
  | _ => inl (TypeError ("'" ++ type_name v ++ "' object is not iterable"))
  end.

(** The integer an operand of [int + v] stands for ([bool] is a subclass of
    [int]); [None] when the addition raises [TypeError]. *)
Definition as_int (v : Json) : option Z :=
  match v with
  | JInt z => Some z
  | JBool b => Some (if b then 1 else 0)
  | _ => None
  end.

(** [acc + v] for an integer accumulator. *)
Definition py_add (acc : Z) (v : Json) : Result Z :=
  match as_int v with
  | Some z => inr (acc + z)
  | None =>
      inl (TypeError ("unsupported operand type(s) for +: 'int' and '"
                      ++ type_name v ++ "'"))
  end.

(** [sum(xs)]: starts from [0] and adds from the left. *)
Fixpoint py_sum_from (acc : Z) (xs : list Json) : Result Z :=
  match xs with
  | [] => inr acc
  | x :: rest =>
      match py_add acc x with
      | inl e => inl e
      | inr acc' => py_sum_from acc' rest
      end
  end.

Definition py_sum (xs : list Json) : Result Z := py_sum_from 0 xs.

(** *** Strings *)

Definition ascii_lower (c : ascii) : ascii :=
  let n := nat_of_ascii c in
  if (Nat.leb 65 n && Nat.leb n 90)%bool then ascii_of_nat (n + 32) else c.

(** [s.lower()], on the ASCII letters. *)
Fixpoint lower (s : string) : string :=
  match s with
  | EmptyString => EmptyString
  | String c rest => String (ascii_lower c) (lower rest)
  end.

(** [pat in s] *)
Fixpoint contains (pat s : string) : bool :=
  (String.prefix pat s
   || match s with
      | EmptyString => false
      | String _ rest => contains pat rest
      end)%bool.

(** [os.path.join(dir, name)] on a POSIX system. *)
Definition ends_with_slash (s : string) : bool :=
  match String.get (Nat.pred (String.length s)) s with
  | Some c => Ascii.eqb c "/"%char
  | None => false
  end.

Definition path_join (dir name : string) : string :=
  if String.prefix "/" name then name
  else if ((dir =? EmptyString)%string || ends_with_slash dir)%bool then dir ++ name
  else dir ++ "/" ++ name.

End Py.
Export Py.

(** ** Data model ([models.py])

    The dataclasses do not check their annotations: a field filled from a
    JSON document holds whatever the document held. *)

Module UserProfile.
Record t : Type := Build {
    name : Json;
    bio : Json;
    company : Json;
    website : Json;
    twitter : Json;
    location : Json;
    email : Json;
    public_repos : Json;
    followers : Json;
    following : Json;
    profile_readme : option string;
    avatar_url : Json;
    login : Json
  }.
End UserProfile.

Module Repository.
Record t : Type := Build {
    name : Json;
    about : Json;
    description : Json;
    readme_content : option string;
    languages : Json;
    url : Json;
    stars : Json;
    forks : Json;
    is_fork : Json;
    default_branch : Json
  }.
End Repository.

Module ScrapingStatistics.
Record t : Type := Build {
    total_repositories : Z;
    repositories_with_readme : Z;
    total_stars : Z;
    total_forks : Z;
    unique_languages : list string;
    language_distribution : dict Z
  }.
End ScrapingStatistics.

Module ScrapingMetadata.
Record t : Type := Build {
    scraped_at : string;
    scraper_version : string;
    total_api_requests : Z;
    saved_to_file : option string;
    save_error : option string
  }.
End ScrapingMetadata.

Module CompleteUserData.
Record t : Type := Build {
    profile : UserProfile.t;
    repositories : list Repository.t;
    statistics : ScrapingStatistics.t;
    metadata : ScrapingMetadata.t
  }.
End CompleteUserData.

(** ** Statistics ([GitHubScraper._calculate_statistics]) *)

Definition rbind {A B : Type} (r : Result A) (k : A -> Result B) : Result B :=
  match r with
  | inl e => inl e
  | inr a => k a
  end.

(** [all_languages[lang] = all_languages.get(lang, 0) + bytes_count] *)
Definition add_language (all_languages : dict Z) (item : string * Json)
  : Result (dict Z) :=
  rbind (py_add (dict_get (fst item) 0 all_languages) (snd item))
        (fun total => inr (dict_set (fst item) total all_languages)).

(** The inner loop, over [repo.languages.items()]. *)
Fixpoint add_languages (all_languages : dict Z) (items : list (string * Json))
  : Result (dict Z) :=
  match items with
  | [] => inr all_languages
  | item :: rest =>
      rbind (add_language all_languages item)
            (fun all_languages' => add_languages all_languages' rest)
  end.

(** The outer loop, over the repositories. *)
Fixpoint aggregate_languages (all_languages : dict Z)
  (repositories : list Repository.t) : Result (dict Z) :=
  match repositories with
  | [] => inr all_languages
  | repo :: rest =>
      rbind (py_items (Repository.languages repo)) (fun items =>
      rbind (add_languages all_languages items) (fun all_languages' =>
      aggregate_languages all_languages' rest))
  end.

Definition _calculate_statistics (repositories : list Repository.t)
  : Result ScrapingStatistics.t :=
  rbind (py_sum (map Repository.stars repositories)) (fun total_stars =>
  rbind (py_sum (map Repository.forks repositories)) (fun total_forks =>
  rbind (py_sum (map (fun _ => JInt 1)
                   (filter (fun repo =>
                              truthy_opt_str (Repository.readme_content repo))
                           repositories))) (fun repos_with_readme =>
  rbind (aggregate_languages [] repositories) (fun all_languages =>
  inr (ScrapingStatistics.Build
         (Z.of_nat (List.length repositories))
         repos_with_readme
         total_stars
         total_forks
         (dict_keys all_languages)
         all_languages))))).

(** ** The outside world *)

(** One call of [session.get(url, params=params, timeout=10)]. *)
Record Request : Type := {
  req_url : string;
  req_params : option (dict Json)
}.

Record Response : Type := {
  status_code : Z;
  headers : dict string;
  text : string;
  (** the value [response.json()] returns, [None] when the body is not
      JSON and [json()] raises [JSONDecodeError] *)
  json_body : option Json
}.

Inductive HttpResult : Type :=
| ConnectionFailed (msg : string)   (* [session.get] raises a RequestException *)
| Responded (r : Response).

(** What the program does not define: the Python functions it calls on data,
    the interpreter's recursion limit, the remote API and the disk. *)
Record Env : Type := {
  (** [int(s)] on a header value; [None] when it raises [ValueError] *)
  py_int : string -> option Z;
  (** [base64.b64decode(c).decode('utf-8')]; [None] when it raises *)
  b64decode_utf8 : Json -> option string;
  (** how an f-string renders a value that is not a [str] *)
  py_repr : Json -> string;
  (** [datetime.now().isoformat()] at a clock reading *)
  isoformat : Z -> string;
  (** [datetime.now().strftime('%Y%m%d_%H%M%S')] at a clock reading *)
  strftime : Z -> string;
  (** how many nested calls of [_make_api_request] the stack has room
      for *)
  recursion_limit : nat;
  (** the API: the answer to a request, given the calls already dispatched
      (most recent first) and the clock *)
  server : list Request -> Z -> Request -> HttpResult;
  (** serialising the document and writing it to a path: [Some msg] when
      that raises an exception whose [str] is [msg]; what such a failure
      leaves at the path, an empty or a partial file when [open] had
      succeeded, is not followed *)
  fs_write : string -> CompleteUserData.t -> option string
}.

(** The scraper object ([self]) and the observable history of a run. *)
Record State : Type := {
  _api_requests_count : Z;
  save_to_file : bool;
  output_dir : string;
  (** wall clock, in milliseconds since the epoch *)
  clock_ms : Z;
  (** calls of [session.get] so far, most recent first *)
  dispatched : list Request;
  (** durations of the [time.sleep] calls so far, in milliseconds, most
      recent first *)
  slept_ms : list Z;
  (** documents written out in full so far with their paths, most recent
      first *)
  written : list (string * CompleteUserData.t)
}.

(** [GitHubScraper(...)] at a clock reading: a fresh counter. *)
Definition new_scraper (save : bool) (dir : string) (now_ms : Z) : State :=
  {| _api_requests_count := 0; save_to_file := save; output_dir := dir;
     clock_ms := now_ms; dispatched := []; slept_ms := []; written := [] |}.

(** ** A state and exception monad *)

Inductive Outcome (A : Type) : Type :=
| Return (a : A)
| Raise (e : PyExn)
| Hang.          (* the loop bound of the model was reached *)

Arguments Raise {A} e.
Arguments Hang {A}.

Definition M (A : Type) : Type := State -> Outcome A * State.

Definition ret {A : Type} (a : A) : M A := fun s => (Return a, s).

Definition bind {A B : Type} (m : M A) (k : A -> M B) : M B :=
  fun s =>
    match m s with
    | (Return a, s') => k a s'
    | (Raise e, s') => (Raise e, s')
    | (Hang, s') => (Hang, s')
    end.

Definition raise {A : Type} (e : PyExn) : M A := fun s => (Raise e, s).

Definition hang {A : Type} : M A := fun s => (Hang, s).

Definition lift {A : Type} (r : Result A) : M A :=
  match r with
  | inl e => raise e
  | inr a => ret a
  end.

Definition gets {A : Type} (f : State -> A) : M A := fun s => (Return (f s), s).

Definition modify (f : State -> State) : M unit := fun s => (Return tt, f s).

(** [try: body  except <catches> as e: handler(e)] *)
Definition try_except {A : Type} (catches : PyExn -> bool) (body : M A)
  (handler : PyExn -> M A) : M A :=
  fun s =>
    match body s with
    | (Raise e, s') => if catches e then handler e s' else (Raise e, s')
    | r => r
    end.

Declare Scope py_scope.
Delimit Scope py_scope with py.
Notation "x <- c ;; k" := (bind c (fun x => k))
  (at level 61, c at next level, right associativity) : py_scope.
Notation "c ;; k" := (bind c (fun _ => k))
  (at level 61, right associativity) : py_scope.
Local Open Scope py_scope.

Definition is_request_exception (e : PyExn) : bool :=
  match e with
  | RequestException _ => true
  | _ => false
  end.

(** [except Exception]: every exception of the model is one. *)
Definition is_exception (e : PyExn) : bool := true.

(** ** The scraper ([github_scraper.py], [file_handler.py]) *)

Definition base_api_url : string := "https://api.github.com".

Definition per_page : Z := 100.

Definition readme_names : list string :=
  ["README.md"; "readme.md"; "README.rst"; "README.txt"; "README"].

Definition scraper_version : string := "1.0.0".

(** State updates. *)
Definition count_request (s : State) : State :=
  {| _api_requests_count := _api_requests_count s + 1;
     save_to_file := save_to_file s; output_dir := output_dir s;
     clock_ms := clock_ms s; dispatched := dispatched s;
     slept_ms := slept_ms s; written := written s |}.

Definition record_request (r : Request) (s : State) : State :=
  {| _api_requests_count := _api_requests_count s;
     save_to_file := save_to_file s; output_dir := output_dir s;
     clock_ms := clock_ms s; dispatched := r :: dispatched s;
     slept_ms := slept_ms s; written := written s |}.

Definition record_sleep (ms : Z) (s : State) : State :=
  {| _api_requests_count := _api_requests_count s;
     save_to_file := save_to_file s; output_dir := output_dir s;
     clock_ms := clock_ms s + ms; dispatched := dispatched s;
     slept_ms := ms :: slept_ms s; written := written s |}.

Definition record_write (path : string) (doc : CompleteUserData.t) (s : State)
  : State :=
  {| _api_requests_count := _api_requests_count s;
     save_to_file := save_to_file s; output_dir := output_dir s;
     clock_ms := clock_ms s; dispatched := dispatched s;
     slept_ms := slept_ms s; written := (path, doc) :: written s |}.

(** [time.sleep(seconds)], the duration given in milliseconds, for the
    durations [time.sleep] accepts (see [longest_sleep_ms]). *)
Definition time_sleep (ms : Z) : M unit := modify (record_sleep ms).

(** [int(time.time())] *)
Definition time_now : M Z := gets (fun s => clock_ms s / 1000).

(** [response.headers.get(name)]: header names are matched without regard to
    case. *)
Fixpoint header_get (name : string) (hs : dict string) : option string :=
  match hs with
  | [] => None
  | (k, v) :: rest =>
      if (lower k =? lower name)%string then Some v else header_get name rest
  end.

(** [response.raise_for_status()] *)
Definition raise_for_status (r : Response) : M unit :=
  if ((400 <=? status_code r) && (status_code r <? 600))%bool
  then raise (RequestException "HTTPError")
  else ret tt.

(** [response.json()], for bodies that are JSON or that the decoder
    refuses with [JSONDecodeError]. *)
Definition response_json (r : Response) : M Json :=
  match json_body r with
  | Some j => ret j
  | None => raise (RequestException "JSONDecodeError")
  end.

Definition is_rate_limited (r : Response) : bool :=
  ((status_code r =? 403) && contains "rate limit" (lower (text r)))%bool.

(** [max(reset_time - current_time, 60)] *)
Definition wait_time (reset_time current_time : Z) : Z :=
  Z.max (reset_time - current_time) 60.

Section Scraper.
Variable env : Env.

(** [session.get(url, params=params, timeout=10)] *)
Definition session_get (url : string) (params : option (dict Json))
  : M Response :=
  fun s =>
    let req := {| req_url := url; req_params := params |} in
    match server env (dispatched s) (clock_ms s) req with
    | ConnectionFailed msg => (Raise (RequestException msg), record_request req s)
    | Responded r => (Return r, record_request req s)
    end.

(** [int(response.headers.get('X-RateLimit-Reset', 0))] *)
Definition reset_header (r : Response) : M Z :=
  match header_get "X-RateLimit-Reset" (headers r) with
  | None => ret 0
  | Some h =>
      match py_int env h with
      | Some z => ret z
      | None => raise (ValueError "invalid literal for int()")
      end
  end.

(** [_make_api_request] when the stack has room for [depth] more
    exchanges, one per nested call.  The call that finds no room has
    counted itself (line 78) when the interpreter gives up on the calls
    it makes next: the counter is then one ahead of the exchanges. *)
Fixpoint _make_api_request_at (depth : nat) (url : string)
  (params : option (dict Json)) : M Json :=
  match depth with
  | O => modify count_request ;; raise RecursionError
  | S depth' =>
      try_except is_request_exception
        (modify count_request ;;
         response <- session_get url params ;;
         if is_rate_limited response
         then (reset_time <- reset_header response ;;
               current_time <- time_now ;;
               time_sleep (wait_time reset_time current_time * 1000) ;;
               _make_api_request_at depth' url params)
         else (raise_for_status response ;;
               response_json response))
        (fun _ => ret JNull)
  end.

Definition _make_api_request (url : string) (params : option (dict Json))
  : M Json :=
  _make_api_request_at (recursion_limit env) url params.

(** A value inside an f-string. *)
Definition fmt (v : Json) : string :=
  match v with
  | JStr s => s
  | _ => py_repr env v
  end.

Definition readme_url (username : string) (repo_name : Json)
  (readme_name : string) : string :=
  base_api_url ++ "/repos/" ++ username ++ "/" ++ fmt repo_name
    ++ "/contents/" ++ readme_name.

(** The [for readme_name in readme_names] loop of [_get_readme_content]. *)
Fixpoint probe_readme (names : list string) (username : string)
  (repo_name : Json) : M (option string) :=
  match names with
  | [] => ret None
  | readme_name :: rest =>
      readme_data <- _make_api_request (readme_url username repo_name readme_name) None ;;
      if truthy readme_data
      then (content_field <- lift (py_get readme_data "content" JNull) ;;
            if truthy content_field
            then match b64decode_utf8 env content_field with
                 | Some content => ret (Some content)
                 | None => probe_readme rest username repo_name
                 end
            else probe_readme rest username repo_name)
      else probe_readme rest username repo_name
  end.

Definition _get_readme_content (username : string) (repo_name : Json)
  (default_branch : Json) : M (option string) :=
  probe_readme readme_names username repo_name.

Definition _get_profile_readme (username : string) : M (option string) :=
  _get_readme_content username (JStr username) (JStr "main").

Definition user_url (username : string) : string :=
  base_api_url ++ "/users/" ++ username.

Definition get_user_profile (username : string) : M (option UserProfile.t) :=
  user_data <- _make_api_request (user_url username) None ;;
  if negb (truthy user_data) then ret None
  else
    profile_readme <- _get_profile_readme username ;;
    twitter_username <- lift (py_get user_data "twitter_username" JNull) ;;
    name <- lift (py_get user_data "name" JNull) ;;
    bio <- lift (py_get user_data "bio" JNull) ;;
    company <- lift (py_get user_data "company" JNull) ;;
    website <- lift (py_get user_data "blog" JNull) ;;
    location <- lift (py_get user_data "location" JNull) ;;
    email <- lift (py_get user_data "email" JNull) ;;
    public_repos <- lift (py_get user_data "public_repos" (JInt 0)) ;;
    followers <- lift (py_get user_data "followers" (JInt 0)) ;;
    following <- lift (py_get user_data "following" (JInt 0)) ;;
    avatar_url <- lift (py_get user_data "avatar_url" JNull) ;;
    login <- lift (py_get user_data "login" (JStr username)) ;;
    ret (Some (UserProfile.Build name bio company website
                 (if truthy twitter_username
                  then JStr ("https://twitter.com/" ++ fmt twitter_username)
                  else JNull)
                 location email public_repos followers following
                 profile_readme avatar_url login)).

Definition languages_url (username : string) (repo_name : Json) : string :=
  base_api_url ++ "/repos/" ++ username ++ "/" ++ fmt repo_name ++ "/languages".

Definition get_repository_languages (username : string) (repo_name : Json)
  : M Json :=
  languages_data <- _make_api_request (languages_url username repo_name) None ;;
  ret (if truthy languages_data then languages_data else JDict []).

Definition repos_url (username : string) : string :=
  base_api_url ++ "/users/" ++ username ++ "/repos".

Definition repos_params (page : Z) : dict Json :=
  [("page", JInt page); ("per_page", JInt per_page);
   ("sort", JStr "updated"); ("direction", JStr "desc")].

(** The body of [for repo_data in repos_data]. *)
Definition scrape_repository (username : string) (repo_data : Json)
  : M Repository.t :=
  repo_name <- lift (py_get repo_data "name" (JStr EmptyString)) ;;
  default_branch <- lift (py_get repo_data "default_branch" (JStr "main")) ;;
  readme_content <- _get_readme_content username repo_name default_branch ;;
  languages <- get_repository_languages username repo_name ;;
  time_sleep 100 ;;
  about <- lift (py_get repo_data "description" JNull) ;;
  description <- lift (py_get repo_data "description" JNull) ;;
  url <- lift (py_get repo_data "html_url" (JStr EmptyString)) ;;
  stars <- lift (py_get repo_data "stargazers_count" (JInt 0)) ;;
  forks <- lift (py_get repo_data "forks_count" (JInt 0)) ;;
  is_fork <- lift (py_get repo_data "fork" (JBool false)) ;;
  ret (Repository.Build repo_name about description readme_content languages
         url stars forks is_fork default_branch).

Fixpoint scrape_page (username : string) (items : list Json)
  (repositories : list Repository.t) : M (list Repository.t) :=
  match items with
  | [] => ret repositories
  | repo_data :: rest =>
      repository <- scrape_repository username repo_data ;;
      scrape_page username rest (repositories ++ [repository])
  end.

(** The [while True] loop of [get_user_repositories]; [fuel] bounds the
    number of pages the model follows. *)
Fixpoint fetch_pages (fuel : nat) (username : string) (page : Z)
  (repositories : list Repository.t) : M (list Repository.t) :=
  match fuel with
  | O => hang
  | S fuel' =>
      repos_data <- _make_api_request (repos_url username)
                      (Some (repos_params page)) ;;
      if negb (truthy repos_data) then ret repositories
      else
        n <- lift (py_len repos_data) ;;
        if n =? 0 then ret repositories
        else
          items <- lift (py_iter repos_data) ;;
          repositories' <- scrape_page username items repositories ;;
          if n <? per_page then ret repositories'
          else fetch_pages fuel' username (page + 1) repositories'
  end.

Definition get_user_repositories (fuel : nat) (username : string)
  : M (list Repository.t) :=
  fetch_pages fuel username 1 [].

(** [FileHandler.save_to_json] *)
Definition save_to_json (doc : CompleteUserData.t) (username : string)
  : M string :=
  now <- gets clock_ms ;;
  dir <- gets output_dir ;;
  let filename := username ++ "_profile_" ++ strftime env now ++ ".json" in
  let filepath := path_join dir filename in
  match fs_write env filepath doc with
  | None => modify (record_write filepath doc) ;; ret filepath
  | Some msg => raise (OSError msg)
  end.

Definition set_saved_to_file (path : string) (d : CompleteUserData.t)
  : CompleteUserData.t :=
  let m := CompleteUserData.metadata d in
  CompleteUserData.Build (CompleteUserData.profile d)
    (CompleteUserData.repositories d) (CompleteUserData.statistics d)
    (ScrapingMetadata.Build (ScrapingMetadata.scraped_at m)
       (ScrapingMetadata.scraper_version m)
       (ScrapingMetadata.total_api_requests m)
       (Some path) (ScrapingMetadata.save_error m)).

Definition set_save_error (msg : string) (d : CompleteUserData.t)
  : CompleteUserData.t :=
  let m := CompleteUserData.metadata d in
  CompleteUserData.Build (CompleteUserData.profile d)
    (CompleteUserData.repositories d) (CompleteUserData.statistics d)
    (ScrapingMetadata.Build (ScrapingMetadata.scraped_at m)
       (ScrapingMetadata.scraper_version m)
       (ScrapingMetadata.total_api_requests m)
       (ScrapingMetadata.saved_to_file m) (Some msg)).

Definition profile_failure (username : string) : PyExn :=
  PlainException ("Failed to fetch profile for: " ++ username).

Definition scrape_user_complete (fuel : nat) (username : string)
  (save_to_file_arg : option bool) : M CompleteUserData.t :=
  profile <- get_user_profile username ;;
  match profile with
  | None => raise (profile_failure username)
  | Some profile =>
      repositories <- get_user_repositories fuel username ;;
      statistics <- lift (_calculate_statistics repositories) ;;
      now <- gets clock_ms ;;
      count <- gets _api_requests_count ;;
      let metadata :=
        ScrapingMetadata.Build (isoformat env now) scraper_version count
          None None in
      let complete_data :=
        CompleteUserData.Build profile repositories statistics metadata in
      self_save <- gets save_to_file ;;
      let should_save :=
        match save_to_file_arg with
        | Some b => b
        | None => self_save
        end in
      if should_save
      then try_except is_exception
             (filepath <- save_to_json complete_data username ;;
              ret (set_saved_to_file filepath complete_data))
             (fun e => ret (set_save_error (str_exn e) complete_data))
      else ret complete_data
  end.

End Scraper.

(** ** Statistics: what the aggregation computes *)

Local Close Scope py_scope.

(** Reference notions the statistics are compared with. *)

Definition sum_Z (l : list Z) : Z := fold_right Z.add 0 l.

Definition int_of (v : Json) : Z :=
  match as_int v with
  | Some z => z
  | None => 0
  end.

Definition is_int (v : Json) : bool :=
  match as_int v with
  | Some _ => true
  | None => false
  end.

(** The language mapping of a repository, as a list of entries. *)
Definition language_items (r : Repository.t) : list (string * Json) :=
  match Repository.languages r with
  | JDict d => d
  | _ => []
  end.

(** A repository that fits the annotations of [models.py] where the
    statistics read it: integer [stars] and [forks], and a [languages]
    mapping with integer values. *)
Definition typed_repo (r : Repository.t) : bool :=
  (is_int (Repository.stars r) && is_int (Repository.forks r)
   && match Repository.languages r with
      | JDict d => forallb (fun kv => is_int (snd kv)) d
      | _ => false
      end)%bool.

Definition has_readme (r : Repository.t) : bool :=
  truthy_opt_str (Repository.readme_content r).

(** A list without its repetitions, every element kept where it first
    occurs. *)
Fixpoint first_seen (ks : list string) : list string :=
  match ks with
  | [] => []
  | k :: rest => k :: filter (fun k' => negb (k' =? k)%string) (first_seen rest)
  end.

(** The language names of a repository sequence, in the order the
    aggregation meets them. *)
Definition languages_met (R : list Repository.t) : list string :=
  flat_map (fun r => map fst (language_items r)) R.

(** The bytes a repository attributes to a language, [0] when it does not
    list it. *)
Definition language_bytes (lang : string) (r : Repository.t) : Z :=
  int_of (dict_get lang (JInt 0) (language_items r)).

(** All bytes a repository lists. *)
Definition repo_bytes (r : Repository.t) : Z :=
  sum_Z (map (fun kv => int_of (snd kv)) (language_items r)).

(** Membership among keys. *)
Definition mem (k : string) (l : list string) : bool :=
  existsb (String.eqb k) l.

Fixpoint distinct (l : list string) : bool :=
  match l with
  | [] => true
  | k :: rest => (negb (mem k rest) && distinct rest)%bool
  end.

(** Keys of a Python dict are pairwise distinct. *)
Definition distinct_keys (r : Repository.t) : bool :=
  distinct (map fst (language_items r)).

(** One step of the histogram on entries known to be integers. *)
Definition tally (d : dict Z) (kv : string * Json) : dict Z :=
  dict_set (fst kv) (dict_get (fst kv) 0 d + int_of (snd kv)) d.

Definition tally_all (d : dict Z) (items : list (string * Json)) : dict Z :=
  fold_left tally items d.

(** The bytes a list of entries gives to one language. *)
Definition bytes_for (lang : string) (items : list (string * Json)) : Z :=
  sum_Z (map (fun kv => if (fst kv =? lang)%string then int_of (snd kv) else 0)
             items).

Definition int_entries (items : list (string * Json)) : bool :=
  forallb (fun kv => is_int (snd kv)) items.

(** ** Sample data *)

Definition sample_repo (name : string) (readme : option string)
  (langs : dict Json) (stars forks : Z) : Repository.t :=
  Repository.Build (JStr name) JNull JNull readme (JDict langs)
    (JStr ("https://github.com/octocat/" ++ name)) (JInt stars) (JInt forks)
    (JBool false) (JStr "main").

Definition sample_repos : list Repository.t :=
  [ sample_repo "alpha" (Some "# alpha")
      [("Python", JInt 120); ("C", JInt 30)] 5 1;
    sample_repo "beta" None
      [("C", JInt 70); ("Rust", JInt 10)] 2 0;
    sample_repo "gamma" (Some EmptyString) [] 0 3;
    sample_repo "delta" (Some "docs")
      [("Rust", JInt 5); ("Python", JInt 1); ("Go", JInt 9)] 7 4 ].

(** ** Reading a run *)

(** The request [_make_api_request] dispatches. *)
Definition request (url : string) (params : option (dict Json)) : Request :=
  {| req_url := url; req_params := params |}.

(** The state after one call has been counted and dispatched. *)
Definition after_call (r : Request) (s : State) : State :=
  record_request r (count_request s).

Definition rate_limited (res : HttpResult) : bool :=
  match res with
  | ConnectionFailed _ => false
  | Responded r => is_rate_limited r
  end.

(** What [_make_api_request] returns for an exchange that is not rate
    limited: the JSON body of a response outside the error statuses, and
    [None] otherwise. *)
Definition plain_result (res : HttpResult) : Json :=
  match res with
  | ConnectionFailed _ => JNull
  | Responded r =>
      if ((400 <=? status_code r) && (status_code r <? 600))%bool then JNull
      else match json_body r with
           | Some j => j
           | None => JNull
           end
  end.

(** The value of the reset header, [None] when [int] raises on it. *)
Definition reset_epoch (env : Env) (r : Response) : option Z :=
  match header_get "X-RateLimit-Reset" (headers r) with
  | None => Some 0
  | Some h => py_int env h
  end.

(** The calls dispatched between two states of one history. *)
Definition calls_between (s s' : State) : list Request :=
  firstn (List.length (dispatched s') - List.length (dispatched s))
         (dispatched s').

(** ** Sample worlds *)

Fixpoint digits_value (acc : Z) (s : string) : option Z :=
  match s with
  | EmptyString => Some acc
  | String c rest =>
      let n := nat_of_ascii c in
      if (Nat.leb 48 n && Nat.leb n 57)%bool
      then digits_value (10 * acc + Z.of_nat (n - 48)) rest
      else None
  end.

Definition is_blank (c : ascii) : bool :=
  let n := nat_of_ascii c in
  (Nat.eqb n 32 || (Nat.leb 9 n && Nat.leb n 13))%bool.

Fixpoint lstrip (s : string) : string :=
  match s with
  | String c rest => if is_blank c then lstrip rest else s
  | EmptyString => EmptyString
  end.

Definition reversed (s : string) : string :=
  string_of_list_ascii (rev (list_ascii_of_string s)).

(** [s.strip()], on the ASCII blanks. *)
Definition strip (s : string) : string :=
  reversed (lstrip (reversed (lstrip s))).

Definition unsigned_value (s : string) : option Z :=
  match s with
  | EmptyString => None
  | _ => digits_value 0 s
  end.

(** A decimal reader for header values, after [int]: blanks around the
    number and a sign before it are accepted. *)
Definition sample_int (s : string) : option Z :=
  match strip s with
  | String "-" rest => option_map Z.opp (unsigned_value rest)
  | String "+" rest => unsigned_value rest
  | t => unsigned_value t
  end.

(** A stand-in codec: contents of the form ["b64:<text>"] decode to
    [<text>], anything else fails to decode. *)
Definition sample_decode (c : Json) : option string :=
  match c with
  | JStr s =>
      if String.prefix "b64:" s
      then Some (String.substring 4 (String.length s - 4) s)
      else None
  | _ => None
  end.

Definition sample_env (srv : list Request -> Z -> Request -> HttpResult)
  (fsw : string -> CompleteUserData.t -> option string) : Env :=
  {| py_int := sample_int;
     b64decode_utf8 := sample_decode;
     py_repr := fun _ => "<value>";
     isoformat := fun _ => "2025-01-01T00:00:00";
     strftime := fun _ => "20250101_000000";
     recursion_limit := 900;
     server := srv;
     fs_write := fsw |}.

Definition ok_response (j : Json) : HttpResult :=
  Responded {| status_code := 200; headers := []; text := EmptyString; json_body := Some j |}.

Definition not_found : HttpResult :=
  Responded {| status_code := 404; headers := [];
               text := "Not Found";
               json_body := Some (JDict [("message", JStr "Not Found")]) |}.

Definition rate_limit_response (reset : string) : HttpResult :=
  Responded {| status_code := 403;
               headers := [("X-RateLimit-Remaining", "0");
                           ("X-RateLimit-Reset", reset)];
               text := "API rate limit exceeded for 203.0.113.7.";
               json_body := Some (JDict [("message", JStr "API rate limit exceeded")]) |}.

Definition disk_ok : string -> CompleteUserData.t -> option string :=
  fun _ _ => None.

Definition disk_full : string -> CompleteUserData.t -> option string :=
  fun _ _ => Some "[Errno 28] No space left on device".

(** A scraper created at second 1000 of the epoch. *)
Definition sample_start : State := new_scraper true "output" 1000000.

(** An API that is rate limited on the first call, with a reset five
    seconds ahead, and answers afterwards. *)
Definition limited_once (history : list Request) (now : Z) (r : Request)
  : HttpResult :=
  match history with
  | [] => rate_limit_response "1005"
  | _ => ok_response (JDict [("login", JStr "octocat")])
  end.

(** ** Reading a whole scrape *)

(** Exceptions of the interpreter itself, as opposed to the failures the
    scraper names. *)
Definition runtime_error (e : PyExn) : bool :=
  match e with
  | AttributeError _ | TypeError _ | ValueError _ | RecursionError => true
  | _ => false
  end.

Definition Krt : PyExn -> Prop := fun e => runtime_error e = true.

(** The calls of a run are counted one for one: the history grew by some
    calls and the counter by their number. *)
Definition counted (s s' : State) : Prop :=
  exists calls,
    dispatched s' = (calls ++ dispatched s)%list
    /\ _api_requests_count s' = _api_requests_count s + Z.of_nat (List.length calls).

(** When a computation returns, a relation holds between the states around
    it; when it raises, the exception is of one kind. *)
Definition post (P : State -> State -> Prop) (K : PyExn -> Prop) (A : Type)
  (m : M A) : Prop :=
  forall s o s',
    m s = (o, s') ->
    (forall a, o = Return a -> P s s') /\ forall e, o = Raise e -> K e.

(** A computation keeps a relation between the states around it, however
    it ends. *)
Definition keeps (P : State -> State -> Prop) (A : Type) (m : M A) : Prop :=
  forall s o s', m s = (o, s') -> P s s'.

(** The aggregate before the save step touches it. *)
Definition unsaved_document (env : Env) (p : UserProfile.t)
  (R : list Repository.t) (st : ScrapingStatistics.t) (s : State)
  : CompleteUserData.t :=
  CompleteUserData.Build p R st
    (ScrapingMetadata.Build (isoformat env (clock_ms s)) scraper_version
       (_api_requests_count s) None None).

Definition save_path (env : Env) (username : string) (s : State) : string :=
  path_join (output_dir s)
    (username ++ "_profile_" ++ strftime env (clock_ms s) ++ ".json").

Definition should_save (arg : option bool) (s : State) : bool :=
  match arg with
  | Some b => b
  | None => save_to_file s
  end.

(** The same environment over another disk. *)
Definition with_fs_write (env : Env)
  (fsw : string -> CompleteUserData.t -> option string) : Env :=
  {| py_int := py_int env; b64decode_utf8 := b64decode_utf8 env;
     py_repr := py_repr env; isoformat := isoformat env;
     strftime := strftime env; recursion_limit := recursion_limit env;
     server := server env; fs_write := fsw |}.

(** An account without repositories: the user record is served, the
    listing is empty and nothing else exists. *)
Definition octocat_api (history : list Request) (now : Z) (r : Request)
  : HttpResult :=
  if (req_url r =? "https://api.github.com/users/octocat")%string
  then ok_response (JDict [("login", JStr "octocat");
                           ("name", JStr "The Octocat");
                           ("public_repos", JInt 0)])
  else if (req_url r =? "https://api.github.com/users/octocat/repos")%string
  then ok_response (JList [])
  else not_found.

(** The same account when [README.md] of the profile repository is a
    directory: the contents endpoint then lists its entries in an array. *)
Definition readme_directory_api (history : list Request) (now : Z)
  (r : Request) : HttpResult :=
  if (req_url r
      =? "https://api.github.com/repos/octocat/octocat/contents/README.md")%string
  then ok_response (JList [JDict [("name", JStr "logo.png");
                                  ("type", JStr "file")]])
  else octocat_api history now r.

(** A repository whose [README.md] is a directory and whose [readme.md]
    is a file. *)
Definition readme_directory_and_file_api (history : list Request) (now : Z)
  (r : Request) : HttpResult :=
  if (req_url r
      =? "https://api.github.com/repos/octocat/hello/contents/README.md")%string
  then ok_response (JList [JDict [("name", JStr "logo.png");
                                  ("type", JStr "file")]])
  else if (req_url r
           =? "https://api.github.com/repos/octocat/hello/contents/readme.md")%string
  then ok_response (JDict [("name", JStr "readme.md");
                           ("content", JStr "b64:# Hello")])
  else not_found.

(** An API that answers nothing. *)
Definition unreachable_api (history : list Request) (now : Z) (r : Request)
  : HttpResult :=
  ConnectionFailed "Connection refused".

(** ** Worlds that answer plainly *)

(** Whatever the history and the clock, the API answers a request without
    rate limiting, and [_make_api_request] returns [v] for it. *)
Definition answers_plainly (env : Env) (r : Request) (v : Json) : Prop :=
  forall history now,
    rate_limited (server env history now r) = false
    /\ plain_result (server env history now r) = v.

(** *** README probing *)

(** The content a probe result carries, when it decodes. *)
Definition readable (env : Env) (v : Json) : option string :=
  match v with
  | JDict d =>
      let c := dict_get "content" JNull d in
      if truthy c then b64decode_utf8 env c else None
  | _ => None
  end.

(** The first candidate, in order, whose answer carries content that
    decodes, with that content. *)
Fixpoint first_readable (env : Env) (answer : string -> Json)
  (names : list string) : option (string * string) :=
  match names with
  | [] => None
  | n :: rest =>
      match readable env (answer n) with
      | Some c => Some (n, c)
      | None => first_readable env answer rest
      end
  end.

(** The candidates up to and including that one; all of them when there is
    none. *)
Fixpoint probed (env : Env) (answer : string -> Json) (names : list string)
  : list string :=
  match names with
  | [] => []
  | n :: rest =>
      n :: match readable env (answer n) with
           | Some _ => []
           | None => probed env answer rest
           end
  end.

(** A JSON object, or no data. *)
Definition object_or_none (v : Json) : bool :=
  match v with
  | JNull | JDict _ => true
  | _ => false
  end.

Definition probe (env : Env) (username : string) (repo_name : Json)
  (n : string) : Request :=
  request (readme_url env username repo_name n) None.

(** The state after a list of calls, made in order. *)
Definition after_calls (rs : list Request) (s : State) : State :=
  fold_left (fun t r => after_call r t) rs s.

(** *** Listings *)

(** The API serves the listing of a user page by page and has nothing
    else: no README, no language data. *)
Definition listing_only (env : Env) (username : string)
  (pages : Z -> list Json) : Prop :=
  (forall p,
      answers_plainly env
        (request (repos_url username) (Some (repos_params p)))
        (JList (pages p)))
  /\ (forall r,
        req_url r <> repos_url username -> answers_plainly env r JNull).

Definition is_object (v : Json) : bool :=
  match v with
  | JDict _ => true
  | _ => false
  end.

(** The record built for a listed repository that has no README and no
    language data. *)
Definition bare_repository (item : Json) : Repository.t :=
  match item with
  | JDict d =>
      Repository.Build
        (dict_get "name" (JStr EmptyString) d)
        (dict_get "description" JNull d)
        (dict_get "description" JNull d)
        None
        (JDict [])
        (dict_get "html_url" (JStr EmptyString) d)
        (dict_get "stargazers_count" (JInt 0) d)
        (dict_get "forks_count" (JInt 0) d)
        (dict_get "fork" (JBool false) d)
        (dict_get "default_branch" (JStr "main") d)
  | _ => Repository.Build JNull JNull JNull None JNull JNull JNull JNull JNull JNull
  end.

(** The calls one listed repository costs: five probes and the language
    lookup. *)
Definition repository_calls (env : Env) (username : string) (item : Json)
  : list Request :=
  let repo_name :=
    match item with
    | JDict d => dict_get "name" (JStr EmptyString) d
    | _ => JNull
    end in
  (map (probe env username repo_name) readme_names
   ++ [request (languages_url env username repo_name) None])%list.

(** The items of pages [first], [first + 1], ..., [first + n]. *)
Fixpoint pages_through (pages : Z -> list Json) (first : Z) (n : nat)
  : list Json :=
  match n with
  | O => pages first
  | S n' => (pages first ++ pages_through pages (first + 1) n')%list
  end.

(** The state after the repositories of a page have been scraped. *)
Definition after_repository (env : Env) (username : string) (s : State)
  (item : Json) : State :=
  record_sleep 100 (after_calls (repository_calls env username item) s).

Definition after_page (env : Env) (username : string) (items : list Json)
  (s : State) : State :=
  fold_left (after_repository env username) items s.

(** A listing served in pages of the given sizes, and nothing else. *)
Definition page_of_size (n : nat) : list Json :=
  repeat (JDict [("name", JStr "repo"); ("stargazers_count", JInt 1)]) n.

Definition sized_pages (sizes : list nat) (p : Z) : list Json :=
  if p <=? 0 then [] else page_of_size (nth (Z.to_nat (p - 1)) sizes 0%nat).

Definition paged_api (sizes : list nat) (history : list Request) (now : Z)
  (r : Request) : HttpResult :=
  if (req_url r =? "https://api.github.com/users/octocat/repos")%string
  then match req_params r with
       | Some params =>
           match dict_get "page" JNull params with
           | JInt p => ok_response (JList (sized_pages sizes p))
           | _ => not_found
           end
       | None => not_found
       end
  else not_found.

(** A listing whose first page is full and whose second page cannot be
    fetched. *)
Definition paged_then_down (history : list Request) (now : Z) (r : Request)
  : HttpResult :=
  if (req_url r =? "https://api.github.com/users/octocat/repos")%string
  then match req_params r with
       | Some params =>
           match dict_get "page" JNull params with
           | JInt 1 => ok_response (JList (page_of_size 100))
           | _ => ConnectionFailed "Read timed out"
           end
       | None => not_found
       end
  else not_found.


(** A repository whose [README.md] does not decode and whose [README.rst]
    does. *)
Definition broken_readme_api (history : list Request) (now : Z) (r : Request)
  : HttpResult :=
  if (req_url r
      =? "https://api.github.com/repos/octocat/hello/contents/README.md")%string
  then ok_response (JDict [("content", JStr "not base64")])
  else if (req_url r
           =? "https://api.github.com/repos/octocat/hello/contents/README.rst")%string
  then ok_response (JDict [("content", JStr "b64:Hello, in reST")])
  else not_found.

(** ** Notions for the further properties *)

(** The values that are no number whatever the reading: [None], strings,
    lists and mappings. *)
Definition not_a_number (v : Json) : bool :=
  match v with
  | JNull | JStr _ | JList _ | JDict _ => true
  | JBool _ | JInt _ => false
  end.

(** Integer stars and forks. *)
Definition counted_repo (r : Repository.t) : bool :=
  (is_int (Repository.stars r) && is_int (Repository.forks r))%bool.

(** The state after [k] exchanges in a row that are rate limited with a
    readable reset header, each followed by its sleep; [None] when one of
    the next [k] answers is not of that kind. *)
Fixpoint limited_for (env : Env) (req : Request) (k : nat) (s : State)
  : option State :=
  match k with
  | O => Some s
  | S k' =>
      match server env (dispatched s) (clock_ms s) req with
      | Responded r =>
          if is_rate_limited r
          then match reset_epoch env r with
               | Some reset =>
                   limited_for env req k'
                     (record_sleep (wait_time reset (clock_ms s / 1000) * 1000)
                        (after_call req s))
               | None => None
               end
          else None
      | ConnectionFailed _ => None
      end
  end.

(** The longest wait [time.sleep] accepts, in milliseconds: the seconds
    must fit a signed 64-bit count of nanoseconds, and [OverflowError] is
    raised otherwise. *)
Definition longest_sleep_ms : Z := 9223372036000.

(** Whether each of the next [k] answers is a rate-limit response whose
    wait [time.sleep] accepts. *)
Fixpoint waits_accepted (env : Env) (req : Request) (k : nat) (s : State)
  : bool :=
  match k with
  | O => true
  | S k' =>
      match server env (dispatched s) (clock_ms s) req with
      | Responded r =>
          match reset_epoch env r with
          | Some reset =>
              let ms := wait_time reset (clock_ms s / 1000) * 1000 in
              ((ms <=? longest_sleep_ms)
               && waits_accepted env req k' (record_sleep ms (after_call req s)))%bool
          | None => false
          end
      | ConnectionFailed _ => false
      end
  end.

(** An API that is rate limited for ever, with a reset time in the past. *)
Definition always_limited (history : list Request) (now : Z) (r : Request)
  : HttpResult :=
  rate_limit_response "0".

(** An API that is rate limited for the first three calls. *)
Definition limited_thrice (history : list Request) (now : Z) (r : Request)
  : HttpResult :=
  if Nat.ltb (List.length history) 3 then rate_limit_response "1030"
  else ok_response (JDict [("login", JStr "octocat")]).

(** An API that refuses with status 429 and the words of a rate limit. *)
Definition too_many_requests (history : list Request) (now : Z) (r : Request)
  : HttpResult :=
  Responded {| status_code := 429; headers := [("Retry-After", "30")];
               text := "API rate limit exceeded";
               json_body := Some (JDict [("message", JStr "slow down")]) |}.

(** A rate-limited answer without the reset header, then an answer. *)
Definition limited_without_header (history : list Request) (now : Z)
  (r : Request) : HttpResult :=
  match history with
  | [] => Responded {| status_code := 403; headers := [];
                       text := "Rate Limit exceeded"; json_body := None |}
  | _ => ok_response (JList [])
  end.

(** A rate-limited answer whose reset header is not a number. *)
Definition limited_bad_header (history : list Request) (now : Z)
  (r : Request) : HttpResult :=
  rate_limit_response "soon".

(** The profile built from a user record [d] and a profile README. *)
Definition profile_of_record (env : Env) (username : string) (d : dict Json)
  (readme : option string) : UserProfile.t :=
  UserProfile.Build
    (dict_get "name" JNull d)
    (dict_get "bio" JNull d)
    (dict_get "company" JNull d)
    (dict_get "blog" JNull d)
    (if truthy (dict_get "twitter_username" JNull d)
     then JStr ("https://twitter.com/"
                ++ fmt env (dict_get "twitter_username" JNull d))
     else JNull)
    (dict_get "location" JNull d)
    (dict_get "email" JNull d)
    (dict_get "public_repos" (JInt 0) d)
    (dict_get "followers" (JInt 0) d)
    (dict_get "following" (JInt 0) d)
    readme
    (dict_get "avatar_url" JNull d)
    (dict_get "login" (JStr username) d).

(** A repository record goes back to an item of the listing: the item is
    a JSON object, and the record has its values, with the defaults of the
    code for the keys the object lacks. *)
Definition built_from (item : Json) (r : Repository.t) : Prop :=
  exists d,
    item = JDict d
    /\ Repository.name r = dict_get "name" (JStr EmptyString) d
    /\ Repository.about r = dict_get "description" JNull d
    /\ Repository.description r = dict_get "description" JNull d
    /\ Repository.url r = dict_get "html_url" (JStr EmptyString) d
    /\ Repository.stars r = dict_get "stargazers_count" (JInt 0) d
    /\ Repository.forks r = dict_get "forks_count" (JInt 0) d
    /\ Repository.is_fork r = dict_get "fork" (JBool false) d
    /\ Repository.default_branch r = dict_get "default_branch" (JStr "main") d.

(** The language field holds data, or the empty mapping. *)
Definition languages_or_empty (r : Repository.t) : Prop :=
  Repository.languages r = JDict []
  \/ truthy (Repository.languages r) = true.

(** The state after pages [first] to [first + n] of a listing have been
    fetched and their repositories scraped. *)
Fixpoint after_listing (env : Env) (username : string)
  (pages : Z -> list Json) (first : Z) (n : nat) (s : State) : State :=
  let s1 :=
    after_page env username (pages first)
      (after_call (request (repos_url username) (Some (repos_params first))) s)
  in
  match n with
  | O => s1
  | S n' => after_listing env username pages (first + 1) n' s1
  end.

(** A listing whose every page is full. *)
Definition paged_forever (history : list Request) (now : Z) (r : Request)
  : HttpResult :=
  if (req_url r =? "https://api.github.com/users/octocat/repos")%string
  then ok_response (JList (page_of_size 100))
  else not_found.

(** An account with a profile README and a Twitter handle. *)
Definition profile_api (history : list Request) (now : Z) (r : Request)
  : HttpResult :=
  if (req_url r =? "https://api.github.com/users/octocat")%string
  then ok_response (JDict [("login", JStr "octocat");
                           ("blog", JStr "https://github.blog");
                           ("twitter_username", JStr "github");
                           ("followers", JInt 42)])
  else if (req_url r
           =? "https://api.github.com/repos/octocat/octocat/contents/readme.md")%string
  then ok_response (JDict [("content", JStr "b64:Hi there")])
  else not_found.

(** Fetching leaves the scraper's settings and the disk alone, and the
    clock does not go back. *)
Definition undisturbed (s s' : State) : Prop :=
  written s' = written s
  /\ save_to_file s' = save_to_file s
  /\ output_dir s' = output_dir s
  /\ clock_ms s <= clock_ms s'.

(** An account with two repositories, one of them with a README and
    language data. *)
Definition small_account_api (history : list Request) (now : Z) (r : Request)
  : HttpResult :=
  if (req_url r =? "https://api.github.com/users/octocat")%string
  then ok_response (JDict [("login", JStr "octocat")])
  else if (req_url r =? "https://api.github.com/users/octocat/repos")%string
  then ok_response
         (JList [JDict [("name", JStr "hello");
                        ("description", JStr "Says hello");
                        ("stargazers_count", JInt 3)];
                 JDict [("name", JStr "world"); ("forks_count", JInt 2)]])
  else if (req_url r
           =? "https://api.github.com/repos/octocat/hello/languages")%string
  then ok_response (JDict [("Python", JInt 120); ("Shell", JInt 8)])
  else if (req_url r
           =? "https://api.github.com/repos/octocat/hello/contents/README.md")%string
  then ok_response (JDict [("content", JStr "b64:# hello")])
  else not_found.

(** ** File handling ([file_handler.py]) *)

(** Python values as [_convert_to_json_serializable] sees them: the values
    of JSON, tuples, sets, and instances of dataclasses with their fields
    in declaration order.  An instance has a [__dict__] unless its class
    was declared with slots.  Dictionaries have string keys, as all
    dictionaries of this program do. *)
Inductive PyVal : Type :=
| VNone
| VBool (b : bool)
| VInt (z : Z)
| VStr (s : string)
| VList (l : list PyVal)
| VTuple (l : list PyVal)
| VSet (l : list PyVal)
| VDict (d : list (string * PyVal))
| VData (cls : string) (has_dict : bool) (fields : list (string * PyVal)).

(** [dataclasses.asdict]: fields, lists, tuples and dictionaries are
    converted all the way down, whether an instance has a [__dict__] or
    not; anything else, a set included, is copied as it is. *)
Fixpoint asdict (v : PyVal) : PyVal :=
  match v with
  | VData _ _ fields =>
      VDict (map (fun kv => (fst kv, asdict (snd kv))) fields)
  | VList l => VList (map asdict l)
  | VTuple l => VTuple (map asdict l)
  | VDict d => VDict (map (fun kv => (fst kv, asdict (snd kv))) d)
  | _ => v
  end.

(** [FileHandler._convert_to_json_serializable] *)
Fixpoint _convert_to_json_serializable (data : PyVal) : PyVal :=
  match data with
  | VData _ has_dict _ => if has_dict then asdict data else data
  | VDict d =>
      VDict (map (fun kv => (fst kv, _convert_to_json_serializable (snd kv))) d)
  | VList l => VList (map _convert_to_json_serializable l)
  | _ => data
  end.

(** No dataclass instance anywhere in a value. *)
Fixpoint no_data (v : PyVal) : bool :=
  match v with
  | VData _ _ _ => false
  | VList l | VTuple l | VSet l => forallb no_data l
  | VDict d => forallb (fun kv => no_data (snd kv)) d
  | _ => true
  end.

(** No set that holds a dataclass instance, among the values reached
    through dataclass fields, lists, tuples and dictionaries. *)
Fixpoint no_data_in_sets (v : PyVal) : bool :=
  match v with
  | VSet l => forallb no_data l
  | VData _ _ fields => forallb (fun kv => no_data_in_sets (snd kv)) fields
  | VList l | VTuple l => forallb no_data_in_sets l
  | VDict d => forallb (fun kv => no_data_in_sets (snd kv)) d
  | _ => true
  end.

(** Among the values reached through lists and dictionaries only: every
    dataclass instance has a [__dict__] and no set with an instance in it,
    and no tuple and no set holds an instance. *)
Fixpoint fully_converted (v : PyVal) : bool :=
  match v with
  | VData _ has_dict fields =>
      (has_dict && forallb (fun kv => no_data_in_sets (snd kv)) fields)%bool
  | VTuple l | VSet l => forallb no_data l
  | VList l => forallb fully_converted l
  | VDict d => forallb (fun kv => fully_converted (snd kv)) d
  | _ => true
  end.

(** A JSON value as a Python value. *)
Fixpoint of_json (j : Json) : PyVal :=
  match j with
  | JNull => VNone
  | JBool b => VBool b
  | JInt z => VInt z
  | JStr s => VStr s
  | JList l => VList (map of_json l)
  | JDict d => VDict (map (fun kv => (fst kv, of_json (snd kv))) d)
  end.

Definition of_optional_str (o : option string) : PyVal :=
  match o with
  | Some s => VStr s
  | None => VNone
  end.

(** The dataclass instances of [models.py], none of them declared with
    slots. *)
Definition profile_value (p : UserProfile.t) : PyVal :=
  VData "UserProfile" true
    [("name", of_json (UserProfile.name p));
     ("bio", of_json (UserProfile.bio p));
     ("company", of_json (UserProfile.company p));
     ("website", of_json (UserProfile.website p));
     ("twitter", of_json (UserProfile.twitter p));
     ("location", of_json (UserProfile.location p));
     ("email", of_json (UserProfile.email p));
     ("public_repos", of_json (UserProfile.public_repos p));
     ("followers", of_json (UserProfile.followers p));
     ("following", of_json (UserProfile.following p));
     ("profile_readme", of_optional_str (UserProfile.profile_readme p));
     ("avatar_url", of_json (UserProfile.avatar_url p));
     ("login", of_json (UserProfile.login p))].

Definition repository_value (r : Repository.t) : PyVal :=
  VData "Repository" true
    [("name", of_json (Repository.name r));
     ("about", of_json (Repository.about r));
     ("description", of_json (Repository.description r));
     ("readme_content", of_optional_str (Repository.readme_content r));
     ("languages", of_json (Repository.languages r));
     ("url", of_json (Repository.url r));
     ("stars", of_json (Repository.stars r));
     ("forks", of_json (Repository.forks r));
     ("is_fork", of_json (Repository.is_fork r));
     ("default_branch", of_json (Repository.default_branch r))].

Definition statistics_value (st : ScrapingStatistics.t) : PyVal :=
  VData "ScrapingStatistics" true
    [("total_repositories", VInt (ScrapingStatistics.total_repositories st));
     ("repositories_with_readme",
      VInt (ScrapingStatistics.repositories_with_readme st));
     ("total_stars", VInt (ScrapingStatistics.total_stars st));
     ("total_forks", VInt (ScrapingStatistics.total_forks st));
     ("unique_languages",
      VList (map VStr (ScrapingStatistics.unique_languages st)));
     ("language_distribution",
      VDict (map (fun kv => (fst kv, VInt (snd kv)))
               (ScrapingStatistics.language_distribution st)))].

Definition metadata_value (m : ScrapingMetadata.t) : PyVal :=
  VData "ScrapingMetadata" true
    [("scraped_at", VStr (ScrapingMetadata.scraped_at m));
     ("scraper_version", VStr (ScrapingMetadata.scraper_version m));
     ("total_api_requests", VInt (ScrapingMetadata.total_api_requests m));
     ("saved_to_file", of_optional_str (ScrapingMetadata.saved_to_file m));
     ("save_error", of_optional_str (ScrapingMetadata.save_error m))].

(** The [data_dict] that [scrape_user_complete] hands to [save_to_json]. *)
Definition data_dict (d : CompleteUserData.t) : PyVal :=
  VDict [("profile", profile_value (CompleteUserData.profile d));
         ("repositories",
          VList (map repository_value (CompleteUserData.repositories d)));
         ("statistics", statistics_value (CompleteUserData.statistics d));
         ("metadata", metadata_value (CompleteUserData.metadata d))].

(** [d.get(k)] on a Python value that is a dictionary. *)
Definition value_get (k : string) (v : PyVal) : PyVal :=
  match v with
  | VDict d => dict_get k VNone d
  | _ => VNone
  end.

Definition value_keys (v : PyVal) : list string :=
  match v with
  | VDict d => dict_keys d
  | _ => []
  end.

(** [s.endswith(suffix)] *)
Fixpoint list_prefix (p l : list ascii) : bool :=
  match p, l with
  | [], _ => true
  | _ :: _, [] => false
  | a :: p', b :: l' => (Ascii.eqb a b && list_prefix p' l')%bool
  end.

Definition endswith (s suffix : string) : bool :=
  list_prefix (rev (list_ascii_of_string suffix))
              (rev (list_ascii_of_string s)).

(** [files.sort(reverse=True)]: the names in descending order. *)
Fixpoint insert_descending (x : string) (l : list string) : list string :=
  match l with
  | [] => [x]
  | y :: rest =>
      if String.leb y x then x :: y :: rest
      else y :: insert_descending x rest
  end.

Definition sort_descending (l : list string) : list string :=
  fold_right insert_descending [] l.

(** [FileHandler.list_saved_profiles], given what [os.listdir] of the
    output directory gives: the names of its entries, or an exception. *)
Definition list_saved_profiles (listdir : Result (list string)) : list string :=
  match listdir with
  | inl _ => []
  | inr names =>
      sort_descending (filter (fun f => endswith f "_profile_*.json") names)
  end.

(** The name [save_to_json] gives the file of a user at a clock reading. *)
Definition saved_filename (env : Env) (username : string) (now : Z) : string :=
  username ++ "_profile_" ++ strftime env now ++ ".json".

(** ** The example run ([main]) *)

(** A line break inside a printed string. *)
Definition nl : string := String (ascii_of_nat 10) EmptyString.

(** [sep.join(l)] *)
Fixpoint join (sep : string) (l : list string) : string :=
  match l with
  | [] => EmptyString
  | [x] => x
  | x :: rest => x ++ sep ++ join sep rest
  end.

(** [list(v.keys())] *)
Definition py_keys (v : Json) : Result (list string) :=
  match v with
  | JDict d => inr (dict_keys d)
  | _ => inl (no_attribute v "keys")
  end.

(** The strings [main] prints for the profile, one per [print]. *)
Definition profile_lines (env : Env) (username : string) (p : UserProfile.t)
  : list string :=
  [nl ++ "=== Profile Information for " ++ username ++ " ===";
   "Name: " ++ fmt env (UserProfile.name p);
   "Bio: " ++ fmt env (UserProfile.bio p);
   "Company: " ++ fmt env (UserProfile.company p);
   "Website: " ++ fmt env (UserProfile.website p);
   "Location: " ++ fmt env (UserProfile.location p);
   "Public Repos: " ++ fmt env (UserProfile.public_repos p);
   "Followers: " ++ fmt env (UserProfile.followers p);
   "Profile README: "
     ++ (if truthy_opt_str (UserProfile.profile_readme p) then "Yes" else "No")].

Definition statistics_lines (env : Env) (st : ScrapingStatistics.t)
  : list string :=
  [nl ++ "=== Repository Statistics ===";
   "Total repositories scraped: "
     ++ fmt env (JInt (ScrapingStatistics.total_repositories st));
   "Repositories with README: "
     ++ fmt env (JInt (ScrapingStatistics.repositories_with_readme st));
   "Total stars: " ++ fmt env (JInt (ScrapingStatistics.total_stars st));
   "Total forks: " ++ fmt env (JInt (ScrapingStatistics.total_forks st));
   "Languages used: "
     ++ join ", " (firstn 5 (ScrapingStatistics.unique_languages st))].

(** The strings printed for one sample repository, and the exception that
    cut them short, if any. *)
Definition repository_lines (env : Env) (r : Repository.t)
  : list string * option PyExn :=
  let first :=
    [nl ++ "Repository: " ++ fmt env (Repository.name r);
     "  Description: " ++ fmt env (Repository.description r);
     "  Stars: " ++ fmt env (Repository.stars r)] in
  match py_keys (Repository.languages r) with
  | inl e => (first, Some e)
  | inr keys =>
      (app first
           ["  Languages: " ++ py_repr env (JList (map JStr keys));
            "  README length: "
              ++ fmt env (JInt (if truthy_opt_str (Repository.readme_content r)
                                then match Repository.readme_content r with
                                     | Some text => Z.of_nat (str_len text)
                                     | None => 0
                                     end
                                else 0))
              ++ " characters"],
       None)
  end.

Fixpoint sample_lines (env : Env) (repos : list Repository.t)
  : list string * option PyExn :=
  match repos with
  | [] => ([], None)
  | r :: rest =>
      match repository_lines env r with
      | (lines, Some e) => (lines, Some e)
      | (lines, None) =>
          let (more, err) := sample_lines env rest in
          ((lines ++ more)%list, err)
      end
  end.

Definition output_file_lines (m : ScrapingMetadata.t) : list string :=
  if truthy_opt_str (ScrapingMetadata.saved_to_file m)
  then match ScrapingMetadata.saved_to_file m with
       | Some path => [nl ++ "=== Output File ==="; "Data saved to: " ++ path]
       | None => []
       end
  else [].

(** Everything the [try] block of [main] prints after the scrape, and the
    exception that ended it, if any. *)
Definition report (env : Env) (username : string) (d : CompleteUserData.t)
  : list string * option PyExn :=
  let head :=
    app (profile_lines env username (CompleteUserData.profile d))
      (app (statistics_lines env (CompleteUserData.statistics d))
         [nl ++ "=== Sample Repositories (First 3) ==="]) in
  match sample_lines env (firstn 3 (CompleteUserData.repositories d)) with
  | (lines, Some e) => ((head ++ lines)%list, Some e)
  | (lines, None) =>
      ((head ++ lines ++ output_file_lines (CompleteUserData.metadata d))%list,
       None)
  end.

Definition main_username : string := "Ojjoj".

Definition error_line (e : PyExn) : string := "Error occurred: " ++ str_exn e.

(** [main], on a scraper created at a clock reading with an output
    directory: what it prints. *)
Definition main (env : Env) (fuel : nat) (dir : string) (now_ms : Z)
  : Outcome (list string) * State :=
  match scrape_user_complete env fuel main_username None
          (new_scraper true dir now_ms) with
  | (Return d, s') =>
      match report env main_username d with
      | (lines, None) => (Return lines, s')
      | (lines, Some e) => (Return (lines ++ [error_line e])%list, s')
      end
  | (Raise e, s') => (Return [error_line e], s')
  | (Hang, s') => (Hang, s')
  end.


(** ** Logging setup ([logging_config.py]) *)

Module Logging.

Inductive HandlerKind : Type :=
| FileHandler (path encoding : string)
| StreamHandler.

Record Handler : Type := {
  kind : HandlerKind;
  handler_level : Z;
  (** format and date format of the formatter, once one is set *)
  formatter : option (string * string)
}.

Record Logger : Type := {
  level : Z;
  handlers : list Handler
}.

(** The loggers that exist, by name; the root logger is the one named
    [root]. *)
Definition Registry : Type := dict Logger.

Definition NOTSET : Z := 0.
Definition INFO : Z := 20.
Definition WARNING : Z := 30.

(** The name of the logger that [logging.getLogger(name)] gives: the root
    logger for the empty name, which is also what its own name gives. *)
Definition logger_key (name : string) : string :=
  if (name =? EmptyString)%string then "root" else name.

(** The loggers of a program that has set up none: the root logger, at
    its default level and without handlers. *)
Definition fresh : Registry :=
  [("root", {| level := WARNING; handlers := [] |})].

Definition log_format : string :=
  "%(asctime)s - %(name)s - %(levelname)s - %(message)s".

Definition date_format : string := "%Y-%m-%d %H:%M:%S".

(** The logger a name stands for: a new one has no level and no handler. *)
Definition find_logger (name : string) (reg : Registry) : Logger :=
  dict_get (logger_key name) {| level := NOTSET; handlers := [] |} reg.

(** [logging.getLogger(name)]: the logger is created when it is new. *)
Definition getLogger (name : string) (reg : Registry) : Registry :=
  dict_set (logger_key name) (find_logger name reg) reg.

(** What the file system does: [Some msg] when the call raises. *)
Record Disk : Type := {
  makedirs : string -> option string;
  open_append : string -> option string
}.

(** [setup_logging], with the directory of the logs: the exception it
    raises, if any, and the loggers afterwards. *)
Definition setup_logging (disk : Disk) (logs_dir : string)
  (logger_name log_file : string) (log_level : Z) (console_output : bool)
  (reg : Registry) : option PyExn * Registry :=
  match makedirs disk logs_dir with
  | Some msg => (Some (OSError msg), reg)
  | None =>
      let reg1 := getLogger logger_name reg in
      let logger := find_logger logger_name reg1 in
      let reg2 :=
        dict_set (logger_key logger_name)
          {| level := log_level; handlers := handlers logger |} reg1 in
      match handlers logger with
      | _ :: _ => (None, reg2)
      | [] =>
          let log_file_path := path_join logs_dir log_file in
          match open_append disk log_file_path with
          | Some msg => (Some (OSError msg), reg2)
          | None =>
              let fmt := Some (log_format, date_format) in
              let file_handler :=
                {| kind := FileHandler log_file_path "utf-8";
                   handler_level := log_level; formatter := fmt |} in
              let console_handler :=
                {| kind := StreamHandler; handler_level := log_level;
                   formatter := fmt |} in
              (None,
               dict_set (logger_key logger_name)
                 {| level := log_level;
                    handlers := file_handler
                                :: (if console_output then [console_handler]
                                    else []) |}
                 reg2)
          end
      end
  end.

(** [get_logger(name)] *)
Definition get_logger (name : string) (reg : Registry) : Registry :=
  getLogger name reg.

(** One call of [setup_logging]. *)
Record Call : Type := {
  call_name : string;
  call_file : string;
  call_level : Z;
  call_console : bool
}.

(** Calls made one after the other, exceptions dropped. *)
Definition setup_all (disk : Disk) (logs_dir : string) (calls : list Call)
  (reg : Registry) : Registry :=
  fold_left
    (fun r c =>
       snd (setup_logging disk logs_dir (call_name c) (call_file c)
              (call_level c) (call_console c) r))
    calls reg.

(** The handlers [setup_logging] installs for a file and a level. *)
Definition installed (logs_dir log_file : string) (log_level : Z)
  (console_output : bool) : list Handler :=
  {| kind := FileHandler (path_join logs_dir log_file) "utf-8";
     handler_level := log_level;
     formatter := Some (log_format, date_format) |}
  :: (if console_output
      then [{| kind := StreamHandler; handler_level := log_level;
               formatter := Some (log_format, date_format) |}]
      else []).

Definition good_disk : Disk :=
  {| makedirs := fun _ => None; open_append := fun _ => None |}.

End Logging.

(** ** Listings in a world that answers plainly *)

(** Every request has one answer, whatever the history and the clock, and
    none is rate limited. *)
Definition plain_world (env : Env) (answer : Request -> Json) : Prop :=
  forall r, answers_plainly env r (answer r).

(** The request for one page of a user's listing, written out: pages are
    asked for by number, 100 items at a time, most recently updated
    first. *)
Definition page_request (username : string) (page : Z) : Request :=
  {| req_url := "https://api.github.com/users/" ++ username ++ "/repos";
     req_params := Some [("page", JInt page); ("per_page", JInt 100);
                         ("sort", JStr "updated"); ("direction", JStr "desc")] |}.

Definition is_page_request (username : string) (r : Request) : bool :=
  (req_url r =? "https://api.github.com/users/" ++ username ++ "/repos")%string.

(** The page requests among the calls made between two states, in the
    order they were made. *)
Definition page_requests_between (username : string) (s s' : State)
  : list Request :=
  filter (is_page_request username) (rev (calls_between s s')).

(** What a world answers to the README probes of a repository, by
    candidate. *)
Definition readme_answers (env : Env) (username : string)
  (answer : Request -> Json) (repo_name : Json) (n : string) : Json :=
  answer (probe env username repo_name n).

(** The record of a listed repository in such a world: the fields of the
    listing item, the first README candidate that can be read and the
    language data, the empty mapping when there is none. *)
Definition listed_repository (env : Env) (username : string)
  (answer : Request -> Json) (item : Json) : Repository.t :=
  match item with
  | JDict d =>
      let repo_name := dict_get "name" (JStr EmptyString) d in
      let languages :=
        answer (request (languages_url env username repo_name) None) in
      Repository.Build
        repo_name
        (dict_get "description" JNull d)
        (dict_get "description" JNull d)
        (option_map snd
           (first_readable env (readme_answers env username answer repo_name)
              readme_names))
        (if truthy languages then languages else JDict [])
        (dict_get "html_url" (JStr EmptyString) d)
        (dict_get "stargazers_count" (JInt 0) d)
        (dict_get "forks_count" (JInt 0) d)
        (dict_get "fork" (JBool false) d)
        (dict_get "default_branch" (JStr "main") d)
  | _ => Repository.Build JNull JNull JNull None JNull JNull JNull JNull JNull JNull
  end.

(** The state after one listed repository has been scraped there. *)
Definition after_listed (env : Env) (username : string)
  (answer : Request -> Json) (s : State) (item : Json) : State :=
  let repo_name :=
    match item with
    | JDict d => dict_get "name" (JStr EmptyString) d
    | _ => JNull
    end in
  record_sleep 100
    (after_call (request (languages_url env username repo_name) None)
       (after_calls
          (map (probe env username repo_name)
             (probed env (readme_answers env username answer repo_name)
                readme_names))
          s)).

(** The pages [first], ..., [first + n], by number. *)
Definition page_numbers (first : Z) (n : nat) : list Z :=
  map (fun i => first + Z.of_nat i) (seq 0 (S n)).

(** * Proofs *)

(** ** Sums *)

Section SumFacts.

Lemma py_sum_from_ints (xs : list Json) :
  forall acc,
    forallb is_int xs = true ->
    py_sum_from acc xs = inr (acc + sum_Z (map int_of xs)).
Proof.
  induction xs as [|x xs IH]; intros acc H; simpl in *.
  - f_equal; lia.
  - apply andb_prop in H as [Hx Hxs].
    unfold py_add, is_int, int_of in *.
    destruct (as_int x) as [z|]; [|discriminate].
    rewrite IH by assumption. f_equal. lia.
Qed.

Lemma py_sum_ones (A : Type) (l : list A) :
  py_sum (map (fun _ => JInt 1) l) = inr (Z.of_nat (List.length l)).
Proof.
  unfold py_sum.
  rewrite py_sum_from_ints.
  - f_equal. induction l as [|a l IH]; [reflexivity|].
    cbn [map sum_Z fold_right List.length] in *.
    change (int_of (JInt 1)) with 1. rewrite Nat2Z.inj_succ.
    fold (sum_Z (map int_of (map (fun _ : A => JInt 1) l))). lia.
  - induction l; simpl; auto.
Qed.

Lemma forallb_map (A B : Type) (f : A -> B) (p : B -> bool) (l : list A) :
  forallb p (map f l) = forallb (fun a => p (f a)) l.
Proof. induction l; simpl; congruence. Qed.

End SumFacts.

(** *** Dictionaries and first-seen order *)

Section DictFacts.

Lemma mem_In (k : string) (l : list string) : mem k l = true <-> In k l.
Proof.
  unfold mem. rewrite existsb_exists. split.
  - intros [x [Hin Heq]]. apply String.eqb_eq in Heq. now subst.
  - intros Hin. exists k. split; [assumption | apply String.eqb_refl].
Qed.

Lemma distinct_NoDup (l : list string) : distinct l = true -> NoDup l.
Proof.
  induction l as [|k l IH]; simpl; intros H; constructor.
  - apply andb_prop in H as [H _]. rewrite <- mem_In.
    destruct (mem k l); [discriminate | congruence].
  - apply andb_prop in H as [_ H]. auto.
Qed.

Lemma dict_keys_set (V : Type) (k : string) (v : V) (d : dict V) :
  dict_keys (dict_set k v d)
  = if mem k (dict_keys d) then dict_keys d else (dict_keys d ++ [k])%list.
Proof.
  induction d as [|[k' v'] d IH]; simpl; [reflexivity|].
  destruct (String.eqb_spec k k') as [->|Hne]; simpl; [reflexivity|].
  unfold dict_keys in *. rewrite IH.
  destruct (mem k (map fst d)); reflexivity.
Qed.

Lemma dict_get_set (k k' : string) (v : Z) (d : dict Z) :
  dict_get k' 0 (dict_set k v d)
  = if (k' =? k)%string then v else dict_get k' 0 d.
Proof.
  unfold dict_get.
  induction d as [|[k0 v0] d IH]; simpl.
  - destruct (k' =? k)%string; reflexivity.
  - destruct (String.eqb_spec k k0) as [->|Hne]; simpl.
    + destruct (k' =? k0)%string; reflexivity.
    + destruct (String.eqb_spec k' k0) as [->|Hne'].
      * destruct (String.eqb_spec k0 k); [congruence | reflexivity].
      * exact IH.
Qed.

Lemma dict_values_set (k : string) (x : Z) (d : dict Z) :
  sum_Z (dict_values (dict_set k (dict_get k 0 d + x) d))
  = sum_Z (dict_values d) + x.
Proof.
  unfold dict_get, dict_values.
  induction d as [|[k0 v0] d IH]; simpl; [lia|].
  destruct (String.eqb_spec k k0) as [->|Hne]; simpl; [lia|].
  fold (sum_Z (map snd (dict_set k
         (match dict_lookup k d with Some v => v | None => 0 end + x) d))).
  rewrite IH. unfold sum_Z. lia.
Qed.

Lemma first_seen_In (k : string) (l : list string) :
  In k (first_seen l) <-> In k l.
Proof.
  induction l as [|a l IH]; simpl; [tauto|].
  rewrite filter_In, IH.
  destruct (String.eqb_spec k a) as [->|Hne]; simpl.
  - split; auto.
  - split; [intros [H|[H _]]; auto | intros [H|H]; auto].
Qed.

Lemma first_seen_NoDup (l : list string) : NoDup (first_seen l).
Proof.
  induction l as [|a l IH]; simpl; constructor.
  - rewrite filter_In. intros [_ H].
    rewrite String.eqb_refl in H. discriminate.
  - now apply NoDup_filter.
Qed.

Lemma first_seen_snoc (k : string) (l : list string) :
  first_seen (l ++ [k])
  = if mem k l then first_seen l else (first_seen l ++ [k])%list.
Proof.
  induction l as [|a l IH]; simpl; [reflexivity|].
  rewrite IH.
  destruct (String.eqb_spec k a) as [->|Hne]; simpl.
  - destruct (mem a l); [reflexivity|].
    rewrite filter_app. simpl. rewrite String.eqb_refl. simpl.
    now rewrite app_nil_r.
  - destruct (mem k l); [reflexivity|].
    rewrite filter_app. simpl.
    destruct (String.eqb_spec k a); [congruence|]. reflexivity.
Qed.

Lemma mem_first_seen (k : string) (l : list string) :
  mem k (first_seen l) = mem k l.
Proof.
  apply eq_true_iff_eq. rewrite !mem_In. apply first_seen_In.
Qed.

End DictFacts.

(** *** The language histogram as a left fold *)

Section Histogram.

Lemma add_language_inr (d d' : dict Z) (kv : string * Json) :
  add_language d kv = inr d' -> d' = tally d kv /\ is_int (snd kv) = true.
Proof.
  unfold add_language, tally, py_add, is_int, int_of, rbind.
  destruct (as_int (snd kv)); [|discriminate].
  intros H. injection H as <-. auto.
Qed.

Lemma add_languages_inr (items : list (string * Json)) :
  forall d d',
    add_languages d items = inr d' ->
    d' = tally_all d items /\ int_entries items = true.
Proof.
  induction items as [|kv items IH]; simpl; intros d d' H.
  - injection H as <-. auto.
  - unfold rbind in H.
    destruct (add_language d kv) as [e|d1] eqn:E; [discriminate|].
    apply add_language_inr in E as [-> Hint].
    apply IH in H as [-> Hrest].
    rewrite Hint. auto.
Qed.

Lemma add_languages_typed (items : list (string * Json)) :
  forall d,
    int_entries items = true ->
    add_languages d items = inr (tally_all d items).
Proof.
  induction items as [|kv items IH]; simpl; intros d H; [reflexivity|].
  apply andb_prop in H as [Hkv Hrest].
  unfold add_language, py_add, is_int, rbind in *.
  destruct (as_int (snd kv)) as [z|] eqn:E; [|discriminate].
  rewrite IH by assumption.
  unfold tally, int_of. now rewrite E.
Qed.

Lemma tally_all_app (d : dict Z) (l1 l2 : list (string * Json)) :
  tally_all d (l1 ++ l2) = tally_all (tally_all d l1) l2.
Proof. unfold tally_all. apply fold_left_app. Qed.

Lemma aggregate_languages_inr (R : list Repository.t) :
  forall d d',
    aggregate_languages d R = inr d' ->
    d' = tally_all d (flat_map language_items R).
Proof.
  induction R as [|r R IH]; simpl; intros d d' H.
  - now injection H as <-.
  - unfold rbind, py_items, language_items in *.
    destruct (Repository.languages r); try discriminate.
    destruct (add_languages d d0) as [e|d1] eqn:E; [discriminate|].
    apply add_languages_inr in E as [-> _].
    apply IH in H. now rewrite tally_all_app.
Qed.

Lemma aggregate_languages_typed (R : list Repository.t) :
  forall d,
    forallb typed_repo R = true ->
    aggregate_languages d R = inr (tally_all d (flat_map language_items R)).
Proof.
  induction R as [|r R IH]; simpl; intros d H; [reflexivity|].
  apply andb_prop in H as [Hr HR].
  unfold typed_repo in Hr. apply andb_prop in Hr as [_ Hl].
  unfold rbind, py_items, language_items in *.
  destruct (Repository.languages r); try discriminate.
  rewrite add_languages_typed by exact Hl.
  rewrite IH by assumption. now rewrite tally_all_app.
Qed.

Lemma tally_all_keys (items : list (string * Json)) :
  forall d pre,
    dict_keys d = first_seen pre ->
    dict_keys (tally_all d items) = first_seen (pre ++ map fst items).
Proof.
  induction items as [|kv items IH]; simpl; intros d pre H.
  - now rewrite app_nil_r.
  - replace (pre ++ fst kv :: map fst items)%list
      with ((pre ++ [fst kv]) ++ map fst items)%list
      by (rewrite <- app_assoc; reflexivity).
    apply IH. unfold tally.
    rewrite dict_keys_set, first_seen_snoc, H, mem_first_seen.
    reflexivity.
Qed.

Lemma tally_all_get (lang : string) (items : list (string * Json)) :
  forall d,
    dict_get lang 0 (tally_all d items) = dict_get lang 0 d + bytes_for lang items.
Proof.
  unfold bytes_for.
  induction items as [|kv items IH]; simpl; intros d; [lia|].
  rewrite IH. unfold tally. rewrite dict_get_set.
  rewrite (String.eqb_sym lang (fst kv)).
  destruct (String.eqb_spec (fst kv) lang) as [->|Hne]; unfold sum_Z; lia.
Qed.

Lemma tally_all_values (items : list (string * Json)) :
  forall d,
    sum_Z (dict_values (tally_all d items))
    = sum_Z (dict_values d) + sum_Z (map (fun kv => int_of (snd kv)) items).
Proof.
  induction items as [|kv items IH]; simpl; intros d; [lia|].
  rewrite IH. unfold tally. rewrite dict_values_set. unfold sum_Z. lia.
Qed.

Lemma sum_Z_app (l1 l2 : list Z) : sum_Z (l1 ++ l2) = sum_Z l1 + sum_Z l2.
Proof. unfold sum_Z. induction l1; simpl; lia. Qed.

Lemma bytes_for_flat_map (lang : string) (R : list Repository.t) :
  bytes_for lang (flat_map language_items R)
  = sum_Z (map (fun r => bytes_for lang (language_items r)) R).
Proof.
  unfold bytes_for.
  induction R as [|r R IH]; simpl; [reflexivity|].
  rewrite map_app, sum_Z_app, IH. reflexivity.
Qed.

Lemma repo_bytes_flat_map (R : list Repository.t) :
  sum_Z (map (fun kv => int_of (snd kv)) (flat_map language_items R))
  = sum_Z (map repo_bytes R).
Proof.
  induction R as [|r R IH]; simpl; [reflexivity|].
  rewrite map_app, sum_Z_app, IH. reflexivity.
Qed.

(** With distinct keys, the entries of one language are the one [get]
    finds. *)
Lemma bytes_for_distinct (lang : string) (items : list (string * Json)) :
  NoDup (map fst items) ->
  bytes_for lang items = int_of (dict_get lang (JInt 0) items).
Proof.
  unfold bytes_for, dict_get.
  induction items as [|[k v] items IH]; simpl; intros Hnd; [reflexivity|].
  inversion Hnd as [|? ? Hnotin Hnd']; subst.
  rewrite (String.eqb_sym lang k).
  destruct (String.eqb_spec k lang) as [->|Hne].
  - assert (Hz : sum_Z (map (fun kv : string * Json =>
                          if (fst kv =? lang)%string then int_of (snd kv) else 0)
                          items) = 0).
    { clear IH Hnd Hnd'. induction items as [|[k' v'] items IH']; simpl;
        [reflexivity|].
      simpl in Hnotin.
      destruct (String.eqb_spec k' lang) as [->|Hne]; [tauto|].
      fold (sum_Z (map (fun kv : string * Json =>
                          if (fst kv =? lang)%string then int_of (snd kv) else 0)
                       items)).
      rewrite IH' by tauto. reflexivity. }
    fold (sum_Z (map (fun kv : string * Json =>
                        if (fst kv =? lang)%string then int_of (snd kv) else 0)
                     items)).
    rewrite Hz. lia.
  - fold (sum_Z (map (fun kv : string * Json =>
                        if (fst kv =? lang)%string then int_of (snd kv) else 0)
                     items)).
    rewrite IH by assumption. lia.
Qed.

Lemma first_seen_nil_keys : dict_keys (@nil (string * Z)) = first_seen [].
Proof. reflexivity. Qed.

End Histogram.

(** ** The statistics of a repository sequence *)

Section Statistics.

Lemma calculate_statistics_typed (R : list Repository.t) :
  forallb typed_repo R = true ->
  _calculate_statistics R
  = inr (ScrapingStatistics.Build
           (Z.of_nat (List.length R))
           (Z.of_nat (List.length (filter has_readme R)))
           (sum_Z (map (fun r => int_of (Repository.stars r)) R))
           (sum_Z (map (fun r => int_of (Repository.forks r)) R))
           (dict_keys (tally_all [] (flat_map language_items R)))
           (tally_all [] (flat_map language_items R))).
Proof.
  intros H. unfold _calculate_statistics, py_sum.
  assert (Hs : forallb is_int (map Repository.stars R) = true).
  { rewrite forallb_map. rewrite forallb_forall in *. intros r Hr.
    specialize (H r Hr). unfold typed_repo in H.
    apply andb_prop in H as [H _]. now apply andb_prop in H as [H _]. }
  assert (Hf : forallb is_int (map Repository.forks R) = true).
  { rewrite forallb_map. rewrite forallb_forall in *. intros r Hr.
    specialize (H r Hr). unfold typed_repo in H.
    apply andb_prop in H as [H _]. now apply andb_prop in H as [_ H]. }
  rewrite (py_sum_from_ints _ 0 Hs), (py_sum_from_ints _ 0 Hf). simpl rbind.
  fold (py_sum (map (fun _ : Repository.t => JInt 1)
                  (filter (fun repo => truthy_opt_str (Repository.readme_content repo)) R))).
  rewrite py_sum_ones. simpl rbind.
  rewrite aggregate_languages_typed by assumption. simpl rbind.
  rewrite !map_map. reflexivity.
Qed.

Lemma calculate_statistics_inr (R : list Repository.t)
  (st : ScrapingStatistics.t) :
  _calculate_statistics R = inr st ->
  ScrapingStatistics.language_distribution st
  = tally_all [] (flat_map language_items R)
  /\ ScrapingStatistics.unique_languages st
     = dict_keys (ScrapingStatistics.language_distribution st).
Proof.
  unfold _calculate_statistics, rbind. intros H.
  destruct (py_sum (map Repository.stars R)); [discriminate|].
  destruct (py_sum (map Repository.forks R)); [discriminate|].
  destruct (py_sum _); [discriminate|].
  destruct (aggregate_languages [] R) as [e|d] eqn:E; [discriminate|].
  apply aggregate_languages_inr in E. injection H as <-. simpl.
  subst d. auto.
Qed.

(** C1: for a repository sequence [R] that fits the data model,
    [_calculate_statistics R] returns statistics whose
    [total_repositories] is the length of [R], whose
    [repositories_with_readme] is the number of repositories of [R] with a
    non-empty [readme_content], and whose [total_stars] and [total_forks]
    are the sums of the stars and of the forks over [R]. *)
Theorem calculate_statistics_totals (R : list Repository.t) :
  forallb typed_repo R = true ->
  exists st,
    _calculate_statistics R = inr st
    /\ ScrapingStatistics.total_repositories st = Z.of_nat (List.length R)
    /\ ScrapingStatistics.repositories_with_readme st
       = Z.of_nat (List.length (filter has_readme R))
    /\ ScrapingStatistics.total_stars st
       = sum_Z (map (fun r => int_of (Repository.stars r)) R)
    /\ ScrapingStatistics.total_forks st
       = sum_Z (map (fun r => int_of (Repository.forks r)) R).
Proof.
  intros H. eexists. split; [apply calculate_statistics_typed, H|].
  simpl. auto.
Qed.

Lemma calculate_statistics_totals_witness :
  forallb typed_repo sample_repos = true
  /\ exists st,
      _calculate_statistics sample_repos = inr st
      /\ ScrapingStatistics.total_repositories st = 4
      /\ ScrapingStatistics.repositories_with_readme st = 2
      /\ ScrapingStatistics.total_stars st = 14
      /\ ScrapingStatistics.total_forks st = 8.
Proof.
  split; [reflexivity|].
  exact (calculate_statistics_totals sample_repos eq_refl).
Defined.

(** Outside the data model the aggregation raises: a repository whose
    star count is [None] cannot be summed. *)
Example calculate_statistics_untyped :
  _calculate_statistics
    [Repository.Build (JStr "alpha") JNull JNull None (JDict []) (JStr "u")
       JNull (JInt 0) (JBool false) (JStr "main")]
  = inl (TypeError "unsupported operand type(s) for +: 'int' and 'NoneType'").
Proof. reflexivity. Qed.

(** C7: whenever [_calculate_statistics] returns statistics (as it does
    for every repository sequence that fits the data model), their
    [unique_languages] list is the key list of their
    [language_distribution], and that list holds every language met, once,
    in the order the languages are first seen. *)
Theorem unique_languages_first_seen (R : list Repository.t) :
  (forallb typed_repo R = true -> exists st, _calculate_statistics R = inr st)
  /\ forall st,
      _calculate_statistics R = inr st ->
      ScrapingStatistics.unique_languages st
      = dict_keys (ScrapingStatistics.language_distribution st)
      /\ dict_keys (ScrapingStatistics.language_distribution st)
         = first_seen (languages_met R)
      /\ NoDup (ScrapingStatistics.unique_languages st).
Proof.
  split.
  - intros H. eexists. apply calculate_statistics_typed, H.
  - intros st H. apply calculate_statistics_inr in H as [Hd Hu].
    assert (Hk : dict_keys (ScrapingStatistics.language_distribution st)
                 = first_seen (languages_met R)).
    { rewrite Hd. unfold languages_met.
      rewrite (tally_all_keys (flat_map language_items R) [] []
                 first_seen_nil_keys).
      simpl. f_equal. clear. induction R as [|r R IH]; simpl; [reflexivity|].
      now rewrite map_app, IH. }
    repeat split; [exact Hu | exact Hk |].
    rewrite Hu, Hk. apply first_seen_NoDup.
Qed.

Lemma unique_languages_first_seen_witness :
  exists st,
    _calculate_statistics sample_repos = inr st
    /\ ScrapingStatistics.unique_languages st = ["Python"; "C"; "Rust"; "Go"]
    /\ dict_keys (ScrapingStatistics.language_distribution st)
       = ["Python"; "C"; "Rust"; "Go"].
Proof.
  destruct (unique_languages_first_seen sample_repos) as [Hex Hkeys].
  destruct (Hex eq_refl) as [st Hst].
  exists st. destruct (Hkeys st Hst) as [Hu [Hk _]].
  split; [exact Hst|]. split; [rewrite Hu|]; rewrite Hk; reflexivity.
Defined.

(** C8: for a repository sequence that fits the data model, every entry
    of [language_distribution] is the sum over the repositories of the
    bytes they give that language, the languages listed are the ones some
    repository lists, and the values of [language_distribution] add up to
    the sum over all repositories of all their language byte values. *)
Theorem language_distribution_sums (R : list Repository.t) :
  forallb typed_repo R = true ->
  forallb distinct_keys R = true ->
  exists st,
    _calculate_statistics R = inr st
    /\ (forall lang,
         dict_get lang 0 (ScrapingStatistics.language_distribution st)
         = sum_Z (map (language_bytes lang) R))
    /\ (forall lang,
         In lang (dict_keys (ScrapingStatistics.language_distribution st))
         <-> exists r, In r R /\ In lang (map fst (language_items r)))
    /\ sum_Z (dict_values (ScrapingStatistics.language_distribution st))
       = sum_Z (map repo_bytes R).
Proof.
  intros Hty Hnd. eexists. split; [apply calculate_statistics_typed, Hty|].
  simpl. repeat split.
  - intros lang. rewrite tally_all_get, bytes_for_flat_map.
    unfold dict_get at 1. simpl. f_equal.
    apply map_ext_in. intros r Hr. unfold language_bytes.
    apply bytes_for_distinct, distinct_NoDup.
    rewrite forallb_forall in Hnd. now apply Hnd.
  - rewrite (tally_all_keys (flat_map language_items R) [] []
               first_seen_nil_keys). simpl.
    rewrite first_seen_In, in_map_iff.
    intros [[k v] [Hk Hin]]. simpl in Hk. subst k.
    apply in_flat_map in Hin as [r [Hr Hin]].
    exists r. split; [assumption|]. apply in_map_iff. now exists (lang, v).
  - rewrite (tally_all_keys (flat_map language_items R) [] []
               first_seen_nil_keys). simpl.
    intros [r [Hr Hin]]. rewrite first_seen_In.
    apply in_map_iff in Hin as [[k v] [Hk Hin]]. simpl in Hk. subst k.
    apply in_map_iff. exists (lang, v). split; [reflexivity|].
    apply in_flat_map. now exists r.
  - rewrite tally_all_values, repo_bytes_flat_map. reflexivity.
Qed.

Lemma language_distribution_sums_witness :
  exists st,
    _calculate_statistics sample_repos = inr st
    /\ dict_get "C" 0 (ScrapingStatistics.language_distribution st) = 100
    /\ sum_Z (dict_values (ScrapingStatistics.language_distribution st)) = 245.
Proof.
  destruct (language_distribution_sums sample_repos eq_refl eq_refl)
    as [st [Hst [Hget [_ Hsum]]]].
  exists st. split; [exact Hst|].
  split; [rewrite Hget | rewrite Hsum]; reflexivity.
Defined.

End Statistics.

(** ** One API request *)

Section ApiRequest.
Variable env : Env.

(** An exchange that is not rate limited: one call, counted, and its
    plain result. *)
Lemma make_api_request_plain (depth : nat) (url : string)
  (params : option (dict Json)) (s : State) :
  rate_limited (server env (dispatched s) (clock_ms s) (request url params))
  = false ->
  _make_api_request_at env (S depth) url params s
  = (Return (plain_result
               (server env (dispatched s) (clock_ms s) (request url params))),
     after_call (request url params) s).
Proof.
  intros H. simpl. unfold try_except, bind, modify, session_get. simpl.
  fold (request url params).
  destruct (server env (dispatched s) (clock_ms s) (request url params))
    as [msg|r]; simpl in *; [reflexivity|].
  rewrite H. unfold raise_for_status, response_json.
  destruct ((400 <=? status_code r) && (status_code r <? 600))%bool; simpl;
    [reflexivity|].
  destruct (json_body r); reflexivity.
Qed.

(** Only the recursion limit and an unreadable reset header make
    [_make_api_request] raise. *)
Lemma make_api_request_raises (depth : nat) (url : string)
  (params : option (dict Json)) :
  forall s e s',
    _make_api_request_at env depth url params s = (Raise e, s') ->
    e = RecursionError \/ exists msg, e = ValueError msg.
Proof.
  induction depth as [|depth IH]; intros s e s' H; simpl in H.
  - unfold bind, modify, raise in H. injection H as <- _. auto.
  - unfold try_except, bind, modify, session_get in H. simpl in H.
    destruct (server env (dispatched s) (clock_ms s) _) as [msg|r];
      simpl in H; [discriminate|].
    destruct (is_rate_limited r).
    + unfold reset_header in H.
      destruct (header_get _ (headers r)) as [h|]; simpl in H.
      * destruct (py_int env h); simpl in H.
        -- match type of H with
           | context [_make_api_request_at env depth url params ?t] =>
               destruct (_make_api_request_at env depth url params t)
                 as [[a|e0|] t'] eqn:E; simpl in H; try discriminate
           end.
           destruct (IH _ _ _ E) as [->|[m ->]]; simpl in H;
             injection H as <- _; eauto.
        -- injection H as <- _. eauto.
      * match type of H with
        | context [_make_api_request_at env depth url params ?t] =>
            destruct (_make_api_request_at env depth url params t)
              as [[a|e0|] t'] eqn:E; simpl in H; try discriminate
        end.
        destruct (IH _ _ _ E) as [->|[m ->]]; simpl in H;
          injection H as <- _; eauto.
    + unfold raise_for_status, response_json in H.
      destruct ((400 <=? status_code r) && (status_code r <? 600))%bool;
        simpl in H; [discriminate|].
      destruct (json_body r); simpl in H; discriminate.
Qed.

(** The handler of [_make_api_request] never sees what a retry raises. *)
Lemma try_except_transparent (A : Type) (m : M A) (h : PyExn -> M A)
  (s : State) :
  (forall e s', m s = (Raise e, s') -> is_request_exception e = false) ->
  try_except is_request_exception m h s = m s.
Proof.
  intros H. unfold try_except.
  destruct (m s) as [[a|e|] s'] eqn:E; try reflexivity.
  now rewrite (H e s' eq_refl).
Qed.

(** A rate-limited exchange: the call is counted, the scraper sleeps and
    asks again. *)
Lemma make_api_request_limited (depth : nat) (url : string)
  (params : option (dict Json)) (s : State) (r : Response) (reset : Z) :
  server env (dispatched s) (clock_ms s) (request url params) = Responded r ->
  is_rate_limited r = true ->
  reset_epoch env r = Some reset ->
  _make_api_request_at env (S depth) url params s
  = _make_api_request_at env depth url params
      (record_sleep (wait_time reset (clock_ms s / 1000) * 1000)
         (after_call (request url params) s)).
Proof.
  intros Hsrv Hlim Hreset.
  cbn [_make_api_request_at]. rewrite try_except_transparent.
  - unfold bind, modify, session_get. simpl. fold (request url params).
    rewrite Hsrv, Hlim. unfold reset_header, reset_epoch in *.
    destruct (header_get _ (headers r)) as [h|].
    + rewrite Hreset. reflexivity.
    + injection Hreset as <-. reflexivity.
  - intros e s' H.
    unfold bind, modify, session_get in H. simpl in H.
    fold (request url params) in H. rewrite Hsrv, Hlim in H.
    unfold reset_header, reset_epoch in *.
    assert (Hr : forall t t', _make_api_request_at env depth url params t
                              = (Raise e, t') ->
                              is_request_exception e = false).
    { intros t t' Ht.
      destruct (make_api_request_raises _ _ _ _ Ht) as [->|[m ->]];
        reflexivity. }
    destruct (header_get _ (headers r)) as [h|].
    + rewrite Hreset in H. simpl in H.
      match type of H with
      | context [_make_api_request_at env depth url params ?t] =>
          destruct (_make_api_request_at env depth url params t)
            as [[a|e0|] t'] eqn:E; simpl in H; try discriminate
      end.
      injection H as <- _. eapply Hr, E.
    + injection Hreset as <-. simpl in H.
      match type of H with
      | context [_make_api_request_at env depth url params ?t] =>
          destruct (_make_api_request_at env depth url params t)
            as [[a|e0|] t'] eqn:E; simpl in H; try discriminate
      end.
      injection H as <- _. eapply Hr, E.
Qed.

End ApiRequest.

(** C4: on a response with status 403 whose body mentions a rate limit,
    the scraper sleeps [max(reset_epoch - now, 60)] seconds and then asks
    once more; the wait is never under 60 seconds, and it is 60 seconds
    for a reset five seconds ahead. *)
Theorem rate_limit_wait (env : Env) (depth : nat) (url : string)
  (params : option (dict Json)) (s : State) (r : Response) (reset : Z) :
  server env (dispatched s) (clock_ms s) (request url params) = Responded r ->
  status_code r = 403 ->
  contains "rate limit" (lower (text r)) = true ->
  reset_epoch env r = Some reset ->
  let now := clock_ms s / 1000 in
  let wait := Z.max (reset - now) 60 in
  _make_api_request_at env (S depth) url params s
  = _make_api_request_at env depth url params
      (record_sleep (wait * 1000) (after_call (request url params) s))
  /\ 60 <= wait
  /\ (reset = now + 5 -> wait = 60).
Proof.
  intros Hsrv Hst Htxt Hreset now wait.
  split; [|subst wait; lia].
  apply make_api_request_limited with (r := r); try assumption.
  unfold is_rate_limited. rewrite Hst, Htxt. reflexivity.
Qed.

Lemma rate_limit_wait_witness :
  _make_api_request_at (sample_env limited_once disk_ok) 2
    "https://api.github.com/users/octocat" None sample_start
  = (Return (JDict [("login", JStr "octocat")]),
     {| _api_requests_count := 2; save_to_file := true;
        output_dir := "output"; clock_ms := 1060000;
        dispatched := [request "https://api.github.com/users/octocat" None;
                       request "https://api.github.com/users/octocat" None];
        slept_ms := [60000]; written := [] |}).
Proof.
  destruct (@rate_limit_wait (sample_env limited_once disk_ok) 1
              "https://api.github.com/users/octocat" None sample_start
              _ 1005 eq_refl eq_refl eq_refl eq_refl) as [H _].
  rewrite H. reflexivity.
Defined.

(** ** Composing computations *)

Section Post.
Variable P : State -> State -> Prop.
Variable K : PyExn -> Prop.
Hypothesis P_refl : forall s, P s s.
Hypothesis P_trans : forall s1 s2 s3, P s1 s2 -> P s2 s3 -> P s1 s3.

Lemma post_ret (A : Type) (a : A) : post P K (ret a).
Proof.
  intros s o s' H. injection H as <- <-. split; [intros; apply P_refl|].
  intros e He. discriminate.
Qed.

Lemma post_hang (A : Type) : post P K (@hang A).
Proof.
  intros s o s' H. injection H as <- <-. split; intros; discriminate.
Qed.

Lemma post_raise (A : Type) (e : PyExn) : K e -> post P K (@raise A e).
Proof.
  intros HK s o s' H. injection H as <- <-. split; [intros; discriminate|].
  intros e' He. now injection He as <-.
Qed.

Lemma post_gets (A : Type) (f : State -> A) : post P K (gets f).
Proof.
  intros s o s' H. injection H as <- <-. split; [intros; apply P_refl|].
  intros e He. discriminate.
Qed.

Lemma post_modify (f : State -> State) :
  (forall s, P s (f s)) -> post P K (modify f).
Proof.
  intros Hf s o s' H. injection H as <- <-. split; [intros; apply Hf|].
  intros e He. discriminate.
Qed.

Lemma post_lift (A : Type) (r : Result A) :
  (forall e, r = inl e -> K e) -> post P K (lift r).
Proof.
  intros Hr. destruct r as [e|a]; simpl.
  - apply post_raise. now apply Hr.
  - apply post_ret.
Qed.

Lemma post_bind (A B : Type) (m : M A) (k : A -> M B) :
  post P K m -> (forall a, post P K (k a)) -> post P K (bind m k).
Proof.
  intros Hm Hk s o s' H. unfold bind in H.
  destruct (m s) as [[a|e|] s1] eqn:E.
  - destruct (Hm _ _ _ E) as [P1 _]. destruct (Hk a _ _ _ H) as [P2 K2].
    split; [|assumption].
    intros b Hb. eapply P_trans; [apply (P1 a eq_refl) | apply (P2 b Hb)].
  - injection H as <- <-. destruct (Hm _ _ _ E) as [_ K1].
    split; [intros; discriminate|].
    intros e' He. injection He as <-. now apply K1.
  - injection H as <- <-. split; intros; discriminate.
Qed.

End Post.

Section Keeps.
Variable P : State -> State -> Prop.
Hypothesis P_refl : forall s, P s s.
Hypothesis P_trans : forall s1 s2 s3, P s1 s2 -> P s2 s3 -> P s1 s3.

Lemma keeps_ret (A : Type) (a : A) : keeps P (ret a).
Proof. intros s o s' H. injection H as _ <-. apply P_refl. Qed.

Lemma keeps_hang (A : Type) : keeps P (@hang A).
Proof. intros s o s' H. injection H as _ <-. apply P_refl. Qed.

Lemma keeps_raise (A : Type) (e : PyExn) : keeps P (@raise A e).
Proof. intros s o s' H. injection H as _ <-. apply P_refl. Qed.

Lemma keeps_gets (A : Type) (f : State -> A) : keeps P (gets f).
Proof. intros s o s' H. injection H as _ <-. apply P_refl. Qed.

Lemma keeps_modify (f : State -> State) :
  (forall s, P s (f s)) -> keeps P (modify f).
Proof. intros Hf s o s' H. injection H as _ <-. apply Hf. Qed.

Lemma keeps_lift (A : Type) (r : Result A) : keeps P (lift r).
Proof. destruct r; [apply keeps_raise | apply keeps_ret]. Qed.

Lemma keeps_bind (A B : Type) (m : M A) (k : A -> M B) :
  keeps P m -> (forall a, keeps P (k a)) -> keeps P (bind m k).
Proof.
  intros Hm Hk s o s' H. unfold bind in H.
  destruct (m s) as [[a|e|] s1] eqn:E.
  - eapply P_trans; [apply (Hm _ _ _ E) | apply (Hk a _ _ _ H)].
  - injection H as _ <-. apply (Hm _ _ _ E).
  - injection H as _ <-. apply (Hm _ _ _ E).
Qed.

End Keeps.

Section Counted.

Lemma counted_refl (s : State) : counted s s.
Proof. exists []. simpl. split; [reflexivity | lia]. Qed.

Lemma counted_trans (s1 s2 s3 : State) :
  counted s1 s2 -> counted s2 s3 -> counted s1 s3.
Proof.
  intros [c1 [D1 N1]] [c2 [D2 N2]]. exists (c2 ++ c1)%list.
  rewrite D2, D1, N2, N1, app_assoc, length_app, Nat2Z.inj_add.
  split; [reflexivity | lia].
Qed.

Lemma counted_after_call (r : Request) (s : State) : counted s (after_call r s).
Proof. exists [r]. simpl. split; [reflexivity | lia]. Qed.

Lemma counted_sleep (ms : Z) (s : State) : counted s (record_sleep ms s).
Proof. exists []. simpl. split; [reflexivity | lia]. Qed.

Lemma counted_write (path : string) (doc : CompleteUserData.t) (s : State) :
  counted s (record_write path doc s).
Proof. exists []. simpl. split; [reflexivity | lia]. Qed.

Lemma counted_calls_between (s s' : State) :
  counted s s' ->
  dispatched s' = (calls_between s s' ++ dispatched s)%list
  /\ _api_requests_count s'
     = _api_requests_count s + Z.of_nat (List.length (calls_between s s')).
Proof.
  intros [calls [D N]]. unfold calls_between. rewrite D, length_app.
  replace (List.length calls + List.length (dispatched s)
           - List.length (dispatched s))%nat with (List.length calls) by lia.
  rewrite firstn_app, firstn_all, Nat.sub_diag. simpl. rewrite app_nil_r.
  auto.
Qed.

End Counted.

(** ** The calls and the exceptions of every scraper function *)

Section Effects.
Variable env : Env.

(** One level of [_make_api_request], by the answer of the API. *)
Lemma make_api_request_step (depth : nat) (url : string)
  (params : option (dict Json)) (s : State) :
  _make_api_request_at env (S depth) url params s
  = match server env (dispatched s) (clock_ms s) (request url params) with
    | ConnectionFailed _ => (Return JNull, after_call (request url params) s)
    | Responded r =>
        if is_rate_limited r
        then match reset_epoch env r with
             | Some reset =>
                 _make_api_request_at env depth url params
                   (record_sleep (wait_time reset (clock_ms s / 1000) * 1000)
                      (after_call (request url params) s))
             | None =>
                 (Raise (ValueError "invalid literal for int()"),
                  after_call (request url params) s)
             end
        else (Return (plain_result (Responded r)),
              after_call (request url params) s)
    end.
Proof.
  destruct (server env (dispatched s) (clock_ms s) (request url params))
    as [msg|r] eqn:Hsrv.
  - rewrite make_api_request_plain; rewrite Hsrv; reflexivity.
  - destruct (is_rate_limited r) eqn:Hlim.
    + destruct (reset_epoch env r) as [reset|] eqn:Hreset.
      * now apply make_api_request_limited with (r := r).
      * simpl. unfold try_except, bind, modify, session_get. simpl.
        fold (request url params). rewrite Hsrv, Hlim.
        unfold reset_header, reset_epoch in *.
        destruct (header_get _ (headers r)) as [h|]; [|discriminate].
        rewrite Hreset. reflexivity.
    + rewrite make_api_request_plain; rewrite Hsrv; [reflexivity | exact Hlim].
Qed.

Lemma post_make_api_request_at (depth : nat) (url : string)
  (params : option (dict Json)) :
  post counted Krt (_make_api_request_at env depth url params).
Proof.
  induction depth as [|depth IH]; intros s o s' H.
  - simpl in H. unfold bind, modify, raise in H. injection H as <- <-.
    split; [intros; discriminate|].
    intros e He. injection He as <-. reflexivity.
  - rewrite make_api_request_step in H.
    destruct (server env (dispatched s) (clock_ms s) (request url params))
      as [msg|r].
    + injection H as <- <-.
      split; [intros; apply counted_after_call | discriminate].
    + destruct (is_rate_limited r).
      * destruct (reset_epoch env r) as [reset|].
        -- destruct (IH _ _ _ H) as [HP HK]. split; [|exact HK].
           intros a Ha. eapply counted_trans; [|exact (HP a Ha)].
           eapply counted_trans; [apply counted_after_call|apply counted_sleep].
        -- injection H as <- <-. split; [intros; discriminate|].
           intros e He. injection He as <-. reflexivity.
      * injection H as <- <-.
        split; [intros; apply counted_after_call | discriminate].
Qed.

Lemma post_make_api_request (url : string) (params : option (dict Json)) :
  post counted Krt (_make_api_request env url params).
Proof. apply post_make_api_request_at. Qed.

Lemma py_get_error (v : Json) (key : string) (default : Json) (e : PyExn) :
  py_get v key default = inl e -> Krt e.
Proof. destruct v; simpl; intros H; try discriminate; now injection H as <-. Qed.

Lemma py_len_error (v : Json) (e : PyExn) : py_len v = inl e -> Krt e.
Proof. destruct v; simpl; intros H; try discriminate; now injection H as <-. Qed.

Lemma py_iter_error (v : Json) (e : PyExn) : py_iter v = inl e -> Krt e.
Proof. destruct v; simpl; intros H; try discriminate; now injection H as <-. Qed.

Lemma py_items_error (v : Json) (e : PyExn) : py_items v = inl e -> Krt e.
Proof. destruct v; simpl; intros H; try discriminate; now injection H as <-. Qed.

Lemma py_add_error (acc : Z) (v : Json) (e : PyExn) :
  py_add acc v = inl e -> Krt e.
Proof.
  unfold py_add. destruct (as_int v); intros H; [discriminate|].
  now injection H as <-.
Qed.

Lemma py_sum_error (xs : list Json) (e : PyExn) : py_sum xs = inl e -> Krt e.
Proof.
  unfold py_sum. generalize 0. induction xs as [|x xs IH]; simpl; intros acc H.
  - discriminate.
  - destruct (py_add acc x) as [e0|acc'] eqn:E.
    + injection H as <-. eapply py_add_error, E.
    + eapply IH, H.
Qed.

Lemma add_languages_error (items : list (string * Json)) (e : PyExn) :
  forall d, add_languages d items = inl e -> Krt e.
Proof.
  induction items as [|kv items IH]; simpl; intros d H; [discriminate|].
  unfold rbind, add_language in H.
  destruct (py_add (dict_get (fst kv) 0 d) (snd kv)) as [e0|t] eqn:E; simpl in H.
  - injection H as <-. eapply py_add_error, E.
  - eapply IH, H.
Qed.

Lemma aggregate_languages_error (R : list Repository.t) (e : PyExn) :
  forall d, aggregate_languages d R = inl e -> Krt e.
Proof.
  induction R as [|r R IH]; simpl; intros d H; [discriminate|].
  unfold rbind in H.
  destruct (py_items (Repository.languages r)) as [e0|items] eqn:E.
  - injection H as <-. eapply py_items_error, E.
  - destruct (add_languages d items) as [e0|d'] eqn:E'.
    + injection H as <-. eapply add_languages_error, E'.
    + eapply IH, H.
Qed.

Lemma calculate_statistics_error (R : list Repository.t) (e : PyExn) :
  _calculate_statistics R = inl e -> Krt e.
Proof.
  unfold _calculate_statistics, rbind. intros H.
  destruct (py_sum (map Repository.stars R)) as [e0|?] eqn:E1;
    [injection H as <-; eapply py_sum_error, E1|].
  destruct (py_sum (map Repository.forks R)) as [e0|?] eqn:E2;
    [injection H as <-; eapply py_sum_error, E2|].
  destruct (py_sum (map _ (filter _ R))) as [e0|?] eqn:E3;
    [injection H as <-; eapply py_sum_error, E3|].
  destruct (aggregate_languages [] R) as [e0|?] eqn:E4;
    [injection H as <-; eapply aggregate_languages_error, E4|].
  discriminate.
Qed.

Ltac post_step :=
  lazymatch goal with
  | |- post _ _ (ret _) => apply post_ret; apply counted_refl
  | |- post _ _ (gets _) => apply post_gets; apply counted_refl
  | |- post _ _ hang => apply post_hang; apply counted_refl
  | |- post _ _ (time_sleep _) =>
      apply post_modify; intros; apply counted_sleep
  | |- post _ _ (_make_api_request _ _ _) => apply post_make_api_request
  | |- post _ _ (lift (py_get _ _ _)) =>
      apply post_lift; [apply counted_refl | apply py_get_error]
  | |- post _ _ (lift (py_len _)) =>
      apply post_lift; [apply counted_refl | apply py_len_error]
  | |- post _ _ (lift (py_iter _)) =>
      apply post_lift; [apply counted_refl | apply py_iter_error]
  | |- post _ _ (bind _ _) => apply post_bind; [apply counted_trans | | intros]
  | |- post _ _ (if ?b then _ else _) => destruct b
  | |- post _ _ (match ?x with _ => _ end) => destruct x
  end.

Lemma post_probe_readme (names : list string) (username : string)
  (repo_name : Json) :
  post counted Krt (probe_readme env names username repo_name).
Proof.
  induction names as [|n names IH]; simpl; repeat post_step; exact IH.
Qed.

Lemma post_get_readme_content (username : string) (repo_name branch : Json) :
  post counted Krt (_get_readme_content env username repo_name branch).
Proof. apply post_probe_readme. Qed.

Lemma post_get_user_profile (username : string) :
  post counted Krt (get_user_profile env username).
Proof.
  unfold get_user_profile.
  repeat first [apply post_get_readme_content | post_step].
Qed.

Lemma post_get_repository_languages (username : string) (repo_name : Json) :
  post counted Krt (get_repository_languages env username repo_name).
Proof. unfold get_repository_languages. repeat post_step. Qed.

Lemma post_scrape_repository (username : string) (repo_data : Json) :
  post counted Krt (scrape_repository env username repo_data).
Proof.
  unfold scrape_repository.
  repeat first [apply post_get_readme_content
               | apply post_get_repository_languages | post_step].
Qed.

Lemma post_scrape_page (username : string) (items : list Json) :
  forall repositories,
    post counted Krt (scrape_page env username items repositories).
Proof.
  induction items as [|item items IH]; intros repositories; simpl.
  - post_step.
  - apply post_bind; [apply counted_trans | apply post_scrape_repository|].
    intros r. apply IH.
Qed.

Lemma post_fetch_pages (fuel : nat) (username : string) :
  forall page repositories,
    post counted Krt (fetch_pages env fuel username page repositories).
Proof.
  induction fuel as [|fuel IH]; intros page repositories; simpl.
  - post_step.
  - repeat first [apply post_scrape_page | apply IH | post_step].
Qed.

Lemma post_get_user_repositories (fuel : nat) (username : string) :
  post counted Krt (get_user_repositories env fuel username).
Proof. apply post_fetch_pages. Qed.

End Effects.

(** ** A complete scrape *)

Section Scrape.
Variable env : Env.

(** [scrape_user_complete], stage by stage. *)
Lemma scrape_user_complete_stages (fuel : nat) (username : string)
  (arg : option bool) (s : State) :
  scrape_user_complete env fuel username arg s
  = match get_user_profile env username s with
    | (Return None, s1) => (Raise (profile_failure username), s1)
    | (Return (Some p), s1) =>
        match get_user_repositories env fuel username s1 with
        | (Return R, s2) =>
            match _calculate_statistics R with
            | inl e => (Raise e, s2)
            | inr st =>
                let doc := unsaved_document env p R st s2 in
                if should_save arg s2
                then match fs_write env (save_path env username s2) doc with
                     | None =>
                         (Return (set_saved_to_file (save_path env username s2) doc),
                          record_write (save_path env username s2) doc s2)
                     | Some msg => (Return (set_save_error msg doc), s2)
                     end
                else (Return doc, s2)
            end
        | (Raise e, s2) => (Raise e, s2)
        | (Hang, s2) => (Hang, s2)
        end
    | (Raise e, s1) => (Raise e, s1)
    | (Hang, s1) => (Hang, s1)
    end.
Proof.
  unfold scrape_user_complete, bind.
  destruct (get_user_profile env username s) as [[[p|]|e|] s1]; try reflexivity.
  destruct (get_user_repositories env fuel username s1) as [[R|e|] s2];
    try reflexivity.
  destruct (_calculate_statistics R) as [e|st]; simpl; [reflexivity|].
  unfold gets, should_save, unsaved_document, save_path, try_except,
    save_to_json, bind, gets, modify, raise, ret.
  destruct (match arg with Some b => b | None => save_to_file s2 end);
    [|reflexivity].
  destruct (fs_write env _ _); reflexivity.
Qed.

End Scrape.

Section ScrapeFacts.
Variable env : Env.

(** What a scrape raises, and what it reports when it returns. *)
Lemma scrape_user_complete_post (fuel : nat) (username : string)
  (arg : option bool) (s : State) (o : Outcome CompleteUserData.t)
  (s' : State) :
  scrape_user_complete env fuel username arg s = (o, s') ->
  (forall e, o = Raise e ->
     (e = profile_failure username
      /\ get_user_profile env username s = (Return None, s'))
     \/ Krt e)
  /\ (forall d, o = Return d ->
        counted s s'
        /\ ScrapingMetadata.total_api_requests (CompleteUserData.metadata d)
           = _api_requests_count s').
Proof.
  rewrite scrape_user_complete_stages. intros H.
  destruct (get_user_profile env username s) as [[[p|]|e|] s1] eqn:E1;
    destruct (post_get_user_profile env username _ E1) as [C1 K1].
  - destruct (get_user_repositories env fuel username s1) as [[R|e|] s2] eqn:E2;
      destruct (post_get_user_repositories env fuel username _ E2) as [C2 K2].
    + pose proof (counted_trans (C1 _ eq_refl) (C2 _ eq_refl)) as C12.
      destruct (_calculate_statistics R) as [e|st] eqn:E3.
      * injection H as <- <-. split; [|discriminate].
        intros e' He. injection He as <-. right.
        eapply calculate_statistics_error, E3.
      * cbv zeta in H. destruct (should_save arg s2).
        -- destruct (fs_write env _ _) as [msg|].
           ++ injection H as <- <-. split; [discriminate|].
              intros d Hd. injection Hd as <-. split; [assumption|reflexivity].
           ++ injection H as <- <-. split; [discriminate|].
              intros d Hd. injection Hd as <-. split; [|reflexivity].
              eapply counted_trans; [exact C12 | apply counted_write].
        -- injection H as <- <-. split; [discriminate|].
           intros d Hd. injection Hd as <-. split; [assumption|reflexivity].
    + injection H as <- <-. split; [|discriminate].
      intros e' He. injection He as <-. right. now apply K2.
    + injection H as <- <-. split; discriminate.
  - injection H as <- <-. split; [|discriminate].
    intros e' He. injection He as <-. left. auto.
  - injection H as <- <-. split; [|discriminate].
    intros e' He. injection He as <-. right. now apply K1.
  - injection H as <- <-. split; discriminate.
Qed.

(** The profile is missing exactly when the user record is. *)
Lemma get_user_profile_none (username : string) (s s1 : State) :
  get_user_profile env username s = (Return None, s1)
  <-> exists v,
      _make_api_request env (user_url username) None s = (Return v, s1)
      /\ truthy v = false.
Proof.
  unfold get_user_profile, bind.
  destruct (_make_api_request env (user_url username) None s)
    as [[v|e|] t] eqn:E.
  - destruct (truthy v) eqn:T; simpl.
    + split.
      * intros H.
        destruct (_get_profile_readme env username t) as [[r|e|] t'];
          try discriminate.
        unfold lift in H.
        repeat match type of H with
               | context [py_get v ?k ?d] =>
                   destruct (py_get v k d); simpl in H; try discriminate
               end.
      * intros [v' [H T']]. injection H as <- <-. congruence.
    + split.
      * intros H. injection H as <-. exists v. auto.
      * intros [v' [H _]]. now injection H as <- <-.
  - split; [discriminate | intros [v [H _]]; discriminate].
  - split; [discriminate | intros [v [H _]]; discriminate].
Qed.

End ScrapeFacts.

(** ** The request counter *)

(** C9, as the code has it: [total_api_requests] is the counter of the
    scraper object when the metadata is built, that is the counter the run
    started from plus one for every call dispatched during the run, retries
    after a rate limit included; on a scraper that made no call before the
    run it is the number of calls of the run. *)
Theorem total_api_requests_counts_calls (env : Env) (fuel : nat)
  (username : string) (arg : option bool) (s s' : State)
  (d : CompleteUserData.t) :
  scrape_user_complete env fuel username arg s = (Return d, s') ->
  dispatched s' = (calls_between s s' ++ dispatched s)%list
  /\ ScrapingMetadata.total_api_requests (CompleteUserData.metadata d)
     = _api_requests_count s + Z.of_nat (List.length (calls_between s s'))
  /\ (_api_requests_count s = 0 ->
      ScrapingMetadata.total_api_requests (CompleteUserData.metadata d)
      = Z.of_nat (List.length (calls_between s s'))).
Proof.
  intros H. destruct (scrape_user_complete_post _ _ _ _ _ H) as [_ R].
  destruct (R d eq_refl) as [C T].
  destruct (counted_calls_between C) as [D N].
  rewrite T, N.
  repeat split; [exact D | intros Z0; rewrite Z0; reflexivity].
Qed.

Lemma total_api_requests_counts_calls_witness :
  exists d s',
    scrape_user_complete (sample_env octocat_api disk_ok) 5 "octocat"
      (Some false) sample_start = (Return d, s')
    /\ ScrapingMetadata.total_api_requests (CompleteUserData.metadata d) = 7
    /\ List.length (calls_between sample_start s') = 7%nat.
Proof.
  eassert (E : scrape_user_complete (sample_env octocat_api disk_ok) 5
                 "octocat" (Some false) sample_start = (Return _, _))
    by (vm_compute; reflexivity).
  destruct (total_api_requests_counts_calls _ _ _ _ _ E) as [_ [_ H]].
  eexists. eexists. split; [exact E|].
  split; [rewrite (H eq_refl)|]; reflexivity.
Defined.

(** C9 fails as stated: a second run on the same scraper reports the calls
    of both runs. *)
Lemma total_api_requests_accumulates :
  exists d1 s1 d2 s2,
    scrape_user_complete (sample_env octocat_api disk_ok) 5 "octocat"
      (Some false) sample_start = (Return d1, s1)
    /\ scrape_user_complete (sample_env octocat_api disk_ok) 5 "octocat"
         (Some false) s1 = (Return d2, s2)
    /\ List.length (calls_between s1 s2) = 7%nat
    /\ ScrapingMetadata.total_api_requests (CompleteUserData.metadata d2) = 14
    /\ ScrapingMetadata.total_api_requests (CompleteUserData.metadata d2)
       <> Z.of_nat (List.length (calls_between s1 s2)).
Proof.
  eexists. eexists. eexists. eexists.
  split; [vm_compute; reflexivity|].
  split; [vm_compute; reflexivity|].
  split; [reflexivity|]. split; [reflexivity|].
  vm_compute. discriminate.
Qed.

(** ** Failures that reach the caller *)

(** X26: a missing user record is fatal, and nothing else makes the
    profile missing.  When the request for the user record yields no data
    (a failed request, or an empty answer), [get_user_profile] returns
    [None] without a further call and [scrape_user_complete] raises
    [Exception("Failed to fetch profile for: <username>")] in the state
    that request left; and [get_user_profile] returns [None] in no other
    case. *)
Theorem missing_profile_is_fatal (env : Env) (fuel : nat) (username : string)
  (arg : option bool) (s : State) :
  (forall v s1,
      _make_api_request env (user_url username) None s = (Return v, s1) ->
      truthy v = false ->
      get_user_profile env username s = (Return None, s1)
      /\ scrape_user_complete env fuel username arg s
         = (Raise (PlainException ("Failed to fetch profile for: " ++ username)),
            s1))
  /\ (forall s1,
        get_user_profile env username s = (Return None, s1) ->
        exists v,
          _make_api_request env (user_url username) None s = (Return v, s1)
          /\ truthy v = false).
Proof.
  split.
  - intros v s1 H T.
    assert (E : get_user_profile env username s = (Return None, s1))
      by (apply get_user_profile_none; eauto).
    split; [exact E|].
    rewrite scrape_user_complete_stages, E. reflexivity.
  - intros s1 H. now apply get_user_profile_none.
Qed.

Lemma missing_profile_is_fatal_witness :
  exists s1,
    get_user_profile (sample_env unreachable_api disk_ok) "octocat" sample_start
    = (Return None, s1)
    /\ scrape_user_complete (sample_env unreachable_api disk_ok) 5 "octocat"
         None sample_start
       = (Raise (PlainException "Failed to fetch profile for: octocat"), s1)
    /\ _api_requests_count s1 = 1.
Proof.
  eassert (E : _make_api_request (sample_env unreachable_api disk_ok)
                 (user_url "octocat") None sample_start = (Return _, _))
    by (vm_compute; reflexivity).
  destruct (missing_profile_is_fatal (sample_env unreachable_api disk_ok) 5
              "octocat" None sample_start) as [H _].
  destruct (H _ _ E eq_refl) as [H1 H2].
  eexists. split; [exact H1|]. split; [exact H2 | reflexivity].
Defined.

(** C5: the code at the input on which it parts from the claim.  The
    claim has the missing profile as the only failure that reaches the
    caller of [scrape_user_complete].  Here the user record is served and
    the account scrapes well as long as the contents endpoint answers
    [README.md] of the profile repository with 404; when [README.md] is a
    directory the endpoint lists its entries in an array, [readme_data.get]
    raises [AttributeError] on the second call of the run, and
    [scrape_user_complete] passes it on, although [_get_readme_content]
    documents [None] for a README that is not found.  [main] reports it
    like the profile failure. *)
Theorem attribute_error_reaches_caller :
  (exists s1,
      _make_api_request (sample_env readme_directory_api disk_ok)
        (user_url "octocat") None sample_start
      = (Return (JDict [("login", JStr "octocat");
                        ("name", JStr "The Octocat");
                        ("public_repos", JInt 0)]), s1))
  /\ (exists d s',
        scrape_user_complete (sample_env octocat_api disk_ok) 5 "octocat"
          (Some false) sample_start = (Return d, s')
        /\ UserProfile.profile_readme (CompleteUserData.profile d) = None)
  /\ scrape_user_complete (sample_env readme_directory_api disk_ok) 5
       "octocat" (Some false) sample_start
     = (Raise (AttributeError "'list' object has no attribute 'get'"),
        after_calls
          [request "https://api.github.com/users/octocat" None;
           request
             "https://api.github.com/repos/octocat/octocat/contents/README.md"
             None]
          sample_start)
  /\ AttributeError "'list' object has no attribute 'get'"
     <> profile_failure "octocat".
Proof.
  split; [eexists; vm_compute; reflexivity|].
  split; [eexists; eexists; split; vm_compute; reflexivity|].
  split; [vm_compute; reflexivity | discriminate].
Qed.

(** ** A save that fails *)

Section Persistence.
Variable env : Env.

(** Nothing before the save step looks at the disk. *)
Lemma scrape_without_saving_ignores_disk
  (fsw : string -> CompleteUserData.t -> option string) (fuel : nat)
  (username : string) (s : State) :
  scrape_user_complete (with_fs_write env fsw) fuel username (Some false) s
  = scrape_user_complete env fuel username (Some false) s.
Proof.
  reflexivity.
Qed.

(** A scrape that saves, by the scrape that does not. *)
Lemma scrape_by_unsaved (fuel : nat) (username : string) (arg : option bool)
  (s s2 : State) (doc : CompleteUserData.t) :
  scrape_user_complete env fuel username (Some false) s = (Return doc, s2) ->
  should_save arg s2 = true ->
  scrape_user_complete env fuel username arg s
  = match fs_write env (save_path env username s2) doc with
    | None =>
        (Return (set_saved_to_file (save_path env username s2) doc),
         record_write (save_path env username s2) doc s2)
    | Some msg => (Return (set_save_error msg doc), s2)
    end.
Proof.
  rewrite !scrape_user_complete_stages.
  destruct (get_user_profile env username s) as [[[p|]|e|] s1];
    try discriminate.
  destruct (get_user_repositories env fuel username s1) as [[R|e|] s3];
    try discriminate.
  destruct (_calculate_statistics R) as [e|st]; [discriminate|].
  cbv zeta. simpl (should_save (Some false) s3).
  intros H. injection H as <- <-. intros ->. reflexivity.
Qed.

End Persistence.

(** C6: when the save step raises, the aggregate returned has
    [save_error] set to the text of the error and [saved_to_file] empty,
    and its profile, repositories and statistics are those of the scrape
    in memory, the same as in a world whose save succeeds. *)
Theorem save_failure_is_isolated (env : Env) (fuel : nat) (username : string)
  (arg : option bool) (s s2 : State) (doc : CompleteUserData.t)
  (msg : string) :
  scrape_user_complete env fuel username (Some false) s = (Return doc, s2) ->
  should_save arg s2 = true ->
  fs_write env (save_path env username s2) doc = Some msg ->
  exists d,
    scrape_user_complete env fuel username arg s = (Return d, s2)
    /\ ScrapingMetadata.save_error (CompleteUserData.metadata d) = Some msg
    /\ ScrapingMetadata.saved_to_file (CompleteUserData.metadata d) = None
    /\ CompleteUserData.profile d = CompleteUserData.profile doc
    /\ CompleteUserData.repositories d = CompleteUserData.repositories doc
    /\ CompleteUserData.statistics d = CompleteUserData.statistics doc
    /\ forall fsw,
        fsw (save_path env username s2) doc = None ->
        exists d_ok s_ok,
          scrape_user_complete (with_fs_write env fsw) fuel username arg s
          = (Return d_ok, s_ok)
          /\ ScrapingMetadata.saved_to_file (CompleteUserData.metadata d_ok)
             = Some (save_path env username s2)
          /\ ScrapingMetadata.save_error (CompleteUserData.metadata d_ok)
             = None
          /\ CompleteUserData.profile d_ok = CompleteUserData.profile d
          /\ CompleteUserData.repositories d_ok
             = CompleteUserData.repositories d
          /\ CompleteUserData.statistics d_ok = CompleteUserData.statistics d
          /\ ScrapingMetadata.total_api_requests (CompleteUserData.metadata d_ok)
             = ScrapingMetadata.total_api_requests (CompleteUserData.metadata d).
Proof.
  intros Hdoc Hsave Hfail.
  assert (Hmeta : ScrapingMetadata.saved_to_file (CompleteUserData.metadata doc)
                  = None
                  /\ ScrapingMetadata.save_error (CompleteUserData.metadata doc)
                     = None).
  { rewrite scrape_user_complete_stages in Hdoc.
    destruct (get_user_profile env username s) as [[[p|]|e|] s1];
      try discriminate.
    destruct (get_user_repositories env fuel username s1) as [[R|e|] s3];
      try discriminate.
    destruct (_calculate_statistics R) as [e|st]; [discriminate|].
    cbv zeta in Hdoc. simpl (should_save (Some false) s3) in Hdoc.
    injection Hdoc as <- _. simpl. auto. }
  destruct Hmeta as [Hnone Herr].
  exists (set_save_error msg doc).
  split; [rewrite (@scrape_by_unsaved _ _ _ arg _ _ _ Hdoc Hsave), Hfail; reflexivity|].
  repeat split; try assumption.
  intros fsw Hok.
  exists (set_saved_to_file (save_path env username s2) doc),
         (record_write (save_path env username s2) doc s2).
  split.
  - rewrite <- (scrape_without_saving_ignores_disk env fsw) in Hdoc.
    rewrite (@scrape_by_unsaved _ _ _ arg _ _ _ Hdoc Hsave).
    change (save_path (with_fs_write env fsw)) with (save_path env).
    change (fs_write (with_fs_write env fsw)) with fsw.
    rewrite Hok. reflexivity.
  - repeat split; assumption.
Qed.

Lemma save_failure_is_isolated_witness :
  exists d s2,
    scrape_user_complete (sample_env octocat_api disk_full) 5 "octocat" None
      sample_start = (Return d, s2)
    /\ ScrapingMetadata.save_error (CompleteUserData.metadata d)
       = Some "[Errno 28] No space left on device"
    /\ ScrapingMetadata.saved_to_file (CompleteUserData.metadata d) = None
    /\ UserProfile.login (CompleteUserData.profile d) = JStr "octocat".
Proof.
  eassert (E : scrape_user_complete (sample_env octocat_api disk_full) 5
                 "octocat" (Some false) sample_start = (Return _, _))
    by (vm_compute; reflexivity).
  destruct (@save_failure_is_isolated _ _ _ None _ _ _ _ E eq_refl eq_refl)
    as [d [Hrun [Herr [Hnone [Hp _]]]]].
  exists d. eexists. split; [exact Hrun|].
  split; [exact Herr|]. split; [exact Hnone|].
  rewrite Hp. reflexivity.
Defined.

(** ** README probing *)

Section Readme.
Variable env : Env.
Hypothesis frames : (0 < recursion_limit env)%nat.

Lemma make_api_request_answers (url : string) (params : option (dict Json))
  (v : Json) (s : State) :
  answers_plainly env (request url params) v ->
  _make_api_request env url params s
  = (Return v, after_call (request url params) s).
Proof.
  intros H. unfold _make_api_request.
  destruct (recursion_limit env) as [|depth]; [lia|].
  destruct (H (dispatched s) (clock_ms s)) as [Hlim Hres].
  rewrite make_api_request_plain by exact Hlim. now rewrite Hres.
Qed.

Lemma probe_readme_answers (username : string) (repo_name : Json)
  (answer : string -> Json) (names : list string) :
  forall s,
    (forall n, In n names ->
               answers_plainly env (probe env username repo_name n) (answer n)) ->
    (forall n, In n names -> object_or_none (answer n) = true) ->
    probe_readme env names username repo_name s
    = (Return (option_map snd (first_readable env answer names)),
       after_calls (map (probe env username repo_name)
                      (probed env answer names)) s).
Proof.
  induction names as [|n names IH]; intros s Hans Hobj; [reflexivity|].
  cbn [probe_readme first_readable probed]. unfold bind.
  rewrite (make_api_request_answers (url := readme_url env username repo_name n)
             s (Hans n (or_introl eq_refl))).
  fold (probe env username repo_name n).
  assert (IH' := fun t => IH t (fun m Hm => Hans m (or_intror Hm))
                            (fun m Hm => Hobj m (or_intror Hm))).
  specialize (Hobj n (or_introl eq_refl)).
  unfold readable.
  destruct (answer n) as [| | | | |d]; try discriminate.
  - simpl. rewrite IH'. reflexivity.
  - destruct d as [|kv d].
    + simpl. rewrite IH'. reflexivity.
    + change (truthy (JDict (kv :: d))) with true. cbv iota.
      change (lift (py_get (JDict (kv :: d)) "content" JNull))
        with (@ret Json (dict_get "content" JNull (kv :: d))).
      unfold ret at 1.
      destruct (truthy (dict_get "content" JNull (kv :: d))).
      * destruct (b64decode_utf8 env (dict_get "content" JNull (kv :: d))).
        -- reflexivity.
        -- simpl. rewrite IH'. reflexivity.
      * simpl. rewrite IH'. reflexivity.
Qed.

End Readme.



(** C3: the code at the input on which it parts from the claim.  The
    claim has the resolver return nothing, not an error, when no candidate
    yields content.  Here no candidate does: [README.md] is a directory,
    which the contents endpoint answers with the array of its entries, and
    the other four names do not exist.  [readme_data.get] raises
    [AttributeError] on the array, the exception leaves the resolver after
    the one call, and the other candidates are never probed, although the
    docstring promises [None] for a README that is not found.  Nor does the
    first readable candidate win then: with a file behind [readme.md] the
    resolver raises all the same. *)
Theorem readme_directory_breaks_resolver :
  (forall n,
      In n readme_names ->
      readable (sample_env readme_directory_api disk_ok)
        (plain_result
           (readme_directory_api [] 0
              (probe (sample_env readme_directory_api disk_ok) "octocat"
                 (JStr "octocat") n))) = None)
  /\ _get_readme_content (sample_env readme_directory_api disk_ok) "octocat"
       (JStr "octocat") (JStr "main") sample_start
     = (Raise (AttributeError "'list' object has no attribute 'get'"),
        after_call
          (request
             "https://api.github.com/repos/octocat/octocat/contents/README.md"
             None)
          sample_start)
  /\ readable (sample_env readme_directory_and_file_api disk_ok)
       (plain_result
          (readme_directory_and_file_api [] 0
             (probe (sample_env readme_directory_and_file_api disk_ok)
                "octocat" (JStr "hello") "readme.md"))) = Some "# Hello"
  /\ _get_readme_content (sample_env readme_directory_and_file_api disk_ok)
       "octocat" (JStr "hello") (JStr "main") sample_start
     = (Raise (AttributeError "'list' object has no attribute 'get'"),
        after_call
          (request
             "https://api.github.com/repos/octocat/hello/contents/README.md"
             None)
          sample_start).
Proof.
  split.
  - intros n Hn. simpl in Hn.
    repeat (destruct Hn as [<-|Hn]; [reflexivity|]). contradiction.
  - split; [vm_compute; reflexivity|].
    split; [vm_compute; reflexivity|].
    vm_compute. reflexivity.
Qed.

(** A README that does not decode is passed over. *)
Example readme_decode_failure_tries_next :
  _get_readme_content (sample_env broken_readme_api disk_ok) "octocat"
    (JStr "hello") (JStr "main") sample_start
  = (Return (Some "Hello, in reST"),
     after_calls
       [request "https://api.github.com/repos/octocat/hello/contents/README.md" None;
        request "https://api.github.com/repos/octocat/hello/contents/readme.md" None;
        request "https://api.github.com/repos/octocat/hello/contents/README.rst" None]
       sample_start).
Proof. vm_compute. reflexivity. Qed.

(** ** Pagination *)

(** C10: when the request for a listing page yields no data, pagination
    ends there and the repositories gathered from the earlier pages are
    returned, the empty list when it is the first page; a page request that
    failed ([None]) and one that found no repository (an empty list) are
    both answers without data, and give the same result. *)
Theorem failed_listing_page_ends_pagination (env : Env) (fuel : nat)
  (username : string) (page : Z) (repositories : list Repository.t)
  (s s1 : State) (v : Json) :
  _make_api_request env (repos_url username) (Some (repos_params page)) s
  = (Return v, s1) ->
  v = JNull \/ v = JList [] ->
  fetch_pages env (S fuel) username page repositories s
  = (Return repositories, s1)
  /\ (page = 1 -> repositories = [] ->
      get_user_repositories env (S fuel) username s = (Return [], s1)).
Proof.
  intros H Hv.
  assert (E : fetch_pages env (S fuel) username page repositories s
              = (Return repositories, s1)).
  { cbn [fetch_pages]. unfold bind. rewrite H.
    destruct Hv as [->| ->]; reflexivity. }
  split; [exact E|]. intros -> ->. exact E.
Qed.

Lemma failed_listing_page_ends_pagination_witness :
  get_user_repositories (sample_env unreachable_api disk_ok) 1 "octocat"
    sample_start
  = (Return [],
     after_call (request "https://api.github.com/users/octocat/repos"
                   (Some (repos_params 1)))
       sample_start).
Proof.
  eassert (E : _make_api_request (sample_env unreachable_api disk_ok)
                 (repos_url "octocat") (Some (repos_params 1)) sample_start
               = (Return _, _)) by (vm_compute; reflexivity).
  destruct (@failed_listing_page_ends_pagination
              (sample_env unreachable_api disk_ok) 0 "octocat" 1 []
              _ _ _ E (or_introl eq_refl)) as [_ H].
  rewrite (H eq_refl eq_refl). reflexivity.
Defined.

(** A failure on the second page leaves the first page's repositories. *)
Example second_page_failure_keeps_first_page :
  match fst (get_user_repositories (sample_env paged_then_down disk_ok) 5
               "octocat" sample_start) with
  | Return repos => List.length repos = 100%nat
  | _ => False
  end.
Proof. vm_compute. reflexivity. Qed.

Section Listing.
Variable env : Env.
Variable username : string.
Variable pages : Z -> list Json.
Hypothesis frames : (0 < recursion_limit env)%nat.
Hypothesis world : listing_only env username pages.

Lemma readme_url_not_listing (repo_name : Json) (n : string) :
  readme_url env username repo_name n <> repos_url username.
Proof.
  unfold readme_url, repos_url, base_api_url. simpl. intros H. discriminate H.
Qed.

Lemma languages_url_not_listing (repo_name : Json) :
  languages_url env username repo_name <> repos_url username.
Proof.
  unfold languages_url, repos_url, base_api_url. simpl. intros H.
  discriminate H.
Qed.

Lemma after_calls_snoc (rs : list Request) (r : Request) (s : State) :
  after_calls (rs ++ [r]) s = after_call r (after_calls rs s).
Proof. unfold after_calls. now rewrite fold_left_app. Qed.

(** A listed repository, when the API has nothing but the listing. *)
Lemma scrape_repository_bare (d : dict Json) (s : State) :
  scrape_repository env username (JDict d) s
  = (Return (bare_repository (JDict d)),
     after_repository env username s (JDict d)).
Proof.
  destruct world as [_ Hother].
  unfold scrape_repository, bind. cbn [py_get lift ret].
  unfold _get_readme_content.
  rewrite (@probe_readme_answers env frames username _ (fun _ => JNull)).
  - unfold get_repository_languages, bind.
    rewrite (@make_api_request_answers env frames _ None JNull _
               (Hother (request _ None) (@languages_url_not_listing _))).
    cbn. unfold after_repository, repository_calls.
    rewrite after_calls_snoc. reflexivity.
  - intros n _. apply Hother, readme_url_not_listing.
  - reflexivity.
Qed.

Lemma scrape_page_bare (items : list Json) :
  forall repositories s,
    forallb is_object items = true ->
    scrape_page env username items repositories s
    = (Return (repositories ++ map bare_repository items)%list,
       after_page env username items s).
Proof.
  induction items as [|item items IH]; intros repositories s H; simpl.
  - now rewrite app_nil_r.
  - apply andb_prop in H as [Hitem Hitems].
    destruct item; try discriminate.
    unfold bind. rewrite scrape_repository_bare.
    rewrite IH by assumption. rewrite <- app_assoc. reflexivity.
Qed.

End Listing.

(** Pagination in a world that answers plainly. *)

Section PlainListing.
Variable env : Env.
Variable username : string.
Variable answer : Request -> Json.
Variable pages : Z -> list Json.
Hypothesis frames : (0 < recursion_limit env)%nat.
Hypothesis world : plain_world env answer.
Hypothesis listing : forall p, answer (page_request username p) = JList (pages p).
Hypothesis objects : forall p, forallb is_object (pages p) = true.
Hypothesis readmes :
  forall repo_name c,
    object_or_none (answer (probe env username repo_name c)) = true.

Lemma dispatched_after_calls (rs : list Request) :
  forall s, dispatched (after_calls rs s) = (rev rs ++ dispatched s)%list.
Proof.
  unfold after_calls.
  induction rs as [|r rs IH]; intros s; cbn [fold_left rev]; [reflexivity|].
  rewrite IH, <- app_assoc. reflexivity.
Qed.

Lemma filter_none (A : Type) (f : A -> bool) (l : list A) :
  Forall (fun x => f x = false) l -> filter f l = [].
Proof.
  induction 1 as [|x l Hx Hl IH]; simpl; [reflexivity|]. now rewrite Hx.
Qed.

Lemma probe_is_no_page_request (repo_name : Json) (c : string) :
  is_page_request username (probe env username repo_name c) = false.
Proof. reflexivity. Qed.

Lemma languages_is_no_page_request (repo_name : Json) :
  is_page_request username
    (request (languages_url env username repo_name) None) = false.
Proof. reflexivity. Qed.

(** A listed repository costs no page request. *)
Lemma page_requests_after_listed (item : Json) (s : State) :
  filter (is_page_request username)
    (dispatched (after_listed env username answer s item))
  = filter (is_page_request username) (dispatched s).
Proof.
  unfold after_listed.
  cbn [record_sleep after_call record_request count_request dispatched filter].
  rewrite languages_is_no_page_request, dispatched_after_calls, filter_app.
  rewrite filter_none; [reflexivity|].
  apply Forall_forall. intros r Hr.
  apply in_rev, in_map_iff in Hr as [c [<- _]].
  apply probe_is_no_page_request.
Qed.

Lemma page_requests_after_page (items : list Json) :
  forall s,
    filter (is_page_request username)
      (dispatched (fold_left (after_listed env username answer) items s))
    = filter (is_page_request username) (dispatched s).
Proof.
  induction items as [|item items IH]; intros s; [reflexivity|].
  cbn [fold_left]. rewrite IH. apply page_requests_after_listed.
Qed.

(** One listed repository: its record, and the calls it costs. *)
Lemma scrape_repository_plain (d : dict Json) (s : State) :
  scrape_repository env username (JDict d) s
  = (Return (listed_repository env username answer (JDict d)),
     after_listed env username answer s (JDict d)).
Proof.
  unfold scrape_repository, bind. cbn [py_get lift ret].
  unfold _get_readme_content.
  rewrite (@probe_readme_answers env frames username _
             (readme_answers env username answer
                (dict_get "name" (JStr EmptyString) d))).
  - unfold get_repository_languages, bind.
    rewrite (@make_api_request_answers env frames _ None _ _
               (world (request _ None))).
    reflexivity.
  - intros c _. apply world.
  - intros c _. apply readmes.
Qed.

Lemma scrape_page_plain (items : list Json) :
  forall repositories s,
    forallb is_object items = true ->
    scrape_page env username items repositories s
    = (Return (repositories
               ++ map (listed_repository env username answer) items)%list,
       fold_left (after_listed env username answer) items s).
Proof.
  induction items as [|item items IH]; intros repositories s H; simpl.
  - now rewrite app_nil_r.
  - apply andb_prop in H as [Hitem Hitems].
    destruct item; try discriminate.
    unfold bind. rewrite scrape_repository_plain.
    rewrite IH by assumption. rewrite <- app_assoc. reflexivity.
Qed.

Lemma page_request_is_dispatched (page : Z) :
  request (repos_url username) (Some (repos_params page))
  = page_request username page.
Proof. reflexivity. Qed.

Lemma page_request_is_one (page : Z) :
  is_page_request username (page_request username page) = true.
Proof. unfold is_page_request, page_request. apply String.eqb_refl. Qed.

Lemma page_numbers_succ (page : Z) (n : nat) :
  page_numbers page (S n) = page :: page_numbers (page + 1) n.
Proof.
  unfold page_numbers.
  change (seq 0 (S (S n))) with (0%nat :: seq 1 (S n)).
  cbn [map]. f_equal; [lia|].
  rewrite <- seq_shift, map_map. apply map_ext. intros i. lia.
Qed.

(** The loop follows full pages and stops at the first short one. *)
Lemma fetch_pages_plain (n : nat) :
  forall fuel page repositories s,
    (n < fuel)%nat ->
    (forall i, (i < n)%nat ->
               100 <= Z.of_nat (List.length (pages (page + Z.of_nat i)))) ->
    Z.of_nat (List.length (pages (page + Z.of_nat n))) < 100 ->
    exists s',
      fetch_pages env fuel username page repositories s
      = (Return (repositories
                 ++ map (listed_repository env username answer)
                      (pages_through pages page n))%list, s')
      /\ filter (is_page_request username) (dispatched s')
         = (rev (map (page_request username) (page_numbers page n))
            ++ filter (is_page_request username) (dispatched s))%list.
Proof.
  induction n as [|n IH]; intros fuel page repositories s Hfuel Hfull Hshort;
    (destruct fuel as [|fuel]; [lia|]);
    cbn [fetch_pages pages_through]; unfold bind;
    rewrite (@make_api_request_answers env frames _ _ _ s (world _)),
      page_request_is_dispatched, listing.
  - replace (page + Z.of_nat 0) with page in Hshort by lia.
    assert (Hcalls :
              forall t,
                filter (is_page_request username) (dispatched t)
                = filter (is_page_request username)
                    (dispatched (after_call (page_request username page) s)) ->
                filter (is_page_request username) (dispatched t)
                = (rev (map (page_request username) (page_numbers page 0))
                   ++ filter (is_page_request username) (dispatched s))%list).
    { intros t ->. unfold page_numbers.
      cbn [seq map rev app after_call record_request count_request dispatched
             filter].
      replace (page + Z.of_nat 0) with page by lia.
      now rewrite page_request_is_one. }
    destruct (pages page) as [|item items] eqn:E.
    + eexists. split; [simpl; rewrite app_nil_r; reflexivity|].
      now apply Hcalls.
    + change (negb (truthy (JList (item :: items)))) with false. cbv iota.
      cbn [py_len lift ret].
      destruct (Z.eqb_spec (Z.of_nat (List.length (item :: items))) 0) as [Hz|_];
        [simpl in Hz; lia|].
      cbn [py_iter lift ret].
      rewrite scrape_page_plain by (rewrite <- E; apply objects).
      destruct (Z.ltb_spec (Z.of_nat (List.length (item :: items))) per_page)
        as [_|Hge]; [|unfold per_page in Hge; lia].
      eexists. split; [reflexivity|].
      apply Hcalls, page_requests_after_page.
  - assert (Hfirst := Hfull 0%nat ltac:(lia)).
    replace (page + Z.of_nat 0) with page in Hfirst by lia.
    destruct (pages page) as [|item items] eqn:E; [simpl in Hfirst; lia|].
    change (negb (truthy (JList (item :: items)))) with false. cbv iota.
    cbn [py_len lift ret].
    destruct (Z.eqb_spec (Z.of_nat (List.length (item :: items))) 0) as [Hz|_];
      [simpl in Hz; lia|].
    cbn [py_iter lift ret].
    rewrite scrape_page_plain by (rewrite <- E; apply objects).
    destruct (Z.ltb_spec (Z.of_nat (List.length (item :: items))) per_page)
      as [Hlt|_]; [unfold per_page in Hlt; lia|].
    destruct (IH fuel (page + 1)
                (repositories
                 ++ map (listed_repository env username answer)
                      (item :: items))%list
                (fold_left (after_listed env username answer) (item :: items)
                   (after_call (page_request username page) s)))
      as [s' [Hrun Hcalls]].
    + lia.
    + intros i Hi.
      replace (page + 1 + Z.of_nat i) with (page + Z.of_nat (S i)) by lia.
      apply Hfull. lia.
    + replace (page + 1 + Z.of_nat n) with (page + Z.of_nat (S n)) by lia.
      exact Hshort.
    + exists s'. split.
      * rewrite Hrun, map_app, app_assoc. reflexivity.
      * rewrite Hcalls, page_requests_after_page, page_numbers_succ.
        cbn [map rev after_call record_request count_request dispatched filter].
        rewrite page_request_is_one, <- app_assoc. reflexivity.
Qed.

(** The whole listing: the records, and the page requests of the run in
    the order they were made. *)
Lemma get_user_repositories_plain (n fuel : nat) (s : State) :
  (forall i, (i < n)%nat ->
             100 <= Z.of_nat (List.length (pages (1 + Z.of_nat i)))) ->
  Z.of_nat (List.length (pages (1 + Z.of_nat n))) < 100 ->
  (n < fuel)%nat ->
  exists s',
    get_user_repositories env fuel username s
    = (Return (map (listed_repository env username answer)
                 (pages_through pages 1 n)), s')
    /\ page_requests_between username s s'
       = map (page_request username) (page_numbers 1 n).
Proof.
  intros Hfull Hshort Hfuel.
  destruct (@fetch_pages_plain n fuel 1 [] s Hfuel Hfull Hshort)
    as [s' [Hrun Hcalls]].
  exists s'. split; [exact Hrun|].
  destruct (post_get_user_repositories env fuel username _ Hrun) as [C _].
  destruct (counted_calls_between (C _ eq_refl)) as [D _].
  rewrite D, filter_app in Hcalls. apply app_inv_tail in Hcalls.
  unfold page_requests_between.
  rewrite filter_rev, Hcalls. apply rev_involutive.
Qed.

End PlainListing.

(** C2: the listing is asked for page by page, each request carrying the
    page number and a page size of 100; a page of 100 items or more is
    followed by the request for the next page, and the first page with
    fewer than 100 items, none included, ends the loop, its items being
    scraped like the others.  So a listing served as 100, 100 and 3 items
    costs the three requests for pages 1, 2 and 3 and yields 203
    repositories, and one served as 100 and 0 items costs the two requests
    for pages 1 and 2 and yields 100 repositories.  The API answers every
    request plainly here: listing items are JSON objects and README probes
    are answered by objects or failures. *)
Theorem pagination_stops_at_short_page :
  (forall env username answer pages n fuel s,
      (0 < recursion_limit env)%nat ->
      plain_world env answer ->
      (forall p, answer (page_request username p) = JList (pages p)) ->
      (forall p, forallb is_object (pages p) = true) ->
      (forall repo_name c,
          object_or_none (answer (probe env username repo_name c)) = true) ->
      (forall i, (i < n)%nat ->
                 100 <= Z.of_nat (List.length (pages (1 + Z.of_nat i)))) ->
      Z.of_nat (List.length (pages (1 + Z.of_nat n))) < 100 ->
      (n < fuel)%nat ->
      exists s',
        get_user_repositories env fuel username s
        = (Return (map (listed_repository env username answer)
                     (pages_through pages 1 n)), s')
        /\ page_requests_between username s s'
           = map (page_request username) (page_numbers 1 n))
  /\ (forall env username answer pages fuel s,
        (0 < recursion_limit env)%nat ->
        plain_world env answer ->
        (forall p, answer (page_request username p) = JList (pages p)) ->
        (forall p, forallb is_object (pages p) = true) ->
        (forall repo_name c,
            object_or_none (answer (probe env username repo_name c)) = true) ->
        List.length (pages 1) = 100%nat ->
        List.length (pages 2) = 100%nat ->
        List.length (pages 3) = 3%nat ->
        (3 <= fuel)%nat ->
        exists repos s',
          get_user_repositories env fuel username s = (Return repos, s')
          /\ List.length repos = 203%nat
          /\ page_requests_between username s s'
             = [page_request username 1; page_request username 2;
                page_request username 3])
  /\ (forall env username answer pages fuel s,
        (0 < recursion_limit env)%nat ->
        plain_world env answer ->
        (forall p, answer (page_request username p) = JList (pages p)) ->
        (forall p, forallb is_object (pages p) = true) ->
        (forall repo_name c,
            object_or_none (answer (probe env username repo_name c)) = true) ->
        List.length (pages 1) = 100%nat ->
        List.length (pages 2) = 0%nat ->
        (2 <= fuel)%nat ->
        exists repos s',
          get_user_repositories env fuel username s = (Return repos, s')
          /\ List.length repos = 100%nat
          /\ page_requests_between username s s'
             = [page_request username 1; page_request username 2]).
Proof.
  split; [intros; now apply get_user_repositories_plain|].
  split.
  - intros env username answer pages fuel s Hframes Hworld Hlist Hobj Hreadme
      L1 L2 L3 Hfuel.
    destruct (@get_user_repositories_plain env username answer pages Hframes
                Hworld Hlist Hobj Hreadme 2 fuel s)
      as [s' [Hrun Hcalls]].
    + intros i Hi. destruct i as [|[|i]]; [| |lia]; simpl; lia.
    + simpl. lia.
    + lia.
    + eexists. exists s'. split; [exact Hrun|]. split; [|exact Hcalls].
      rewrite length_map. simpl. rewrite !length_app, L1, L2, L3. reflexivity.
  - intros env username answer pages fuel s Hframes Hworld Hlist Hobj Hreadme
      L1 L2 Hfuel.
    destruct (@get_user_repositories_plain env username answer pages Hframes
                Hworld Hlist Hobj Hreadme 1 fuel s)
      as [s' [Hrun Hcalls]].
    + intros i Hi. destruct i as [|i]; [|lia]. simpl. lia.
    + simpl. lia.
    + lia.
    + eexists. exists s'. split; [exact Hrun|]. split; [|exact Hcalls].
      rewrite length_map. simpl. rewrite !length_app, L1, L2. reflexivity.
Qed.

Lemma pagination_stops_at_short_page_witness :
  exists repos s',
    get_user_repositories (sample_env (paged_api [100; 100; 3]%nat) disk_ok)
      3 "octocat" sample_start = (Return repos, s')
    /\ List.length repos = 203%nat
    /\ page_requests_between "octocat" sample_start s'
       = [page_request "octocat" 1; page_request "octocat" 2;
          page_request "octocat" 3].
Proof.
  destruct pagination_stops_at_short_page as [_ [Three _]].
  apply (Three (sample_env (paged_api [100; 100; 3]%nat) disk_ok) "octocat"
           (fun r => plain_result (paged_api [100; 100; 3]%nat [] 0 r))
           (sized_pages [100; 100; 3]%nat)).
  - simpl. lia.
  - intros r history now. simpl. unfold paged_api.
    destruct (req_url r =? _)%string; [|split; reflexivity].
    destruct (req_params r) as [params|]; [|split; reflexivity].
    destruct (dict_get "page" JNull params); split; reflexivity.
  - intros p. reflexivity.
  - intros p. unfold sized_pages. destruct (p <=? 0); [reflexivity|].
    generalize (nth (Z.to_nat (p - 1)) [100; 100; 3]%nat 0%nat).
    intros n. induction n; simpl; auto.
  - intros repo_name c. reflexivity.
  - vm_compute. reflexivity.
  - vm_compute. reflexivity.
  - vm_compute. reflexivity.
  - lia.
Defined.

(** The same listing, run: 3 page requests and 6 calls for each of the 203
    repositories. *)
Example paged_run_request_count :
  _api_requests_count
    (snd (get_user_repositories (sample_env (paged_api [100; 100; 3]%nat) disk_ok)
            3 "octocat" sample_start)) = 1221.
Proof. vm_compute. reflexivity. Qed.

(** * Further properties of the code *)

(** ** Statistics *)

Section StatisticsMore.

Lemma py_sum_from_inr (xs : list Json) :
  forall acc z, py_sum_from acc xs = inr z -> forallb is_int xs = true.
Proof.
  induction xs as [|x xs IH]; intros acc z H; [reflexivity|].
  simpl in *. unfold py_add, is_int in *.
  destruct (as_int x); [|discriminate]. simpl. eapply IH, H.
Qed.

Lemma aggregate_languages_inr_typed (R : list Repository.t) :
  forall d d',
    aggregate_languages d R = inr d' ->
    forallb (fun r => match Repository.languages r with
                      | JDict items => int_entries items
                      | _ => false
                      end) R = true.
Proof.
  induction R as [|r R IH]; intros d d' H; [reflexivity|].
  cbn [aggregate_languages forallb] in *. unfold rbind, py_items in H.
  destruct (Repository.languages r); try discriminate.
  destruct (add_languages d d0) as [e|d1] eqn:E; [discriminate|].
  apply add_languages_inr in E as [_ Hint]. rewrite Hint.
  simpl. eapply IH, H.
Qed.

Lemma calculate_statistics_inr_typed (R : list Repository.t)
  (st : ScrapingStatistics.t) :
  _calculate_statistics R = inr st -> forallb typed_repo R = true.
Proof.
  unfold _calculate_statistics, rbind. intros H.
  destruct (py_sum (map Repository.stars R)) eqn:E1; [discriminate|].
  destruct (py_sum (map Repository.forks R)) eqn:E2; [discriminate|].
  rewrite py_sum_ones in H.
  destruct (aggregate_languages [] R) eqn:E3; [discriminate|].
  apply py_sum_from_inr in E1, E2. apply aggregate_languages_inr_typed in E3.
  rewrite forallb_map in E1, E2. rewrite forallb_forall in *.
  intros r Hr. unfold typed_repo.
  rewrite (E1 r Hr), (E2 r Hr). simpl. apply (E3 r Hr).
Qed.

Lemma sum_Z_perm (l l' : list Z) : Permutation l l' -> sum_Z l = sum_Z l'.
Proof.
  unfold sum_Z. induction 1; simpl; lia.
Qed.

Lemma first_seen_app_prefix (a b : list string) :
  exists more, first_seen (a ++ b) = (first_seen a ++ more)%list.
Proof.
  induction b as [|k b IH] using rev_ind.
  - exists []. now rewrite !app_nil_r.
  - destruct IH as [more IH]. rewrite app_assoc, first_seen_snoc, IH.
    destruct (mem k (a ++ b)).
    + now exists more.
    + exists (more ++ [k])%list. now rewrite app_assoc.
Qed.

Lemma existsb_mapped (A B : Type) (f : B -> bool) (g : A -> B) (l : list A) :
  existsb f (map g l) = existsb (fun x => f (g x)) l.
Proof. induction l as [|x l IH]; simpl; congruence. Qed.

Lemma py_sum_from_not_a_number (xs : list Json) :
  forall acc,
    existsb not_a_number xs = true ->
    exists msg, py_sum_from acc xs = inl (TypeError msg).
Proof.
  induction xs as [|x xs IH]; simpl; intros acc H; [discriminate|].
  unfold py_add.
  destruct x; simpl in *; try (eexists; reflexivity); apply IH, H.
Qed.

Lemma add_languages_not_a_number (items : list (string * Json)) :
  forall d,
    existsb (fun kv => not_a_number (snd kv)) items = true ->
    exists msg, add_languages d items = inl (TypeError msg).
Proof.
  induction items as [|[k v] items IH]; simpl; intros d H; [discriminate|].
  unfold add_language, py_add, rbind.
  destruct v; simpl in *; try (eexists; reflexivity); apply IH, H.
Qed.

Lemma aggregate_languages_app (R1 R2 : list Repository.t) :
  forall d,
    aggregate_languages d (R1 ++ R2)
    = rbind (aggregate_languages d R1) (fun d' => aggregate_languages d' R2).
Proof.
  induction R1 as [|r R1 IH]; intros d; [reflexivity|].
  cbn [app aggregate_languages]. unfold rbind.
  destruct (py_items (Repository.languages r)) as [e|items]; [reflexivity|].
  destruct (add_languages d items) as [e|d']; [reflexivity|].
  rewrite IH. reflexivity.
Qed.

Lemma counted_repos_sums (R : list Repository.t) :
  forallb counted_repo R = true ->
  forallb is_int (map Repository.stars R) = true
  /\ forallb is_int (map Repository.forks R) = true.
Proof.
  intros H. rewrite !forallb_map. rewrite !forallb_forall in *.
  split; intros r Hr; specialize (H r Hr); unfold counted_repo in H;
    apply andb_prop in H; tauto.
Qed.

End StatisticsMore.

(** X1: what [_calculate_statistics] raises on data that is no number.
    The three passes run in order.  A star count that is [None], a string,
    a list or a mapping makes the first pass raise [TypeError]; with
    integer stars, such a fork count makes the second raise [TypeError].
    With integer stars and forks, the language pass decides at the first
    repository that does not fit the data model: a [languages] field that
    is no mapping raises the [AttributeError] of its missing [items], and
    a byte count that is [None], a string, a list or a mapping raises
    [TypeError]. *)
Theorem ill_typed_statistics_raise (R : list Repository.t) :
  (existsb (fun r => not_a_number (Repository.stars r)) R = true ->
   exists msg, _calculate_statistics R = inl (TypeError msg))
  /\ (forallb (fun r => is_int (Repository.stars r)) R = true ->
      existsb (fun r => not_a_number (Repository.forks r)) R = true ->
      exists msg, _calculate_statistics R = inl (TypeError msg))
  /\ (forall good bad rest,
        R = (good ++ bad :: rest)%list ->
        forallb counted_repo R = true ->
        forallb typed_repo good = true ->
        (is_object (Repository.languages bad) = false ->
         _calculate_statistics R
         = inl (AttributeError
                  ("'" ++ type_name (Repository.languages bad)
                   ++ "' object has no attribute 'items'")))
        /\ (forall items,
              Repository.languages bad = JDict items ->
              existsb (fun kv => not_a_number (snd kv)) items = true ->
              exists msg, _calculate_statistics R = inl (TypeError msg))).
Proof.
  split; [|split].
  - intros H. unfold _calculate_statistics, py_sum.
    destruct (@py_sum_from_not_a_number (map Repository.stars R) 0)
      as [msg E]; [now rewrite existsb_mapped|].
    exists msg. now rewrite E.
  - intros Hs H. unfold _calculate_statistics, py_sum.
    rewrite (@py_sum_from_ints (map Repository.stars R) 0)
      by now rewrite forallb_map.
    destruct (@py_sum_from_not_a_number (map Repository.forks R) 0)
      as [msg E]; [now rewrite existsb_mapped|].
    exists msg. simpl rbind. now rewrite E.
  - intros good bad rest HR Hc Hgood.
    destruct (counted_repos_sums R Hc) as [Hs Hf].
    assert (Hsplit :
              _calculate_statistics R
              = rbind (rbind (py_items (Repository.languages bad))
                         (fun items =>
                            rbind (add_languages
                                     (tally_all []
                                        (flat_map language_items good)) items)
                              (fun d => aggregate_languages d rest)))
                  (fun all_languages =>
                     inr (ScrapingStatistics.Build
                            (Z.of_nat (List.length R))
                            (Z.of_nat
                               (List.length
                                  (filter (fun repo =>
                                             truthy_opt_str
                                               (Repository.readme_content repo))
                                          R)))
                            (0 + sum_Z (map int_of (map Repository.stars R)))
                            (0 + sum_Z (map int_of (map Repository.forks R)))
                            (dict_keys all_languages) all_languages))).
    { unfold _calculate_statistics, py_sum.
      rewrite (py_sum_from_ints _ 0 Hs), (py_sum_from_ints _ 0 Hf).
      simpl rbind.
      fold (py_sum (map (fun _ : Repository.t => JInt 1)
                      (filter (fun repo =>
                                 truthy_opt_str (Repository.readme_content repo))
                              R))).
      rewrite py_sum_ones. simpl rbind. f_equal.
      rewrite HR at 1. rewrite aggregate_languages_app.
      rewrite aggregate_languages_typed by exact Hgood. reflexivity. }
    split.
    + intros Hobj. rewrite Hsplit.
      destruct (Repository.languages bad); try discriminate; reflexivity.
    + intros items Hl Hbad. rewrite Hsplit, Hl. cbn [py_items rbind].
      destruct (add_languages_not_a_number _
                  (tally_all [] (flat_map language_items good)) Hbad)
        as [msg E].
      exists msg. now rewrite E.
Qed.

Lemma ill_typed_statistics_raise_witness :
  _calculate_statistics
    (sample_repos
     ++ [Repository.Build (JStr "epsilon") JNull JNull None JNull (JStr "u")
           (JInt 1) (JInt 0) (JBool false) (JStr "main")])
  = inl (AttributeError "'NoneType' object has no attribute 'items'").
Proof.
  destruct (ill_typed_statistics_raise
              (sample_repos
               ++ [Repository.Build (JStr "epsilon") JNull JNull None JNull
                     (JStr "u") (JInt 1) (JInt 0) (JBool false) (JStr "main")]))
    as [_ [_ H]].
  destruct (H sample_repos _ [] eq_refl eq_refl eq_refl) as [E _].
  apply E. reflexivity.
Defined.

(** X2: in statistics that [_calculate_statistics] returns, the number of
    repositories with a README is between zero and the number of
    repositories, and both counts are zero exactly on the empty sequence
    for the total. *)
Theorem readme_count_bounded (R : list Repository.t)
  (st : ScrapingStatistics.t) :
  _calculate_statistics R = inr st ->
  0 <= ScrapingStatistics.repositories_with_readme st
       <= ScrapingStatistics.total_repositories st
  /\ (ScrapingStatistics.total_repositories st = 0 <-> R = [])
  /\ (ScrapingStatistics.repositories_with_readme st
      = ScrapingStatistics.total_repositories st
      <-> forallb has_readme R = true).
Proof.
  intros H. pose proof (calculate_statistics_inr_typed _ H) as T.
  rewrite (calculate_statistics_typed R T) in H. injection H as <-. simpl.
  pose proof (filter_length_le has_readme R) as Hle.
  split; [lia|]. split.
  - destruct R; simpl; split; intros E; try reflexivity; try discriminate; lia.
  - split.
    + intros E. apply filter_length_forallb. lia.
    + intros E. f_equal. f_equal. apply forallb_filter_id, E.
Qed.

Lemma readme_count_bounded_witness :
  exists st,
    _calculate_statistics sample_repos = inr st
    /\ 0 <= ScrapingStatistics.repositories_with_readme st
            <= ScrapingStatistics.total_repositories st.
Proof.
  eassert (E : _calculate_statistics sample_repos = inr _) by reflexivity.
  eexists. split; [exact E|]. apply (readme_count_bounded _ E).
Defined.

(** X3: statistics compose over concatenation.  For two repository
    sequences that fit the data model, the statistics of their
    concatenation have the sums of the two totals, language by language the
    sum of the two byte counts, and a language list that begins with the
    language list of the first sequence. *)
Theorem statistics_of_concatenation (R1 R2 : list Repository.t) :
  forallb typed_repo R1 = true ->
  forallb typed_repo R2 = true ->
  exists st1 st2 st,
    _calculate_statistics R1 = inr st1
    /\ _calculate_statistics R2 = inr st2
    /\ _calculate_statistics (R1 ++ R2) = inr st
    /\ ScrapingStatistics.total_repositories st
       = ScrapingStatistics.total_repositories st1
         + ScrapingStatistics.total_repositories st2
    /\ ScrapingStatistics.repositories_with_readme st
       = ScrapingStatistics.repositories_with_readme st1
         + ScrapingStatistics.repositories_with_readme st2
    /\ ScrapingStatistics.total_stars st
       = ScrapingStatistics.total_stars st1 + ScrapingStatistics.total_stars st2
    /\ ScrapingStatistics.total_forks st
       = ScrapingStatistics.total_forks st1 + ScrapingStatistics.total_forks st2
    /\ (forall lang,
          dict_get lang 0 (ScrapingStatistics.language_distribution st)
          = dict_get lang 0 (ScrapingStatistics.language_distribution st1)
            + dict_get lang 0 (ScrapingStatistics.language_distribution st2))
    /\ exists more,
        ScrapingStatistics.unique_languages st
        = (ScrapingStatistics.unique_languages st1 ++ more)%list.
Proof.
  intros T1 T2.
  assert (T : forallb typed_repo (R1 ++ R2) = true)
    by (rewrite forallb_app, T1, T2; reflexivity).
  do 3 eexists.
  split; [apply calculate_statistics_typed, T1|].
  split; [apply calculate_statistics_typed, T2|].
  split; [apply calculate_statistics_typed, T|].
  simpl. repeat split.
  - rewrite length_app. lia.
  - rewrite filter_app, length_app. lia.
  - rewrite map_app, sum_Z_app. reflexivity.
  - rewrite map_app, sum_Z_app. reflexivity.
  - intros lang. rewrite !tally_all_get, flat_map_app.
    unfold bytes_for. rewrite map_app, sum_Z_app.
    unfold dict_get. simpl. lia.
  - rewrite !(tally_all_keys _ [] [] first_seen_nil_keys). simpl.
    rewrite flat_map_app, map_app. apply first_seen_app_prefix.
Qed.

Lemma statistics_of_concatenation_witness :
  exists st,
    _calculate_statistics (sample_repos ++ sample_repos) = inr st
    /\ ScrapingStatistics.total_stars st = 28
    /\ dict_get "C" 0 (ScrapingStatistics.language_distribution st) = 200.
Proof.
  destruct (statistics_of_concatenation sample_repos sample_repos
              eq_refl eq_refl)
    as [st1 [st2 [st [H1 [H2 [H [_ [_ [Hs [_ [Hl _]]]]]]]]]]].
  exists st. split; [exact H|].
  assert (E1 : st1 = st2) by congruence. subst st2.
  eassert (E : _calculate_statistics sample_repos = inr _) by reflexivity.
  rewrite E in H1. injection H1 as <-.
  split; [rewrite Hs | rewrite Hl]; reflexivity.
Defined.

(** X4: the order of the repositories matters only for the order of the
    language list.  Two sequences that fit the data model and hold the same
    repositories in different orders get the same counts and totals, the
    same byte count for every language, and language lists that are
    rearrangements of one another. *)
Theorem statistics_order_independent (R R' : list Repository.t) :
  forallb typed_repo R = true ->
  Permutation R R' ->
  exists st st',
    _calculate_statistics R = inr st
    /\ _calculate_statistics R' = inr st'
    /\ ScrapingStatistics.total_repositories st'
       = ScrapingStatistics.total_repositories st
    /\ ScrapingStatistics.repositories_with_readme st'
       = ScrapingStatistics.repositories_with_readme st
    /\ ScrapingStatistics.total_stars st' = ScrapingStatistics.total_stars st
    /\ ScrapingStatistics.total_forks st' = ScrapingStatistics.total_forks st
    /\ (forall lang,
          dict_get lang 0 (ScrapingStatistics.language_distribution st')
          = dict_get lang 0 (ScrapingStatistics.language_distribution st))
    /\ Permutation (ScrapingStatistics.unique_languages st)
         (ScrapingStatistics.unique_languages st').
Proof.
  intros T HP.
  assert (T' : forallb typed_repo R' = true).
  { rewrite forallb_forall in *. intros r Hr. apply T.
    eapply Permutation_in; [symmetry; exact HP | exact Hr]. }
  do 2 eexists.
  split; [apply calculate_statistics_typed, T|].
  split; [apply calculate_statistics_typed, T'|].
  simpl. repeat split.
  - f_equal. symmetry. apply Permutation_length, HP.
  - f_equal. symmetry. apply Permutation_length.
    clear T T'. induction HP; simpl.
    + constructor.
    + destruct (has_readme x); [constructor|]; assumption.
    + destruct (has_readme x), (has_readme y);
        try constructor; apply Permutation_refl.
    + etransitivity; eassumption.
  - symmetry. apply sum_Z_perm, Permutation_map, HP.
  - symmetry. apply sum_Z_perm, Permutation_map, HP.
  - intros lang. rewrite !tally_all_get, !bytes_for_flat_map.
    f_equal. symmetry. apply sum_Z_perm, Permutation_map, HP.
  - rewrite !(tally_all_keys _ [] [] first_seen_nil_keys). simpl.
    apply NoDup_Permutation; try apply first_seen_NoDup.
    intros k. rewrite !first_seen_In, !in_map_iff.
    split; intros [kv [Hk Hin]]; exists kv; (split; [exact Hk|]);
      apply in_flat_map in Hin as [r [Hr Hin]]; apply in_flat_map; exists r;
      (split; [|exact Hin]).
    + eapply Permutation_in; eassumption.
    + eapply Permutation_in; [symmetry; eassumption | assumption].
Qed.

Lemma statistics_order_independent_witness :
  exists st',
    _calculate_statistics (rev sample_repos) = inr st'
    /\ ScrapingStatistics.total_stars st' = 14
    /\ dict_get "Rust" 0 (ScrapingStatistics.language_distribution st') = 15.
Proof.
  destruct (@statistics_order_independent sample_repos (rev sample_repos)
              eq_refl (Permutation_rev sample_repos))
    as [st [st' [H [H' [_ [_ [Hs [_ [Hl _]]]]]]]]].
  exists st'. split; [exact H'|].
  eassert (E : _calculate_statistics sample_repos = inr _) by reflexivity.
  rewrite E in H. injection H as <-.
  split; [rewrite Hs | rewrite Hl]; reflexivity.
Defined.

(** ** Requests *)

Section RequestsMore.
Variable env : Env.

Lemma limited_for_run (url : string) (params : option (dict Json)) (k : nat) :
  forall s sk depth,
    limited_for env (request url params) k s = Some sk ->
    _make_api_request_at env (k + depth) url params s
    = _make_api_request_at env depth url params sk.
Proof.
  induction k as [|k IH]; intros s sk depth H; simpl in H.
  - now injection H as <-.
  - destruct (server env (dispatched s) (clock_ms s) (request url params))
      as [msg|r] eqn:Hsrv; [discriminate|].
    destruct (is_rate_limited r) eqn:Hlim; [|discriminate].
    destruct (reset_epoch env r) as [reset|] eqn:Hreset; [|discriminate].
    change (S k + depth)%nat with (S (k + depth)).
    rewrite (make_api_request_limited env (k + depth) url params s
               Hsrv Hlim Hreset).
    now apply IH.
Qed.

Lemma limited_for_effects (req : Request) (k : nat) :
  forall s sk,
    limited_for env req k s = Some sk ->
    _api_requests_count sk = _api_requests_count s + Z.of_nat k
    /\ dispatched sk = (repeat req k ++ dispatched s)%list
    /\ (exists sleeps,
          slept_ms sk = (sleeps ++ slept_ms s)%list
          /\ List.length sleeps = k
          /\ Forall (fun ms => 60000 <= ms) sleeps)
    /\ clock_ms s + 60000 * Z.of_nat k <= clock_ms sk.
Proof.
  induction k as [|k IH]; intros s sk H; simpl in H.
  - injection H as <-. simpl. repeat split; try lia.
    exists []. simpl. auto.
  - destruct (server env (dispatched s) (clock_ms s) req) as [msg|r];
      [discriminate|].
    destruct (is_rate_limited r); [|discriminate].
    destruct (reset_epoch env r) as [reset|]; [|discriminate].
    apply IH in H as [N [D [[sleeps [Sl [Len All]]] C]]].
    cbn [record_sleep after_call record_request count_request
           _api_requests_count dispatched slept_ms clock_ms] in *.
    assert (W : 60 <= wait_time reset (clock_ms s / 1000))
      by (unfold wait_time; lia).
    repeat split.
    + lia.
    + rewrite D. change (repeat req (S k)) with (req :: repeat req k).
      rewrite (repeat_cons k req), <- app_assoc. reflexivity.
    + exists (sleeps ++ [wait_time reset (clock_ms s / 1000) * 1000])%list.
      rewrite <- app_assoc. split; [exact Sl|].
      rewrite length_app. simpl. split; [lia|].
      apply Forall_app. split; [exact All|]. constructor; [lia | constructor].
    + lia.
Qed.

(** Every run that returns is a run of rate-limited exchanges followed by
    one that is not. *)
Lemma make_api_request_returns (url : string) (params : option (dict Json))
  (depth : nat) :
  forall s v s',
    _make_api_request_at env depth url params s = (Return v, s') ->
    exists k sk,
      (k < depth)%nat
      /\ limited_for env (request url params) k s = Some sk
      /\ rate_limited (server env (dispatched sk) (clock_ms sk)
                         (request url params)) = false
      /\ v = plain_result (server env (dispatched sk) (clock_ms sk)
                             (request url params))
      /\ s' = after_call (request url params) sk.
Proof.
  induction depth as [|depth IH]; intros s v s' H.
  - simpl in H. unfold bind, modify, raise in H. discriminate.
  - rewrite make_api_request_step in H.
    destruct (server env (dispatched s) (clock_ms s) (request url params))
      as [msg|r] eqn:Hsrv.
    + injection H as <- <-. exists 0%nat, s.
      rewrite Hsrv. repeat split. lia.
    + destruct (is_rate_limited r) eqn:Hlim.
      * destruct (reset_epoch env r) as [reset|] eqn:Hreset; [|discriminate].
        destruct (IH _ _ _ H) as [k [sk [Hk [Hl [Hp [Hv Hs]]]]]].
        exists (S k), sk. split; [lia|].
        split; [cbn [limited_for]; rewrite Hsrv, Hlim, Hreset; exact Hl|].
        auto.
      * injection H as <- <-. exists 0%nat, s.
        rewrite Hsrv. repeat split; [lia | exact Hlim].
Qed.

End RequestsMore.

(** X5: a request failure never reaches the caller of
    [_make_api_request].  It never raises a [RequestException].  Whenever
    it returns it has made the same call [k + 1] times, for some [k] that
    the stack has room for: the first [k] answers were rate-limit
    responses it slept on, the last one was not, and the result is read
    off that last answer, [None] for a failed connection, an error status
    or a body that is not JSON and the JSON body otherwise.  Every call of
    such a run is counted. *)
Theorem api_request_contains_request_failures (env : Env) (url : string)
  (params : option (dict Json)) (s s' : State) (o : Outcome Json) :
  _make_api_request env url params s = (o, s') ->
  (forall msg, o <> Raise (RequestException msg))
  /\ (forall v,
        o = Return v ->
        exists k sk,
          (k < recursion_limit env)%nat
          /\ limited_for env (request url params) k s = Some sk
          /\ rate_limited (server env (dispatched sk) (clock_ms sk)
                             (request url params)) = false
          /\ v = plain_result (server env (dispatched sk) (clock_ms sk)
                                 (request url params))
          /\ s' = after_call (request url params) sk
          /\ dispatched s'
             = (repeat (request url params) (S k) ++ dispatched s)%list
          /\ _api_requests_count s'
             = _api_requests_count s + Z.of_nat (S k)).
Proof.
  intros H. unfold _make_api_request in H. split.
  - intros msg ->.
    destruct (make_api_request_raises _ _ _ _ _ H) as [E|[m E]]; discriminate.
  - intros v ->.
    destruct (make_api_request_returns _ _ _ _ _ H)
      as [k [sk [Hk [Hl [Hp [Hv Hs]]]]]].
    exists k, sk. repeat split; try assumption.
    + destruct (limited_for_effects _ _ _ _ Hl) as [_ [D _]].
      rewrite Hs. simpl. rewrite D. reflexivity.
    + destruct (limited_for_effects _ _ _ _ Hl) as [N _].
      rewrite Hs. cbn [after_call record_request count_request
                         _api_requests_count].
      rewrite N, Nat2Z.inj_succ. lia.
Qed.

Lemma api_request_contains_request_failures_witness :
  exists s',
    _make_api_request (sample_env unreachable_api disk_ok)
      "https://api.github.com/users/octocat" None sample_start
    = (Return JNull, s')
    /\ _api_requests_count s' = 1.
Proof.
  eassert (E : _make_api_request (sample_env unreachable_api disk_ok)
                 "https://api.github.com/users/octocat" None sample_start
               = (Return JNull, _)) by (vm_compute; reflexivity).
  destruct (api_request_contains_request_failures _ _ _ _ E) as [_ H].
  destruct (H _ eq_refl) as [k [sk [_ [Hl [_ [_ [_ [_ N]]]]]]]].
  eexists. split; [exact E|].
  destruct k as [|k]; [rewrite N; reflexivity|].
  vm_compute in Hl. discriminate Hl.
Defined.

(** X6: only a 403 that speaks of a rate limit is waited for.  Any other
    response, a 429 or a 403 with another body included, is handled in one
    call without sleeping: an error status gives [None], any other status
    the JSON body. *)
Theorem only_rate_limited_403_is_retried (env : Env) (depth : nat)
  (url : string) (params : option (dict Json)) (s : State) (r : Response) :
  server env (dispatched s) (clock_ms s) (request url params) = Responded r ->
  status_code r <> 403 \/ contains "rate limit" (lower (text r)) = false ->
  exists s',
    _make_api_request_at env (S depth) url params s
    = (Return (if ((400 <=? status_code r) && (status_code r <? 600))%bool
               then JNull
               else match json_body r with
                    | Some j => j
                    | None => JNull
                    end), s')
    /\ slept_ms s' = slept_ms s
    /\ clock_ms s' = clock_ms s
    /\ dispatched s' = request url params :: dispatched s
    /\ _api_requests_count s' = _api_requests_count s + 1.
Proof.
  intros Hsrv Hnot. exists (after_call (request url params) s).
  split; [|repeat split].
  rewrite make_api_request_plain; rewrite Hsrv; [reflexivity|].
  simpl. unfold is_rate_limited.
  destruct Hnot as [Hst|Htxt].
  - destruct (Z.eqb_spec (status_code r) 403); [contradiction | reflexivity].
  - rewrite Htxt. apply andb_false_r.
Qed.

Lemma only_rate_limited_403_is_retried_witness :
  exists s',
    _make_api_request_at (sample_env too_many_requests disk_ok) 1
      "https://api.github.com/users/octocat" None sample_start
    = (Return JNull, s')
    /\ slept_ms s' = [].
Proof.
  eassert (Hsrv : server (sample_env too_many_requests disk_ok)
                    (dispatched sample_start) (clock_ms sample_start)
                    (request "https://api.github.com/users/octocat" None)
                  = Responded _) by reflexivity.
  assert (Hst : 429 <> 403) by discriminate.
  destruct (only_rate_limited_403_is_retried _ 0 _ _ _ Hsrv (or_introl Hst))
    as [s' [H [Hs _]]].
  exists s'. split; [exact H | exact Hs].
Defined.

(** X7: rate limiting is invisible to the caller when it ends.  After [k]
    rate-limited answers with readable reset headers, the answer that is
    not rate limited is returned as if it had come first; the request was
    dispatched [k + 1] times, all counted, and the scraper slept [k] times,
    at least 60 seconds each. *)
Theorem rate_limit_retries_are_transparent (env : Env) (depth k : nat)
  (url : string) (params : option (dict Json)) (s sk : State) :
  limited_for env (request url params) k s = Some sk ->
  rate_limited (server env (dispatched sk) (clock_ms sk) (request url params))
  = false ->
  (k < depth)%nat ->
  exists s',
    _make_api_request_at env depth url params s
    = (Return (plain_result
                 (server env (dispatched sk) (clock_ms sk)
                    (request url params))), s')
    /\ _api_requests_count s' = _api_requests_count s + Z.of_nat k + 1
    /\ dispatched s'
       = (repeat (request url params) (S k) ++ dispatched s)%list
    /\ (exists sleeps,
          slept_ms s' = (sleeps ++ slept_ms s)%list
          /\ List.length sleeps = k
          /\ Forall (fun ms => 60000 <= ms) sleeps)
    /\ clock_ms s + 60000 * Z.of_nat k <= clock_ms s'.
Proof.
  intros Hk Hplain Hdepth.
  exists (after_call (request url params) sk).
  replace depth with (k + S (depth - S k))%nat by lia.
  rewrite (limited_for_run env url params k s (S (depth - S k)) Hk).
  rewrite make_api_request_plain by exact Hplain.
  destruct (limited_for_effects env _ _ _ Hk) as [N [D [Sl C]]].
  split; [reflexivity|]. simpl. repeat split.
  - lia.
  - rewrite D. reflexivity.
  - exact Sl.
  - exact C.
Qed.

Lemma rate_limit_retries_are_transparent_witness :
  exists s',
    _make_api_request (sample_env limited_thrice disk_ok)
      "https://api.github.com/users/octocat" None sample_start
    = (Return (JDict [("login", JStr "octocat")]), s')
    /\ _api_requests_count s' = 4
    /\ slept_ms s' = [60000; 60000; 60000].
Proof.
  eassert (Hk : limited_for (sample_env limited_thrice disk_ok)
                  (request "https://api.github.com/users/octocat" None) 3
                  sample_start = Some _) by (vm_compute; reflexivity).
  destruct (@rate_limit_retries_are_transparent
              (sample_env limited_thrice disk_ok) 900 3
              "https://api.github.com/users/octocat" None sample_start _
              Hk eq_refl ltac:(lia))
    as [s' [H [N _]]].
  exists s'. split; [exact H|]. split; [rewrite N; reflexivity|].
  vm_compute in H. now injection H as <-.
Defined.

(** X8: rate limiting that never ends is not waited out for ever.  When
    every answer is a rate-limit response with a readable reset header and
    a wait that [time.sleep] accepts, [_make_api_request] sleeps at least
    60 seconds after each of them, as often as the stack has room for a
    nested call, and then raises [RecursionError], which its handler does
    not catch.  The call that overflows has counted itself: the counter
    ends one ahead of the sleeps. *)
Theorem endless_rate_limit_raises (env : Env) (depth : nat) (url : string)
  (params : option (dict Json)) (s sd : State) :
  limited_for env (request url params) depth s = Some sd ->
  waits_accepted env (request url params) depth s = true ->
  exists s',
    _make_api_request_at env depth url params s = (Raise RecursionError, s')
    /\ is_request_exception RecursionError = false
    /\ _api_requests_count s' = _api_requests_count s + Z.of_nat depth + 1
    /\ (exists sleeps,
          slept_ms s' = (sleeps ++ slept_ms s)%list
          /\ List.length sleeps = depth
          /\ Forall (fun ms => 60000 <= ms) sleeps)
    /\ clock_ms s + 60000 * Z.of_nat depth <= clock_ms s'.
Proof.
  intros H _.
  pose proof (limited_for_run env url params depth s 0 H) as Hrun.
  rewrite Nat.add_0_r in Hrun.
  destruct (limited_for_effects env _ _ _ H) as [N [_ [Sl C]]].
  exists (count_request sd).
  split; [rewrite Hrun; reflexivity|].
  split; [reflexivity|].
  split; [simpl; lia|]. split; [exact Sl | exact C].
Qed.

Lemma endless_rate_limit_raises_witness :
  exists s',
    _make_api_request_at (sample_env always_limited disk_ok) 5
      "https://api.github.com/users/octocat" None sample_start
    = (Raise RecursionError, s')
    /\ _api_requests_count s' = 6
    /\ List.length (slept_ms s') = 5%nat
    /\ clock_ms s' = 1300000.
Proof.
  eassert (Hk : limited_for (sample_env always_limited disk_ok)
                  (request "https://api.github.com/users/octocat" None) 5
                  sample_start = Some _) by (vm_compute; reflexivity).
  destruct (@endless_rate_limit_raises _ _ _ _ _ _ Hk eq_refl)
    as [s' [H [_ [N _]]]].
  exists s'. split; [exact H|]. split; [rewrite N; reflexivity|].
  vm_compute in H. injection H as <-. split; reflexivity.
Defined.

(** X9: the reset header at its edges.  A rate-limited answer without the
    header counts as a reset at epoch 0, so the scraper sleeps exactly 60
    seconds before asking again; one whose header [int] cannot read makes
    the request raise [ValueError] after the one call, without sleeping. *)
Theorem reset_header_missing_or_unreadable (env : Env) (depth : nat)
  (url : string) (params : option (dict Json)) (s : State) (r : Response) :
  server env (dispatched s) (clock_ms s) (request url params) = Responded r ->
  is_rate_limited r = true ->
  (header_get "X-RateLimit-Reset" (headers r) = None ->
   0 <= clock_ms s ->
   _make_api_request_at env (S depth) url params s
   = _make_api_request_at env depth url params
       (record_sleep 60000 (after_call (request url params) s)))
  /\ (forall h,
        header_get "X-RateLimit-Reset" (headers r) = Some h ->
        py_int env h = None ->
        _make_api_request_at env (S depth) url params s
        = (Raise (ValueError "invalid literal for int()"),
           after_call (request url params) s)).
Proof.
  intros Hsrv Hlim. split.
  - intros Hnone Hclock.
    rewrite make_api_request_step, Hsrv, Hlim.
    unfold reset_epoch. rewrite Hnone. unfold wait_time.
    assert (0 <= clock_ms s / 1000) by (apply Z.div_pos; lia).
    replace (Z.max (0 - clock_ms s / 1000) 60) with 60 by lia.
    reflexivity.
  - intros h Hsome Hbad.
    rewrite make_api_request_step, Hsrv, Hlim.
    unfold reset_epoch. rewrite Hsome, Hbad. reflexivity.
Qed.

Lemma reset_header_missing_or_unreadable_witness :
  (exists s',
      _make_api_request_at (sample_env limited_without_header disk_ok) 2
        "https://api.github.com/users/octocat/repos" None sample_start
      = (Return (JList []), s')
      /\ slept_ms s' = [60000])
  /\ exists s',
      _make_api_request_at (sample_env limited_bad_header disk_ok) 2
        "https://api.github.com/users/octocat/repos" None sample_start
      = (Raise (ValueError "invalid literal for int()"), s')
      /\ slept_ms s' = [].
Proof.
  split.
  - eassert (Hsrv : server (sample_env limited_without_header disk_ok)
                      (dispatched sample_start) (clock_ms sample_start)
                      (request "https://api.github.com/users/octocat/repos" None)
                    = Responded _) by reflexivity.
    destruct (@reset_header_missing_or_unreadable _ 1 _ _ _ _ Hsrv eq_refl)
      as [H _].
    rewrite (H eq_refl ltac:(simpl; lia)).
    eexists. split; [vm_compute; reflexivity | reflexivity].
  - eassert (Hsrv : server (sample_env limited_bad_header disk_ok)
                      (dispatched sample_start) (clock_ms sample_start)
                      (request "https://api.github.com/users/octocat/repos" None)
                    = Responded _) by reflexivity.
    destruct (@reset_header_missing_or_unreadable _ 1 _ _ _ _ Hsrv eq_refl)
      as [_ H].
    rewrite (H "soon" eq_refl eq_refl).
    eexists. split; reflexivity.
Defined.

(** ** Profiles *)

(** X10: the profile of a user whose record is served.  The profile
    README is looked up in the repository named like the user, with the
    same candidates in the same order as for any repository; the website
    comes from [blog], the Twitter handle becomes a profile URL, a record
    without [login] gets the requested name, and missing counters are 0.
    The cost is one call for the record and one per candidate probed. *)
Theorem user_profile_of_record (env : Env) (username : string)
  (d : dict Json) (answer : string -> Json) (s : State) :
  (0 < recursion_limit env)%nat ->
  answers_plainly env (request (user_url username) None) (JDict d) ->
  d <> [] ->
  (forall n, In n readme_names ->
             answers_plainly env (probe env username (JStr username) n)
               (answer n)) ->
  (forall n, In n readme_names -> object_or_none (answer n) = true) ->
  get_user_profile env username s
  = (Return (Some (profile_of_record env username d
                     (option_map snd
                        (first_readable env answer readme_names)))),
     after_calls (map (probe env username (JStr username))
                    (probed env answer readme_names))
       (after_call (request (user_url username) None) s)).
Proof.
  intros Hframes Huser Hd Hans Hobj.
  unfold get_user_profile, bind.
  rewrite (@make_api_request_answers env Hframes _ _ _ s Huser).
  destruct d as [|kv d]; [contradiction|].
  change (negb (truthy (JDict (kv :: d)))) with false. cbv iota.
  unfold _get_profile_readme, _get_readme_content.
  rewrite (@probe_readme_answers env Hframes username (JStr username) answer
             readme_names _ Hans Hobj).
  reflexivity.
Qed.

Lemma user_profile_of_record_witness :
  exists p s',
    get_user_profile (sample_env profile_api disk_ok) "octocat" sample_start
    = (Return (Some p), s')
    /\ UserProfile.twitter p = JStr "https://twitter.com/github"
    /\ UserProfile.website p = JStr "https://github.blog"
    /\ UserProfile.profile_readme p = Some "Hi there"
    /\ UserProfile.following p = JInt 0
    /\ _api_requests_count s' = 3.
Proof.
  set (env := sample_env profile_api disk_ok).
  pose (answer := fun n => plain_result
                   (profile_api [] 0 (probe env "octocat" (JStr "octocat") n))).
  assert (Hframes : (0 < recursion_limit env)%nat) by (simpl; lia).
  eassert (Huser : answers_plainly env (request (user_url "octocat") None)
                     (JDict _)).
  { intros history now. split; reflexivity. }
  assert (Hans : forall n, In n readme_names ->
                 answers_plainly env (probe env "octocat" (JStr "octocat") n)
                   (answer n)).
  { intros n Hn history now. simpl in Hn.
    repeat (destruct Hn as [<-|Hn]; [split; reflexivity|]). contradiction. }
  assert (Hobj : forall n, In n readme_names -> object_or_none (answer n) = true).
  { intros n Hn. simpl in Hn.
    repeat (destruct Hn as [<-|Hn]; [reflexivity|]). contradiction. }
  eexists. eexists. split.
  - apply (@user_profile_of_record env "octocat" _ answer sample_start
             Hframes Huser ltac:(discriminate) Hans Hobj).
  - repeat split; reflexivity.
Defined.

(** ** Repositories *)

Section RepositoriesMore.
Variable env : Env.
Variable username : string.

Lemma scrape_repository_result (item : Json) (s s' : State)
  (r : Repository.t) :
  scrape_repository env username item s = (Return r, s') ->
  built_from item r /\ languages_or_empty r.
Proof.
  unfold scrape_repository, bind. intros H.
  destruct item as [| | | | |d]; try discriminate.
  cbn [py_get lift ret] in H.
  destruct (_get_readme_content env username _ _ s) as [[readme|e|] s1];
    try discriminate.
  unfold get_repository_languages, bind in H.
  destruct (_make_api_request env _ None s1) as [[v|e|] s2]; try discriminate.
  cbn in H. injection H as <- _. split.
  - exists d. cbn. repeat split; reflexivity.
  - unfold languages_or_empty. cbn.
    destruct (truthy v) eqn:T; [right; exact T | left; reflexivity].
Qed.

Lemma scrape_page_result (items : list Json) :
  forall acc s R s',
    scrape_page env username items acc s = (Return R, s') ->
    exists new,
      R = (acc ++ new)%list
      /\ Forall2 built_from items new
      /\ Forall languages_or_empty new.
Proof.
  induction items as [|item items IH]; intros acc s R s' H.
  - simpl in H. injection H as <- _. exists [].
    rewrite app_nil_r. repeat constructor.
  - simpl in H. unfold bind in H.
    destruct (scrape_repository env username item s) as [[r|e|] s1] eqn:E;
      try discriminate.
    destruct (scrape_repository_result _ _ E) as [B L].
    destruct (IH _ _ _ _ H) as [new [-> [F2 FL]]].
    exists (r :: new). rewrite <- app_assoc.
    split; [reflexivity|]. split; constructor; assumption.
Qed.

End RepositoriesMore.

(** X11: what the loop over a listing page builds, whatever the API
    answers.  When [scrape_page] returns, it has appended one record per
    item of the page, in the order of the page; every item was a JSON
    object, and its record has the values of that object, with the
    defaults of the code for missing keys (empty name and URL, no stars,
    no forks, not a fork, branch [main]); [about] and [description] are the
    same value; and [languages] is never [None]: a failed or empty
    language lookup leaves the empty mapping. *)
Theorem scraped_repositories_are_well_formed (env : Env) (username : string)
  (items : list Json) (acc R : list Repository.t) (s s' : State) :
  scrape_page env username items acc s = (Return R, s') ->
  exists new,
    R = (acc ++ new)%list
    /\ Forall2 built_from items new
    /\ Forall (fun r =>
                 Repository.about r = Repository.description r
                 /\ languages_or_empty r
                 /\ Repository.languages r <> JNull) new.
Proof.
  intros H.
  destruct (scrape_page_result _ _ _ _ _ H) as [new [-> [F2 FL]]].
  exists new. split; [reflexivity|]. split; [exact F2|].
  apply Forall_forall. intros r Hr.
  assert (A : Repository.about r = Repository.description r).
  { clear FL H. induction F2 as [|item r0 items new B _ IH]; [contradiction|].
    destruct Hr as [->|Hr]; [|apply IH; exact Hr].
    destruct B as [d [_ [_ [-> [-> _]]]]]. reflexivity. }
  rewrite Forall_forall in FL. pose proof (FL r Hr) as L.
  split; [exact A|]. split; [exact L|].
  destruct L as [E|T]; intros N; rewrite N in *; discriminate.
Qed.

Lemma scraped_repositories_are_well_formed_witness :
  exists R s',
    scrape_page (sample_env small_account_api disk_ok) "octocat"
      [JDict [("name", JStr "hello"); ("stargazers_count", JInt 3)];
       JDict [("name", JStr "world")]] [] sample_start
    = (Return R, s')
    /\ map Repository.name R = [JStr "hello"; JStr "world"]
    /\ map Repository.stars R = [JInt 3; JInt 0]
    /\ map Repository.languages R
       = [JDict [("Python", JInt 120); ("Shell", JInt 8)]; JDict []].
Proof.
  eassert (E : scrape_page (sample_env small_account_api disk_ok) "octocat"
                 [JDict [("name", JStr "hello"); ("stargazers_count", JInt 3)];
                  JDict [("name", JStr "world")]] [] sample_start
               = (Return _, _)) by (vm_compute; reflexivity).
  destruct (@scraped_repositories_are_well_formed _ _ _ _ _ _ _ E)
    as [new [HR _]].
  eexists. eexists. split; [exact E|].
  repeat split; reflexivity.
Defined.

Section ListingMore.
Variable env : Env.
Variable username : string.
Variable pages : Z -> list Json.
Hypothesis frames : (0 < recursion_limit env)%nat.
Hypothesis world : listing_only env username pages.
Hypothesis objects : forall p, forallb is_object (pages p) = true.

(** The loop against a listing-only API, with the state it ends in. *)
Lemma fetch_pages_listing_only_state (n : nat) :
  forall fuel page repositories s,
    (n < fuel)%nat ->
    (forall i, (i < n)%nat ->
               per_page <= Z.of_nat (List.length (pages (page + Z.of_nat i)))) ->
    Z.of_nat (List.length (pages (page + Z.of_nat n))) < per_page ->
    fetch_pages env fuel username page repositories s
    = (Return (repositories
               ++ map bare_repository (pages_through pages page n))%list,
       after_listing env username pages page n s).
Proof.
  destruct world as [Hpage _].
  induction n as [|n IH]; intros fuel page repositories s Hfuel Hfull Hshort;
    (destruct fuel as [|fuel]; [lia|]);
    cbn [fetch_pages pages_through after_listing]; unfold bind;
    rewrite (@make_api_request_answers env frames _ _ _ s (Hpage page)).
  - replace (page + Z.of_nat 0) with page in Hshort by lia.
    destruct (pages page) as [|item items] eqn:E.
    + simpl. rewrite app_nil_r. reflexivity.
    + change (negb (truthy (JList (item :: items)))) with false. cbv iota.
      cbn [py_len lift ret].
      destruct (Z.eqb_spec (Z.of_nat (List.length (item :: items))) 0) as [Hz|_];
        [simpl in Hz; lia|].
      cbn [py_iter lift ret].
      rewrite (@scrape_page_bare env username pages frames world)
        by (rewrite <- E; apply objects).
      destruct (Z.ltb_spec (Z.of_nat (List.length (item :: items))) per_page);
        [reflexivity | lia].
  - assert (Hfirst := Hfull 0%nat ltac:(lia)).
    replace (page + Z.of_nat 0) with page in Hfirst by lia.
    destruct (pages page) as [|item items] eqn:E;
      [simpl in Hfirst; unfold per_page in Hfirst; lia|].
    change (negb (truthy (JList (item :: items)))) with false. cbv iota.
    cbn [py_len lift ret].
    destruct (Z.eqb_spec (Z.of_nat (List.length (item :: items))) 0) as [Hz|_];
      [simpl in Hz; lia|].
    cbn [py_iter lift ret].
    rewrite (@scrape_page_bare env username pages frames world)
      by (rewrite <- E; apply objects).
    destruct (Z.ltb_spec (Z.of_nat (List.length (item :: items))) per_page);
      [lia|].
    rewrite IH.
    + rewrite map_app, app_assoc. reflexivity.
    + lia.
    + intros i Hi.
      replace (page + 1 + Z.of_nat i) with (page + Z.of_nat (S i)) by lia.
      apply Hfull. lia.
    + replace (page + 1 + Z.of_nat n) with (page + Z.of_nat (S n)) by lia.
      exact Hshort.
Qed.

Lemma after_calls_effects (rs : list Request) :
  forall s,
    _api_requests_count (after_calls rs s)
    = _api_requests_count s + Z.of_nat (List.length rs)
    /\ clock_ms (after_calls rs s) = clock_ms s
    /\ slept_ms (after_calls rs s) = slept_ms s.
Proof.
  unfold after_calls.
  induction rs as [|r rs IH]; intros s; cbn [fold_left List.length].
  - repeat split. lia.
  - destruct (IH (after_call r s)) as [N [C S]]. rewrite N, C, S.
    cbn [after_call record_request count_request _api_requests_count
           clock_ms slept_ms].
    rewrite Nat2Z.inj_succ. repeat split. lia.
Qed.

Lemma after_page_effects (items : list Json) :
  forall s,
    _api_requests_count (after_page env username items s)
    = _api_requests_count s + 6 * Z.of_nat (List.length items)
    /\ clock_ms (after_page env username items s)
       = clock_ms s + 100 * Z.of_nat (List.length items).
Proof.
  unfold after_page.
  induction items as [|item items IH]; intros s; cbn [fold_left List.length].
  - split; lia.
  - destruct (IH (after_repository env username s item)) as [N C].
    rewrite N, C. unfold after_repository.
    cbn [record_sleep _api_requests_count clock_ms].
    destruct (after_calls_effects (repository_calls env username item) s)
      as [N' [C' _]].
    rewrite N', C'. unfold repository_calls.
    rewrite length_app, length_map, Nat2Z.inj_succ.
    change (List.length readme_names) with 5%nat.
    change (List.length [request (languages_url env username
                                    match item with
                                    | JDict d => dict_get "name" (JStr EmptyString) d
                                    | _ => JNull
                                    end) None]) with 1%nat.
    split; lia.
Qed.

Lemma after_listing_effects (n : nat) :
  forall page s,
    _api_requests_count (after_listing env username pages page n s)
    = _api_requests_count s + Z.of_nat (S n)
      + 6 * Z.of_nat (List.length (pages_through pages page n))
    /\ clock_ms (after_listing env username pages page n s)
       = clock_ms s
         + 100 * Z.of_nat (List.length (pages_through pages page n)).
Proof.
  induction n as [|n IH]; intros page s;
    cbn [after_listing pages_through].
  - destruct (after_page_effects (pages page)
                (after_call (request (repos_url username)
                               (Some (repos_params page))) s)) as [N C].
    rewrite N, C.
    cbn [after_call record_request count_request _api_requests_count clock_ms].
    split; lia.
  - destruct (IH (page + 1)
                (after_page env username (pages page)
                   (after_call (request (repos_url username)
                                  (Some (repos_params page))) s))) as [N C].
    rewrite N, C.
    destruct (after_page_effects (pages page)
                (after_call (request (repos_url username)
                               (Some (repos_params page))) s)) as [N' C'].
    rewrite N', C', length_app.
    cbn [after_call record_request count_request _api_requests_count clock_ms].
    rewrite (Nat2Z.inj_succ (S n)), (Nat2Z.inj_succ n), Nat2Z.inj_add.
    split; lia.
Qed.

(** Against full pages the loop goes on as long as the model follows
    it. *)
Lemma fetch_pages_full_pages (fuel : nat) :
  (forall p, per_page <= Z.of_nat (List.length (pages p))) ->
  forall page repositories s,
    fst (fetch_pages env fuel username page repositories s) = Hang.
Proof.
  intros Hfull. destruct world as [Hpage _].
  induction fuel as [|fuel IH]; intros page repositories s; [reflexivity|].
  cbn [fetch_pages]. unfold bind.
  rewrite (@make_api_request_answers env frames _ _ _ s (Hpage page)).
  pose proof (Hfull page) as Hp.
  destruct (pages page) as [|item items] eqn:E;
    [simpl in Hp; unfold per_page in Hp; lia|].
  change (negb (truthy (JList (item :: items)))) with false. cbv iota.
  cbn [py_len lift ret].
  destruct (Z.eqb_spec (Z.of_nat (List.length (item :: items))) 0) as [Hz|_];
    [simpl in Hz; lia|].
  cbn [py_iter lift ret].
  rewrite (@scrape_page_bare env username pages frames world)
    by (rewrite <- E; apply objects).
  destruct (Z.ltb_spec (Z.of_nat (List.length (item :: items))) per_page);
    [lia|].
  apply IH.
Qed.

End ListingMore.

(** X12: what a listing costs.  Against an API that has only the listing
    (no README, no language data), fetching the pages up to the first short
    one takes one call per page and six calls per repository, five README
    probes and one language lookup, and the scraper sleeps a tenth of a
    second per repository and not otherwise. *)
Theorem listing_cost (env : Env) (username : string) (pages : Z -> list Json)
  (n fuel : nat) (s : State) :
  (0 < recursion_limit env)%nat ->
  listing_only env username pages ->
  (forall p, forallb is_object (pages p) = true) ->
  (forall i, (i < n)%nat ->
             per_page <= Z.of_nat (List.length (pages (1 + Z.of_nat i)))) ->
  Z.of_nat (List.length (pages (1 + Z.of_nat n))) < per_page ->
  (n < fuel)%nat ->
  exists R s',
    get_user_repositories env fuel username s = (Return R, s')
    /\ _api_requests_count s'
       = _api_requests_count s + Z.of_nat (S n) + 6 * Z.of_nat (List.length R)
    /\ clock_ms s' = clock_ms s + 100 * Z.of_nat (List.length R).
Proof.
  intros Hframes Hworld Hobj Hfull Hshort Hfuel.
  do 2 eexists. split.
  - apply (@fetch_pages_listing_only_state env username pages Hframes Hworld
             Hobj n fuel 1 [] s Hfuel Hfull Hshort).
  - destruct (after_listing_effects env username pages Hframes n 1 s) as [N C].
    rewrite N, C. simpl app. rewrite length_map. split; reflexivity.
Qed.

Lemma listing_cost_witness :
  exists R s',
    get_user_repositories (sample_env (paged_api [100; 100; 3]%nat) disk_ok)
      3 "octocat" sample_start = (Return R, s')
    /\ List.length R = 203%nat
    /\ _api_requests_count s' = 1221
    /\ clock_ms s' = 1020300.
Proof.
  destruct (@listing_cost (sample_env (paged_api [100; 100; 3]%nat) disk_ok)
              "octocat" (sized_pages [100; 100; 3]%nat) 2%nat 3%nat
              sample_start) as [R [s' [Hrun [N C]]]].
  - simpl. lia.
  - split.
    + intros p history now. split; reflexivity.
    + intros r Hr history now. simpl. unfold paged_api.
      destruct (String.eqb_spec (req_url r)
                  "https://api.github.com/users/octocat/repos") as [E|_].
      * exfalso. apply Hr. rewrite E. reflexivity.
      * split; reflexivity.
  - intros p. unfold sized_pages. destruct (p <=? 0); [reflexivity|].
    generalize (nth (Z.to_nat (p - 1)) [100; 100; 3]%nat 0%nat).
    intros n. induction n; simpl; auto.
  - intros i Hi. destruct i as [|[|i]]; [| |lia];
      vm_compute; intros H; discriminate H.
  - vm_compute. reflexivity.
  - lia.
  - assert (L : List.length R = 203%nat).
    { pose proof Hrun as Hrun'. vm_compute in Hrun'.
      injection Hrun' as <- _. reflexivity. }
    exists R, s'. split; [exact Hrun|]. split; [exact L|].
    rewrite N, C, L. split; reflexivity.
Defined.

(** X13: the listing loop has no page limit.  Against an API whose every
    listing page is full, [get_user_repositories] does not return within
    any number of pages: the model reaches its bound for every bound. *)
Theorem endless_listing_never_returns (env : Env) (username : string)
  (pages : Z -> list Json) (fuel : nat) (s : State) :
  (0 < recursion_limit env)%nat ->
  listing_only env username pages ->
  (forall p, forallb is_object (pages p) = true) ->
  (forall p, per_page <= Z.of_nat (List.length (pages p))) ->
  fst (get_user_repositories env fuel username s) = Hang.
Proof.
  intros Hframes Hworld Hobj Hfull.
  apply (@fetch_pages_full_pages env username pages Hframes Hworld Hobj fuel
           Hfull).
Qed.

Lemma endless_listing_never_returns_witness :
  fst (get_user_repositories (sample_env paged_forever disk_ok) 4 "octocat"
         sample_start) = Hang.
Proof.
  apply (@endless_listing_never_returns (sample_env paged_forever disk_ok)
           "octocat" (fun _ => page_of_size 100)).
  - simpl. lia.
  - split.
    + intros p history now. split; reflexivity.
    + intros r Hr history now. simpl. unfold paged_forever.
      destruct (String.eqb_spec (req_url r)
                  "https://api.github.com/users/octocat/repos") as [E|_].
      * exfalso. apply Hr. rewrite E. reflexivity.
      * split; reflexivity.
  - intros p. reflexivity.
  - intros p. vm_compute. intros H. discriminate H.
Defined.

(** ** What fetching leaves alone *)

Section Fetching.
Variable env : Env.
Variable P : State -> State -> Prop.
Hypothesis P_refl : forall s, P s s.
Hypothesis P_trans : forall s1 s2 s3, P s1 s2 -> P s2 s3 -> P s1 s3.
Hypothesis P_count : forall s, P s (count_request s).
Hypothesis P_call : forall r s, P s (after_call r s).
Hypothesis P_sleep : forall ms s, 0 <= ms -> P s (record_sleep ms s).

Lemma fetching_make_api_request_at (depth : nat) (url : string)
  (params : option (dict Json)) :
  keeps P (_make_api_request_at env depth url params).
Proof.
  induction depth as [|depth IH]; intros s o s' H.
  - simpl in H. unfold bind, modify, raise in H. injection H as _ <-.
    apply P_count.
  - rewrite make_api_request_step in H.
    destruct (server env (dispatched s) (clock_ms s) (request url params))
      as [msg|r].
    + injection H as _ <-. apply P_call.
    + destruct (is_rate_limited r).
      * destruct (reset_epoch env r) as [reset|].
        -- eapply P_trans; [|exact (IH _ _ _ H)].
           eapply P_trans; [apply P_call|apply P_sleep].
           unfold wait_time. lia.
        -- injection H as _ <-. apply P_call.
      * injection H as _ <-. apply P_call.
Qed.

Ltac fetch_step :=
  lazymatch goal with
  | |- keeps _ (ret _) => apply keeps_ret; apply P_refl
  | |- keeps _ (gets _) => apply keeps_gets; apply P_refl
  | |- keeps _ hang => apply keeps_hang; apply P_refl
  | |- keeps _ (time_sleep _) =>
      apply keeps_modify; intros; apply P_sleep; lia
  | |- keeps _ (_make_api_request _ _ _) =>
      apply fetching_make_api_request_at
  | |- keeps _ (lift _) => apply keeps_lift; apply P_refl
  | |- keeps _ (bind _ _) => apply keeps_bind; [apply P_trans | | intros]
  | |- keeps _ (if ?b then _ else _) => destruct b
  | |- keeps _ (match ?x with _ => _ end) => destruct x
  end.

Lemma fetching_probe_readme (names : list string) (username : string)
  (repo_name : Json) :
  keeps P (probe_readme env names username repo_name).
Proof.
  induction names as [|n names IH]; simpl; repeat fetch_step; exact IH.
Qed.

Lemma fetching_get_user_profile (username : string) :
  keeps P (get_user_profile env username).
Proof.
  unfold get_user_profile, _get_profile_readme, _get_readme_content.
  repeat first [apply fetching_probe_readme | fetch_step].
Qed.

Lemma fetching_scrape_repository (username : string) (repo_data : Json) :
  keeps P (scrape_repository env username repo_data).
Proof.
  unfold scrape_repository, _get_readme_content, get_repository_languages.
  repeat first [apply fetching_probe_readme | fetch_step].
Qed.

Lemma fetching_scrape_page (username : string) (items : list Json) :
  forall repositories,
    keeps P (scrape_page env username items repositories).
Proof.
  induction items as [|item items IH]; intros repositories; simpl.
  - fetch_step.
  - apply keeps_bind; [apply P_trans | apply fetching_scrape_repository|].
    intros r. apply IH.
Qed.

Lemma fetching_fetch_pages (fuel : nat) (username : string) :
  forall page repositories,
    keeps P (fetch_pages env fuel username page repositories).
Proof.
  induction fuel as [|fuel IH]; intros page repositories; simpl.
  - fetch_step.
  - repeat first [apply fetching_scrape_page | apply IH | fetch_step].
Qed.

End Fetching.

Section Undisturbed.

Lemma undisturbed_refl (s : State) : undisturbed s s.
Proof. unfold undisturbed. repeat split. lia. Qed.

Lemma undisturbed_trans (s1 s2 s3 : State) :
  undisturbed s1 s2 -> undisturbed s2 s3 -> undisturbed s1 s3.
Proof.
  unfold undisturbed. intros [W1 [F1 [D1 C1]]] [W2 [F2 [D2 C2]]].
  repeat split; try congruence. lia.
Qed.

Lemma undisturbed_count (s : State) : undisturbed s (count_request s).
Proof. unfold undisturbed. simpl. repeat split. lia. Qed.

Lemma undisturbed_call (r : Request) (s : State) :
  undisturbed s (after_call r s).
Proof. unfold undisturbed. simpl. repeat split. lia. Qed.

Lemma undisturbed_sleep (ms : Z) (s : State) :
  0 <= ms -> undisturbed s (record_sleep ms s).
Proof. unfold undisturbed. simpl. repeat split. lia. Qed.

Lemma undisturbed_get_user_profile (env : Env) (username : string) :
  keeps undisturbed (get_user_profile env username).
Proof.
  apply fetching_get_user_profile;
    auto using undisturbed_refl, undisturbed_count, undisturbed_call,
      undisturbed_sleep.
  apply undisturbed_trans.
Qed.

Lemma undisturbed_get_user_repositories (env : Env) (fuel : nat)
  (username : string) :
  keeps undisturbed (get_user_repositories env fuel username).
Proof.
  apply fetching_fetch_pages;
    auto using undisturbed_refl, undisturbed_count, undisturbed_call,
      undisturbed_sleep.
  apply undisturbed_trans.
Qed.

End Undisturbed.

(** ** The aggregate and the disk *)

Section AggregateMore.
Variable env : Env.

(** The ways [scrape_user_complete] returns. *)
Lemma scrape_user_complete_returns (fuel : nat) (username : string)
  (arg : option bool) (s s' : State) (d : CompleteUserData.t) :
  scrape_user_complete env fuel username arg s = (Return d, s') ->
  exists p R st s1 s2,
    get_user_profile env username s = (Return (Some p), s1)
    /\ get_user_repositories env fuel username s1 = (Return R, s2)
    /\ _calculate_statistics R = inr st
    /\ ((should_save arg s2 = false
         /\ d = unsaved_document env p R st s2 /\ s' = s2)
        \/ (should_save arg s2 = true
            /\ fs_write env (save_path env username s2)
                 (unsaved_document env p R st s2) = None
            /\ d = set_saved_to_file (save_path env username s2)
                     (unsaved_document env p R st s2)
            /\ s' = record_write (save_path env username s2)
                      (unsaved_document env p R st s2) s2)
        \/ (exists msg,
              should_save arg s2 = true
              /\ fs_write env (save_path env username s2)
                   (unsaved_document env p R st s2) = Some msg
              /\ d = set_save_error msg (unsaved_document env p R st s2)
              /\ s' = s2)).
Proof.
  rewrite scrape_user_complete_stages. intros H.
  destruct (get_user_profile env username s) as [[[p|]|e|] s1] eqn:H1;
    try discriminate.
  destruct (get_user_repositories env fuel username s1) as [[R|e|] s2] eqn:H2;
    try discriminate.
  destruct (_calculate_statistics R) as [e|st] eqn:H3; [discriminate|].
  exists p, R, st, s1, s2.
  split; [reflexivity|]. split; [exact H2|]. split; [exact H3|].
  cbv zeta in H.
  destruct (should_save arg s2).
  - destruct (fs_write env _ _) as [msg|] eqn:W; injection H as <- <-.
    + right. right. exists msg. auto.
    + right. left. auto.
  - injection H as <- <-. left. auto.
Qed.

(** Everything before the save step leaves settings and disk alone. *)
Lemma scrape_fetching_undisturbed (fuel : nat) (username : string)
  (s s1 s2 : State) (p : option UserProfile.t) (R : list Repository.t) :
  get_user_profile env username s = (Return p, s1) ->
  get_user_repositories env fuel username s1 = (Return R, s2) ->
  undisturbed s s2.
Proof.
  intros H1 H2.
  pose proof (undisturbed_get_user_profile env username _ H1) as U1.
  pose proof (undisturbed_get_user_repositories env fuel username _ H2) as U2.
  eapply undisturbed_trans; eassumption.
Qed.

End AggregateMore.

(** X14: the document on disk does not know where it is.  When a scrape
    reports [saved_to_file], exactly one file was written, at that path,
    which is the output directory joined with
    [<username>_profile_<timestamp>.json]; the document written is the
    aggregate as it was before the save, so its own [saved_to_file] and
    [save_error] are empty, and the aggregate returned differs from it in
    [saved_to_file] only. *)
Theorem saved_document_lacks_its_path (env : Env) (fuel : nat)
  (username : string) (arg : option bool) (s s' : State)
  (d : CompleteUserData.t) (path : string) :
  scrape_user_complete env fuel username arg s = (Return d, s') ->
  ScrapingMetadata.saved_to_file (CompleteUserData.metadata d) = Some path ->
  exists doc now,
    written s' = (path, doc) :: written s
    /\ fs_write env path doc = None
    /\ clock_ms s <= now
    /\ path = path_join (output_dir s)
                (username ++ "_profile_" ++ strftime env now ++ ".json")
    /\ d = set_saved_to_file path doc
    /\ ScrapingMetadata.saved_to_file (CompleteUserData.metadata doc) = None
    /\ ScrapingMetadata.save_error (CompleteUserData.metadata doc) = None
    /\ ScrapingMetadata.save_error (CompleteUserData.metadata d) = None.
Proof.
  intros H Hsaved.
  destruct (scrape_user_complete_returns _ _ _ _ _ H)
    as [p [R [st [s1 [s2 [H1 [H2 [H3 Hcases]]]]]]]].
  destruct (scrape_fetching_undisturbed _ _ _ _ H1 H2) as [W [_ [D C]]].
  destruct Hcases as [[_ [-> _]] | [[_ [Hw [-> ->]]] | [msg [_ [_ [-> _]]]]]];
    try discriminate.
  simpl in Hsaved. injection Hsaved as <-.
  exists (unsaved_document env p R st s2), (clock_ms s2).
  simpl. rewrite W. unfold save_path in *. rewrite D in *.
  repeat split; assumption.
Qed.

Lemma saved_document_lacks_its_path_witness :
  exists d s' doc,
    scrape_user_complete (sample_env octocat_api disk_ok) 5 "octocat" None
      sample_start = (Return d, s')
    /\ written s' = [("output/octocat_profile_20250101_000000.json", doc)]
    /\ ScrapingMetadata.saved_to_file (CompleteUserData.metadata d)
       = Some "output/octocat_profile_20250101_000000.json"
    /\ ScrapingMetadata.saved_to_file (CompleteUserData.metadata doc) = None.
Proof.
  eassert (E : scrape_user_complete (sample_env octocat_api disk_ok) 5
                 "octocat" None sample_start = (Return _, _))
    by (vm_compute; reflexivity).
  destruct (@saved_document_lacks_its_path _ _ _ _ _ _ _ _ E eq_refl)
    as [doc [now [W [_ [_ [_ [_ [N _]]]]]]]].
  eexists. eexists. exists doc.
  split; [exact E|]. split; [exact W|]. split; [reflexivity | exact N].
Defined.



(** X16: the aggregate returned is coherent.  Its statistics are the
    statistics of its own repository list: [total_repositories] is the
    length of that list, [repositories_with_readme] the number of its
    repositories with a non-empty README, and [unique_languages] the key
    list of [language_distribution].  Its [total_api_requests] is the
    counter of the scraper when the scrape returns, its version is
    ["1.0.0"], and [saved_to_file] and [save_error] are never both set. *)
Theorem returned_aggregate_is_coherent (env : Env) (fuel : nat)
  (username : string) (arg : option bool) (s s' : State)
  (d : CompleteUserData.t) :
  scrape_user_complete env fuel username arg s = (Return d, s') ->
  _calculate_statistics (CompleteUserData.repositories d)
  = inr (CompleteUserData.statistics d)
  /\ ScrapingStatistics.total_repositories (CompleteUserData.statistics d)
     = Z.of_nat (List.length (CompleteUserData.repositories d))
  /\ ScrapingStatistics.repositories_with_readme (CompleteUserData.statistics d)
     = Z.of_nat (List.length
                   (filter has_readme (CompleteUserData.repositories d)))
  /\ ScrapingStatistics.unique_languages (CompleteUserData.statistics d)
     = dict_keys
         (ScrapingStatistics.language_distribution
            (CompleteUserData.statistics d))
  /\ ScrapingMetadata.total_api_requests (CompleteUserData.metadata d)
     = _api_requests_count s'
  /\ ScrapingMetadata.scraper_version (CompleteUserData.metadata d) = "1.0.0"
  /\ (ScrapingMetadata.saved_to_file (CompleteUserData.metadata d) = None
      \/ ScrapingMetadata.save_error (CompleteUserData.metadata d) = None).
Proof.
  intros H.
  destruct (scrape_user_complete_post _ _ _ _ _ H) as [_ T].
  destruct (T d eq_refl) as [_ Hcount].
  destruct (scrape_user_complete_returns _ _ _ _ _ H)
    as [p [R [st [s1 [s2 [_ [_ [H3 Hc]]]]]]]].
  assert (Hd : CompleteUserData.repositories d = R
               /\ CompleteUserData.statistics d = st
               /\ ScrapingMetadata.scraper_version (CompleteUserData.metadata d)
                  = "1.0.0"
               /\ (ScrapingMetadata.saved_to_file (CompleteUserData.metadata d)
                   = None
                   \/ ScrapingMetadata.save_error (CompleteUserData.metadata d)
                      = None)).
  { destruct Hc as [[_ [-> _]] | [[_ [_ [-> _]]] | [msg [_ [_ [-> _]]]]]];
      simpl; auto. }
  destruct Hd as [ER [ES [V B]]]. rewrite ER, ES.
  split; [exact H3|].
  assert (Hst : ScrapingStatistics.total_repositories st
                = Z.of_nat (List.length R)
                /\ ScrapingStatistics.repositories_with_readme st
                   = Z.of_nat (List.length (filter has_readme R))
                /\ ScrapingStatistics.unique_languages st
                   = dict_keys (ScrapingStatistics.language_distribution st)).
  { clear - H3. unfold _calculate_statistics, rbind in H3.
    destruct (py_sum (map Repository.stars R)); [discriminate|].
    destruct (py_sum (map Repository.forks R)); [discriminate|].
    rewrite py_sum_ones in H3.
    destruct (aggregate_languages [] R); [discriminate|].
    injection H3 as <-. repeat split. }
  destruct Hst as [S1 [S2 S3]].
  repeat split; assumption.
Qed.

Lemma returned_aggregate_is_coherent_witness :
  exists d s',
    scrape_user_complete (sample_env small_account_api disk_ok) 5 "octocat"
      None sample_start = (Return d, s')
    /\ ScrapingStatistics.total_repositories (CompleteUserData.statistics d)
       = 2
    /\ ScrapingStatistics.repositories_with_readme
         (CompleteUserData.statistics d) = 1
    /\ ScrapingMetadata.total_api_requests (CompleteUserData.metadata d) = 15.
Proof.
  eassert (E : scrape_user_complete (sample_env small_account_api disk_ok) 5
                 "octocat" None sample_start = (Return _, _))
    by (vm_compute; reflexivity).
  destruct (@returned_aggregate_is_coherent _ _ _ _ _ _ _ E)
    as [_ [L [W [_ [N _]]]]].
  eexists. eexists. split; [exact E|].
  split; [rewrite L; reflexivity|].
  split; [rewrite W; reflexivity | rewrite N; reflexivity].
Defined.

(** ** Conversion before saving *)

Section Conversion.

Lemma PyVal_induction (P : PyVal -> Prop) :
  P VNone ->
  (forall b, P (VBool b)) ->
  (forall z, P (VInt z)) ->
  (forall s, P (VStr s)) ->
  (forall l, Forall P l -> P (VList l)) ->
  (forall l, Forall P l -> P (VTuple l)) ->
  (forall l, Forall P l -> P (VSet l)) ->
  (forall d, Forall (fun kv => P (snd kv)) d -> P (VDict d)) ->
  (forall cls has_dict fields,
      Forall (fun kv => P (snd kv)) fields -> P (VData cls has_dict fields)) ->
  forall v, P v.
Proof.
  intros HN HB HI HS HL HT HE HD HC.
  fix IH 1. intros v.
  destruct v as [|b|z|s|l|l|l|d|cls has_dict fields].
  - exact HN.
  - apply HB.
  - apply HI.
  - apply HS.
  - apply HL. induction l as [|x l IHl]; constructor; [apply IH | exact IHl].
  - apply HT. induction l as [|x l IHl]; constructor; [apply IH | exact IHl].
  - apply HE. induction l as [|x l IHl]; constructor; [apply IH | exact IHl].
  - apply HD. induction d as [|[k x] d IHd]; constructor;
      [apply IH | exact IHd].
  - apply HC. induction fields as [|[k x] fields IHf]; constructor;
      [apply IH | exact IHf].
Qed.

Lemma map_fixes (A : Type) (f : A -> A) (l : list A) :
  Forall (fun x => f x = x) l -> map f l = l.
Proof. induction 1; simpl; congruence. Qed.

Lemma map_snd_fixes (f : PyVal -> PyVal) (d : list (string * PyVal)) :
  Forall (fun kv => f (snd kv) = snd kv) d ->
  map (fun kv => (fst kv, f (snd kv))) d = d.
Proof.
  induction 1 as [|[k x] d Hx Hd IH]; simpl in *; [reflexivity|].
  now rewrite Hx, IH.
Qed.

Lemma forallb_map_pointwise (A B : Type) (f : B -> bool) (g : A -> B)
  (h : A -> bool) (l : list A) :
  Forall (fun x => f (g x) = h x) l -> forallb f (map g l) = forallb h l.
Proof. induction 1 as [|x l Hx Hl IH]; simpl; congruence. Qed.

(** What [asdict] leaves of the dataclass instances: those inside sets. *)
Lemma asdict_no_data (v : PyVal) : no_data (asdict v) = no_data_in_sets v.
Proof.
  induction v as [| | | |l IH|l IH|l IH|d IH|cls has_dict fields IH]
    using PyVal_induction; try reflexivity;
    cbn [asdict no_data no_data_in_sets];
    apply forallb_map_pointwise; exact IH.
Qed.

Lemma convert_plain (v : PyVal) :
  no_data v = true -> _convert_to_json_serializable v = v.
Proof.
  induction v as [| | | |l IH|l IH|l IH|d IH|cls has_dict fields IH]
    using PyVal_induction;
    simpl; intros H; try reflexivity; try discriminate.
  - f_equal. apply map_fixes. rewrite forallb_forall in H.
    rewrite Forall_forall in *. auto.
  - f_equal. apply map_snd_fixes. rewrite forallb_forall in H.
    rewrite Forall_forall in *. auto.
Qed.

(** The conversion finds nothing to do in what [asdict] returns. *)
Lemma convert_asdict (v : PyVal) :
  _convert_to_json_serializable (asdict v) = asdict v.
Proof.
  induction v as [| | | |l IH|l IH|l IH|d IH|cls has_dict fields IH]
    using PyVal_induction; try reflexivity;
    cbn [asdict _convert_to_json_serializable]; f_equal; rewrite map_map.
  - apply map_ext_in. rewrite Forall_forall in IH. auto.
  - apply map_ext_in. rewrite Forall_forall in IH.
    intros kv Hkv. cbn [fst snd]. f_equal. auto.
  - apply map_ext_in. rewrite Forall_forall in IH.
    intros kv Hkv. cbn [fst snd]. f_equal. auto.
Qed.

Lemma convert_no_data (v : PyVal) :
  no_data (_convert_to_json_serializable v) = fully_converted v.
Proof.
  induction v as [| | | |l IH|l IH|l IH|d IH|cls has_dict fields IH]
    using PyVal_induction; try reflexivity.
  - cbn [_convert_to_json_serializable no_data fully_converted].
    apply forallb_map_pointwise, IH.
  - cbn [_convert_to_json_serializable no_data fully_converted].
    apply forallb_map_pointwise. exact IH.
  - cbn [_convert_to_json_serializable fully_converted].
    destruct has_dict; [|reflexivity].
    rewrite asdict_no_data. reflexivity.
Qed.

Lemma convert_idempotent (v : PyVal) :
  _convert_to_json_serializable (_convert_to_json_serializable v)
  = _convert_to_json_serializable v.
Proof.
  induction v as [| | | |l IH|l IH|l IH|d IH|cls has_dict fields IH]
    using PyVal_induction; try reflexivity.
  - cbn [_convert_to_json_serializable]. f_equal. rewrite map_map.
    apply map_ext_in. rewrite Forall_forall in IH. auto.
  - cbn [_convert_to_json_serializable]. f_equal. rewrite map_map.
    apply map_ext_in. rewrite Forall_forall in IH.
    intros kv Hkv. cbn [fst snd]. f_equal. auto.
  - cbn [_convert_to_json_serializable].
    destruct has_dict; [apply convert_asdict | reflexivity].
Qed.

(** JSON values hold no set. *)
Lemma of_json_no_data_in_sets : forall j, no_data_in_sets (of_json j) = true.
Proof.
  fix IH 1. intros j.
  destruct j as [|b|z|s|l|d]; try reflexivity;
    cbn [of_json no_data_in_sets].
  - induction l as [|x l IHl]; [reflexivity|].
    cbn [map forallb]. now rewrite IH, IHl.
  - induction d as [|[k x] d IHd]; [reflexivity|].
    cbn [map forallb fst snd]. now rewrite IH, IHd.
Qed.

Lemma forallb_always (A : Type) (l : list A) : forallb (fun _ => true) l = true.
Proof. induction l; simpl; auto. Qed.

End Conversion.

(** X17: converting twice is converting once, and data without dataclass
    instances, such as a document loaded back from JSON, is returned
    unchanged. *)
Theorem convert_is_idempotent (v : PyVal) :
  _convert_to_json_serializable (_convert_to_json_serializable v)
  = _convert_to_json_serializable v
  /\ (no_data v = true -> _convert_to_json_serializable v = v).
Proof. split; [apply convert_idempotent | apply convert_plain]. Qed.

Lemma convert_is_idempotent_witness :
  _convert_to_json_serializable
    (VDict [("languages", VDict [("Python", VInt 120)]);
            ("names", VList [VStr "alpha"; VNone])])
  = VDict [("languages", VDict [("Python", VInt 120)]);
           ("names", VList [VStr "alpha"; VNone])].
Proof.
  apply (convert_is_idempotent
           (VDict [("languages", VDict [("Python", VInt 120)]);
                   ("names", VList [VStr "alpha"; VNone])])).
  reflexivity.
Defined.

(** X18: when the conversion leaves a dataclass instance behind, for data
    made of [None], booleans, integers, strings, lists, tuples, sets,
    dictionaries and dataclass instances.  The result is free of dataclass
    instances exactly when, among the values reached through lists and
    dictionaries, every dataclass instance has a [__dict__] and holds no
    set with an instance in it, and no tuple and no set holds an instance.
    An instance with a [__dict__] is converted by [asdict] with all it
    contains, tuples and instances without [__dict__] included, sets
    excepted; an instance without [__dict__], a tuple and a set are
    returned as they are. *)
Theorem convert_output_is_plain_iff (v : PyVal) :
  no_data (_convert_to_json_serializable v) = true
  <-> fully_converted v = true.
Proof. rewrite convert_no_data. tauto. Qed.

Lemma convert_output_is_plain_iff_witness :
  no_data (_convert_to_json_serializable
             (VList [VData "Point" true
                       [("xy", VTuple [VData "X" false []; VInt 2])]]))
  = true
  /\ no_data (_convert_to_json_serializable
                (VList [VTuple [VData "X" true []; VInt 2]])) = false
  /\ no_data (_convert_to_json_serializable
                (VList [VData "X" false []])) = false
  /\ no_data (_convert_to_json_serializable
                (VData "Box" true [("items", VSet [VData "X" true []])]))
     = false.
Proof.
  assert (No : forall v,
             fully_converted v = false ->
             no_data (_convert_to_json_serializable v) = false).
  { intros v F.
    destruct (no_data (_convert_to_json_serializable v)) eqn:E;
      [|reflexivity].
    apply (convert_output_is_plain_iff v) in E. congruence. }
  split.
  - apply (convert_output_is_plain_iff
             (VList [VData "Point" true
                       [("xy", VTuple [VData "X" false []; VInt 2])]])).
    reflexivity.
  - repeat split; apply No; reflexivity.
Defined.

(** X19: the document that is saved.  Converting the [data_dict] of an
    aggregate gives plain data, without any dataclass instance: a
    dictionary with the keys [profile], [repositories], [statistics] and
    [metadata], in that order, whose [repositories] entry lists one
    dictionary per repository with the ten fields of [Repository] as keys,
    and whose metadata carry the [saved_to_file] and [save_error] of the
    aggregate at that moment. *)
Theorem saved_document_is_plain_data (d : CompleteUserData.t) :
  let v := _convert_to_json_serializable (data_dict d) in
  no_data v = true
  /\ value_keys v = ["profile"; "repositories"; "statistics"; "metadata"]
  /\ value_keys (value_get "profile" v)
     = ["name"; "bio"; "company"; "website"; "twitter"; "location"; "email";
        "public_repos"; "followers"; "following"; "profile_readme";
        "avatar_url"; "login"]
  /\ (exists items,
         value_get "repositories" v = VList items
         /\ List.length items = List.length (CompleteUserData.repositories d)
         /\ Forall (fun item =>
                      value_keys item
                      = ["name"; "about"; "description"; "readme_content";
                         "languages"; "url"; "stars"; "forks"; "is_fork";
                         "default_branch"]) items)
  /\ value_keys (value_get "statistics" v)
     = ["total_repositories"; "repositories_with_readme"; "total_stars";
        "total_forks"; "unique_languages"; "language_distribution"]
  /\ value_keys (value_get "metadata" v)
     = ["scraped_at"; "scraper_version"; "total_api_requests";
        "saved_to_file"; "save_error"]
  /\ value_get "saved_to_file" (value_get "metadata" v)
     = of_optional_str
         (ScrapingMetadata.saved_to_file (CompleteUserData.metadata d))
  /\ value_get "save_error" (value_get "metadata" v)
     = of_optional_str
         (ScrapingMetadata.save_error (CompleteUserData.metadata d)).
Proof.
  cbv zeta. split.
  - rewrite convert_no_data. cbn [data_dict fully_converted forallb snd].
    assert (Hp : fully_converted (profile_value (CompleteUserData.profile d))
                 = true).
    { unfold profile_value. cbn [fully_converted forallb snd andb].
      rewrite !of_json_no_data_in_sets.
      destruct (UserProfile.profile_readme (CompleteUserData.profile d));
        reflexivity. }
    assert (Hs : fully_converted
                   (statistics_value (CompleteUserData.statistics d)) = true).
    { unfold statistics_value. cbn [fully_converted forallb snd andb
                                      no_data_in_sets].
      rewrite !forallb_map, !forallb_always. reflexivity. }
    assert (Hm : fully_converted (metadata_value (CompleteUserData.metadata d))
                 = true).
    { unfold metadata_value. cbn [fully_converted forallb snd andb
                                    no_data_in_sets].
      destruct (ScrapingMetadata.saved_to_file (CompleteUserData.metadata d)),
        (ScrapingMetadata.save_error (CompleteUserData.metadata d));
        reflexivity. }
    rewrite Hp, Hs, Hm, forallb_map. cbn [andb]. rewrite andb_true_r.
    apply forallb_forall. intros r _.
    unfold repository_value. cbn [fully_converted forallb snd andb].
    rewrite !of_json_no_data_in_sets.
    destruct (Repository.readme_content r); reflexivity.
  - split; [reflexivity|]. split; [reflexivity|]. split.
    + exists (map _convert_to_json_serializable
                (map repository_value (CompleteUserData.repositories d))).
      split; [reflexivity|]. split; [now rewrite !length_map|].
      apply Forall_forall. intros item Hin.
      apply in_map_iff in Hin as [x [<- Hin]].
      apply in_map_iff in Hin as [r [<- _]]. reflexivity.
    + split; [reflexivity|]. split; [reflexivity|].
      split.
      * cbn. destruct (ScrapingMetadata.saved_to_file
                         (CompleteUserData.metadata d)); reflexivity.
      * cbn. destruct (ScrapingMetadata.save_error
                         (CompleteUserData.metadata d)); reflexivity.
Qed.

(** ** Listing the saved profiles *)

Section SavedProfiles.

Lemma list_ascii_of_string_app (a b : string) :
  list_ascii_of_string (a ++ b)
  = (list_ascii_of_string a ++ list_ascii_of_string b)%list.
Proof. induction a as [|c a IH]; simpl; congruence. Qed.

Lemma list_prefix_split (p l : list ascii) :
  list_prefix p l = true -> exists rest, l = (p ++ rest)%list.
Proof.
  revert l. induction p as [|a p IH]; intros l H.
  - now exists l.
  - destruct l as [|b l]; [discriminate|]. simpl in H.
    apply andb_prop in H as [Hab Hp]. apply Ascii.eqb_eq in Hab. subst b.
    destruct (IH l Hp) as [rest ->]. now exists rest.
Qed.

Lemma endswith_split (s suffix : string) :
  endswith s suffix = true ->
  exists before,
    list_ascii_of_string s
    = (before ++ list_ascii_of_string suffix)%list.
Proof.
  unfold endswith. intros H.
  apply list_prefix_split in H as [rest H].
  exists (rev rest).
  rewrite <- (rev_involutive (list_ascii_of_string s)), H, rev_app_distr,
    rev_involutive.
  reflexivity.
Qed.

Lemma insert_descending_In (x y : string) (l : list string) :
  In y (insert_descending x l) <-> y = x \/ In y l.
Proof.
  induction l as [|z l IH]; simpl.
  - intuition.
  - destruct (String.leb z x); simpl; [intuition|].
    rewrite IH. intuition.
Qed.

Lemma sort_descending_In (y : string) (l : list string) :
  In y (sort_descending l) <-> In y l.
Proof.
  induction l as [|x l IH]; simpl; [tauto|].
  rewrite insert_descending_In, IH. intuition.
Qed.

Lemma insert_descending_sorted (x : string) (l : list string) :
  Sorted (fun a b => String.leb b a = true) l ->
  Sorted (fun a b => String.leb b a = true) (insert_descending x l).
Proof.
  induction 1 as [|y l Hl IH Hy]; simpl.
  - repeat constructor.
  - destruct (String.leb y x) eqn:E.
    + constructor; [constructor; assumption|]. constructor. exact E.
    + constructor; [exact IH|].
      assert (Hxy : String.leb x y = true)
        by (destruct (String.leb_total x y) as [T|T]; congruence).
      destruct l as [|z l]; simpl.
      * constructor. exact Hxy.
      * destruct (String.leb z x); constructor;
          [exact Hxy | inversion Hy; assumption].
Qed.

Lemma sort_descending_sorted (l : list string) :
  Sorted (fun a b => String.leb b a = true) (sort_descending l).
Proof.
  induction l as [|x l IH]; simpl; [constructor|].
  now apply insert_descending_sorted.
Qed.

(** A name made by [save_to_json] does not end like the pattern. *)
Lemma saved_filename_not_matched (env : Env) (username : string) (now : Z) :
  ~ In "*"%char (list_ascii_of_string (strftime env now)) ->
  endswith (saved_filename env username now) "_profile_*.json" = false.
Proof.
  intros Hstar.
  destruct (endswith (saved_filename env username now) "_profile_*.json")
    eqn:E; [|reflexivity].
  exfalso. apply endswith_split in E as [before E].
  unfold saved_filename in E.
  rewrite !list_ascii_of_string_app in E.
  change (list_ascii_of_string "_profile_*.json")
    with ((list_ascii_of_string "_profile_" ++ ["*"%char])
          ++ list_ascii_of_string ".json")%list in E.
  rewrite !app_assoc in E. apply app_inv_tail in E.
  apply (f_equal (@rev ascii)) in E.
  rewrite !rev_app_distr in E. simpl in E.
  destruct (rev (list_ascii_of_string (strftime env now))) as [|c l] eqn:R;
    simpl in E.
  - discriminate E.
  - injection E as -> _. apply Hstar. apply in_rev. rewrite R. now left.
Qed.

End SavedProfiles.

(** X20: [list_saved_profiles] matches a literal ending, not a pattern.
    It returns the directory entries whose names end with the very
    characters [_profile_*.json], star included, in descending order, and
    the empty list when the directory cannot be listed.  A file written by
    [save_to_json], named [<username>_profile_<timestamp>.json] with a
    timestamp without a star, is therefore never among them. *)
Theorem list_saved_profiles_matches_literally (env : Env) (username : string)
  (now : Z) (listdir : Result (list string)) :
  ~ In "*"%char (list_ascii_of_string (strftime env now)) ->
  ~ In (saved_filename env username now) (list_saved_profiles listdir)
  /\ (forall s,
        save_path env username s
        = path_join (output_dir s) (saved_filename env username (clock_ms s)))
  /\ (forall f,
        In f (list_saved_profiles listdir) <->
        exists names,
          listdir = inr names /\ In f names
          /\ endswith f "_profile_*.json" = true)
  /\ (forall f,
        In f (list_saved_profiles listdir) ->
        In "*"%char (list_ascii_of_string f))
  /\ Sorted (fun a b => String.leb b a = true) (list_saved_profiles listdir)
  /\ (forall e, listdir = inl e -> list_saved_profiles listdir = []).
Proof.
  intros Hstar.
  assert (Hin : forall f,
             In f (list_saved_profiles listdir) <->
             exists names,
               listdir = inr names /\ In f names
               /\ endswith f "_profile_*.json" = true).
  { intros f. unfold list_saved_profiles. destruct listdir as [e|names].
    - split; [contradiction | intros [names [H _]]; discriminate].
    - rewrite sort_descending_In, filter_In. split.
      + intros [H1 H2]. exists names. auto.
      + intros [names' [H [H1 H2]]]. injection H as <-. auto. }
  split.
  - intros H. apply Hin in H as [names [_ [_ H]]].
    rewrite (saved_filename_not_matched env username now Hstar) in H.
    discriminate.
  - split; [reflexivity|]. split; [exact Hin|]. split; [|split].
    + intros f H. apply Hin in H as [names [_ [_ H]]].
      apply endswith_split in H as [before ->].
      apply in_or_app. right. simpl. tauto.
    + unfold list_saved_profiles. destruct listdir; [constructor|].
      apply sort_descending_sorted.
    + intros e ->. reflexivity.
Qed.

Lemma list_saved_profiles_matches_literally_witness :
  list_saved_profiles
    (inr ["octocat_profile_20250101_000000.json"; "b_profile_*.json";
          "notes.txt"; "z_profile_*.json"])
  = ["z_profile_*.json"; "b_profile_*.json"]
  /\ ~ In (saved_filename (sample_env octocat_api disk_ok) "octocat" 1000000)
         (list_saved_profiles
            (inr ["octocat_profile_20250101_000000.json"; "b_profile_*.json";
                  "notes.txt"; "z_profile_*.json"])).
Proof.
  split; [reflexivity|].
  apply (@list_saved_profiles_matches_literally
           (sample_env octocat_api disk_ok) "octocat" 1000000
           (inr ["octocat_profile_20250101_000000.json"; "b_profile_*.json";
                 "notes.txt"; "z_profile_*.json"])).
  simpl. intros H.
  repeat (destruct H as [H|H]; [discriminate H|]). exact H.
Defined.

(** ** The example run *)

Section MainRun.
Variable env : Env.




End MainRun.

(** X21: [main] reports a failed scrape instead of failing.  It never
    raises: whatever exception the scrape raises, [main] prints the one
    line [Error occurred: <message>] and ends normally; when the user
    record cannot be fetched that line is
    [Error occurred: Failed to fetch profile for: Ojjoj]. *)
Theorem main_reports_failures (env : Env) (fuel : nat) (dir : string)
  (now_ms : Z) :
  (forall e s', main env fuel dir now_ms <> (Raise e, s'))
  /\ (forall e s',
        scrape_user_complete env fuel main_username None
          (new_scraper true dir now_ms) = (Raise e, s') ->
        main env fuel dir now_ms = (Return ["Error occurred: " ++ str_exn e], s'))
  /\ (forall v s1,
        _make_api_request env (user_url main_username) None
          (new_scraper true dir now_ms) = (Return v, s1) ->
        truthy v = false ->
        main env fuel dir now_ms
        = (Return ["Error occurred: Failed to fetch profile for: Ojjoj"], s1)).
Proof.
  split; [|split].
  - intros e s'. unfold main.
    destruct (scrape_user_complete env fuel main_username None _)
      as [[d|e0|] s0]; try discriminate.
    destruct (report env main_username d) as [lines [e1|]]; discriminate.
  - intros e s' H. unfold main. rewrite H. reflexivity.
  - intros v s1 H T. unfold main.
    rewrite scrape_user_complete_stages.
    assert (E : get_user_profile env main_username (new_scraper true dir now_ms)
                = (Return None, s1))
      by (apply get_user_profile_none; eauto).
    rewrite E. reflexivity.
Qed.

Lemma main_reports_failures_witness :
  fst (main (sample_env unreachable_api disk_ok) 5 "output" 1000000)
  = Return ["Error occurred: Failed to fetch profile for: Ojjoj"].
Proof.
  eassert (E : _make_api_request (sample_env unreachable_api disk_ok)
                 (user_url main_username) None
                 (new_scraper true "output" 1000000) = (Return _, _))
    by (vm_compute; reflexivity).
  destruct (main_reports_failures (sample_env unreachable_api disk_ok) 5
              "output" 1000000) as [_ [_ H]].
  rewrite (H _ _ E eq_refl). reflexivity.
Defined.



(** ** Logging setup *)

Section LoggingSetup.
Import Logging.

Lemma dict_get_set_any (V : Type) (k k' : string) (v default : V)
  (d : dict V) :
  dict_get k' default (dict_set k v d)
  = if (k' =? k)%string then v else dict_get k' default d.
Proof.
  unfold dict_get.
  induction d as [|[k0 v0] d IH]; simpl.
  - destruct (k' =? k)%string; reflexivity.
  - destruct (String.eqb_spec k k0) as [->|Hne]; simpl.
    + destruct (k' =? k0)%string; reflexivity.
    + destruct (String.eqb_spec k' k0) as [->|Hne'].
      * destruct (String.eqb_spec k0 k); [congruence | reflexivity].
      * exact IH.
Qed.

Lemma find_logger_set (n name : string) (l : Logger) (reg : Registry) :
  find_logger n (dict_set (logger_key name) l reg)
  = if (logger_key n =? logger_key name)%string then l else find_logger n reg.
Proof. apply dict_get_set_any. Qed.

Lemma find_logger_getLogger (n name : string) (reg : Registry) :
  find_logger n (getLogger name reg) = find_logger n reg.
Proof.
  unfold getLogger. rewrite find_logger_set.
  destruct (String.eqb_spec (logger_key n) (logger_key name)) as [E|];
    [|reflexivity].
  unfold find_logger. now rewrite E.
Qed.

(** The loggers after one call of [setup_logging]. *)
Lemma setup_logging_find (disk : Disk) (logs_dir name file : string)
  (lvl : Z) (console : bool) (reg : Registry) (n : string) :
  find_logger n (snd (setup_logging disk logs_dir name file lvl console reg))
  = if (logger_key n =? logger_key name)%string
    then match makedirs disk logs_dir with
         | Some _ => find_logger name reg
         | None =>
             match handlers (find_logger name reg) with
             | _ :: _ =>
                 {| level := lvl; handlers := handlers (find_logger name reg) |}
             | [] =>
                 match open_append disk (path_join logs_dir file) with
                 | Some _ => {| level := lvl; handlers := [] |}
                 | None =>
                     {| level := lvl;
                        handlers := installed logs_dir file lvl console |}
                 end
             end
         end
    else find_logger n reg.
Proof.
  unfold setup_logging.
  destruct (makedirs disk logs_dir) as [msg|].
  - simpl. destruct (String.eqb_spec (logger_key n) (logger_key name)) as [E|];
      [|reflexivity].
    unfold find_logger. now rewrite E.
  - cbv zeta. rewrite find_logger_getLogger.
    destruct (handlers (find_logger name reg)) as [|h hs] eqn:Hh.
    + destruct (open_append disk (path_join logs_dir file)) as [msg|];
        cbn [snd]; rewrite !find_logger_set, ?find_logger_getLogger;
        destruct (logger_key n =? logger_key name)%string; reflexivity.
    + cbn [snd]. rewrite find_logger_set, find_logger_getLogger.
      destruct (logger_key n =? logger_key name)%string; reflexivity.
Qed.

End LoggingSetup.

(** X23: [setup_logging] installs handlers once.  On a logger without
    handlers it installs a file handler for [<logs>/<log_file>] and, if
    asked, a console handler, both at the given level and with the one
    format.  On a logger that has handlers it changes the logger's level
    and nothing else: no handler is added, the file is not opened, and the
    handlers keep the level and the file of the call that installed them.
    The loggers that other names stand for are never touched; the empty
    name and [root] stand for the same logger, the root logger. *)
Theorem setup_logging_installs_once (disk : Logging.Disk)
  (logs_dir name file : string) (lvl : Z) (console : bool)
  (reg : Logging.Registry) :
  Logging.makedirs disk logs_dir = None ->
  (Logging.handlers (Logging.find_logger name reg) = [] ->
   Logging.open_append disk (path_join logs_dir file) = None ->
   Logging.setup_logging disk logs_dir name file lvl console reg
   = (None,
      snd (Logging.setup_logging disk logs_dir name file lvl console reg))
   /\ Logging.find_logger name
        (snd (Logging.setup_logging disk logs_dir name file lvl console reg))
      = {| Logging.level := lvl;
           Logging.handlers := Logging.installed logs_dir file lvl console |})
  /\ (Logging.handlers (Logging.find_logger name reg) <> [] ->
      Logging.setup_logging disk logs_dir name file lvl console reg
      = (None,
         snd (Logging.setup_logging disk logs_dir name file lvl console reg))
      /\ Logging.find_logger name
           (snd (Logging.setup_logging disk logs_dir name file lvl console reg))
         = {| Logging.level := lvl;
              Logging.handlers :=
                Logging.handlers (Logging.find_logger name reg) |})
  /\ (forall other,
        (if (other =? EmptyString)%string then "root" else other)
        <> (if (name =? EmptyString)%string then "root" else name) ->
        Logging.find_logger other
          (snd (Logging.setup_logging disk logs_dir name file lvl console reg))
        = Logging.find_logger other reg).
Proof.
  intros Hdirs. split; [|split].
  - intros Hnone Hopen. split.
    + unfold Logging.setup_logging. rewrite Hdirs. cbv zeta.
      rewrite find_logger_getLogger, Hnone, Hopen. reflexivity.
    + rewrite setup_logging_find, String.eqb_refl, Hdirs, Hnone, Hopen.
      reflexivity.
  - intros Hsome. split.
    + unfold Logging.setup_logging. rewrite Hdirs. cbv zeta.
      rewrite find_logger_getLogger.
      destruct (Logging.handlers (Logging.find_logger name reg));
        [contradiction | reflexivity].
    + rewrite setup_logging_find, String.eqb_refl, Hdirs.
      destruct (Logging.handlers (Logging.find_logger name reg));
        [contradiction | reflexivity].
  - intros other Hother. rewrite setup_logging_find.
    fold (Logging.logger_key other) in Hother.
    fold (Logging.logger_key name) in Hother.
    destruct (String.eqb_spec (Logging.logger_key other)
                (Logging.logger_key name)); [contradiction | reflexivity].
Qed.

Lemma setup_logging_installs_once_witness :
  let once :=
    snd (Logging.setup_logging Logging.good_disk "logs" "github_scraper"
           "scraper.log" Logging.INFO true Logging.fresh) in
  let twice :=
    snd (Logging.setup_logging Logging.good_disk "logs" "github_scraper"
           "debug.log" 10 false once) in
  Logging.find_logger "github_scraper" once
  = {| Logging.level := 20;
       Logging.handlers :=
         Logging.installed "logs" "scraper.log" 20 true |}
  /\ Logging.find_logger "github_scraper" twice
     = {| Logging.level := 10;
          Logging.handlers :=
            Logging.installed "logs" "scraper.log" 20 true |}
  /\ Logging.find_logger "root" twice
     = {| Logging.level := 30; Logging.handlers := [] |}.
Proof.
  cbv zeta. split; [|split].
  - destruct (@setup_logging_installs_once Logging.good_disk "logs"
                "github_scraper" "scraper.log" Logging.INFO true Logging.fresh
                eq_refl) as [H _].
    destruct (H eq_refl eq_refl) as [_ E]. exact E.
  - destruct (@setup_logging_installs_once Logging.good_disk "logs"
                "github_scraper" "debug.log" 10 false
                (snd (Logging.setup_logging Logging.good_disk "logs"
                        "github_scraper" "scraper.log" Logging.INFO true
                        Logging.fresh))
                eq_refl) as [_ [H _]].
    destruct (H ltac:(discriminate)) as [_ E]. exact E.
  - reflexivity.
Defined.

(** X24: however often and with whatever arguments [setup_logging] is
    called in a program that had set up no logger, a logger has no handler
    or exactly the handlers that one of the calls for it installed: one
    file handler, followed by one console handler if that call asked for
    it.  A call is for the logger its name stands for, the empty name and
    [root] both standing for the root logger.  No logger ever has more
    than two handlers. *)
Theorem loggers_never_duplicate_handlers (disk : Logging.Disk)
  (logs_dir : string) (calls : list Logging.Call) (name : string) :
  let logger :=
    Logging.find_logger name
      (Logging.setup_all disk logs_dir calls Logging.fresh) in
  (Logging.handlers logger = []
   \/ exists c,
       In c calls
       /\ (if (Logging.call_name c =? EmptyString)%string then "root"
           else Logging.call_name c)
          = (if (name =? EmptyString)%string then "root" else name)
       /\ Logging.handlers logger
          = Logging.installed logs_dir (Logging.call_file c)
              (Logging.call_level c) (Logging.call_console c))
  /\ (List.length (Logging.handlers logger) <= 2)%nat.
Proof.
  cbv zeta.
  assert (Inv : forall calls reg,
             (forall n,
                 Logging.handlers (Logging.find_logger n reg) = []
                 \/ exists f l c,
                     Logging.handlers (Logging.find_logger n reg)
                     = Logging.installed logs_dir f l c) ->
             forall n,
               Logging.handlers
                 (Logging.find_logger n
                    (Logging.setup_all disk logs_dir calls reg)) = []
               \/ (exists f l c,
                      Logging.handlers (Logging.find_logger n reg)
                      = Logging.installed logs_dir f l c
                      /\ Logging.handlers
                           (Logging.find_logger n
                              (Logging.setup_all disk logs_dir calls reg))
                         = Logging.installed logs_dir f l c)
               \/ exists c,
                   In c calls
                   /\ Logging.logger_key (Logging.call_name c)
                      = Logging.logger_key n
                   /\ Logging.handlers
                        (Logging.find_logger n
                           (Logging.setup_all disk logs_dir calls reg))
                      = Logging.installed logs_dir (Logging.call_file c)
                          (Logging.call_level c) (Logging.call_console c)).
  { clear calls name. unfold Logging.setup_all.
    induction calls as [|c calls IH]; intros reg Hreg n.
    - simpl. destruct (Hreg n) as [E|[f [l [k E]]]]; [left; exact E|].
      right. left. exists f, l, k. auto.
    - cbn [fold_left].
      set (reg1 := snd (Logging.setup_logging disk logs_dir
                          (Logging.call_name c) (Logging.call_file c)
                          (Logging.call_level c) (Logging.call_console c) reg)).
      assert (Hstep : forall m,
                 Logging.handlers (Logging.find_logger m reg1)
                 = Logging.handlers (Logging.find_logger m reg)
                 \/ (Logging.logger_key (Logging.call_name c)
                     = Logging.logger_key m
                     /\ Logging.handlers (Logging.find_logger m reg) = []
                     /\ Logging.handlers (Logging.find_logger m reg1)
                        = Logging.installed logs_dir (Logging.call_file c)
                            (Logging.call_level c) (Logging.call_console c))).
      { intros m. unfold reg1. rewrite setup_logging_find.
        destruct (String.eqb_spec (Logging.logger_key m)
                    (Logging.logger_key (Logging.call_name c))) as [Ek|];
          [|left; reflexivity].
        assert (Em : Logging.find_logger (Logging.call_name c) reg
                     = Logging.find_logger m reg)
          by (unfold Logging.find_logger; now rewrite Ek).
        rewrite Em.
        destruct (Logging.makedirs disk logs_dir); [left; reflexivity|].
        destruct (Logging.handlers (Logging.find_logger m reg)) eqn:Hh;
          [|left; reflexivity].
        destruct (Logging.open_append disk _); [left; reflexivity|].
        right. auto. }
      assert (Hreg1 : forall m,
                 Logging.handlers (Logging.find_logger m reg1) = []
                 \/ exists f l k,
                     Logging.handlers (Logging.find_logger m reg1)
                     = Logging.installed logs_dir f l k).
      { intros m. destruct (Hstep m) as [E|[_ [_ E]]].
        - rewrite E. apply Hreg.
        - right. eauto. }
      destruct (IH reg1 Hreg1 n) as [E|[[f [l [k [E1 E2]]]]|[c' [Hin [Hn E]]]]].
      + left. exact E.
      + destruct (Hstep n) as [S|[Hn [H0 S]]].
        * right. left. exists f, l, k. rewrite <- S. auto.
        * right. right. exists c. split; [now left|]. split; [auto|].
          rewrite E2, <- E1. exact S.
      + right. right. exists c'. split; [now right|]. auto. }
  assert (Hfresh : forall n,
             Logging.handlers (Logging.find_logger n Logging.fresh) = []).
  { intros n. unfold Logging.find_logger, Logging.fresh, dict_get.
    simpl. destruct (Logging.logger_key n =? "root")%string; reflexivity. }
  assert (H0 : forall n,
             Logging.handlers (Logging.find_logger n Logging.fresh) = []
             \/ exists f l c,
                 Logging.handlers (Logging.find_logger n Logging.fresh)
                 = Logging.installed logs_dir f l c)
    by (intros n; left; apply Hfresh).
  assert (Main :
            Logging.handlers
              (Logging.find_logger name
                 (Logging.setup_all disk logs_dir calls Logging.fresh)) = []
            \/ exists c,
                In c calls
                /\ Logging.logger_key (Logging.call_name c)
                   = Logging.logger_key name
                /\ Logging.handlers
                     (Logging.find_logger name
                        (Logging.setup_all disk logs_dir calls Logging.fresh))
                   = Logging.installed logs_dir (Logging.call_file c)
                       (Logging.call_level c) (Logging.call_console c)).
  { destruct (Inv calls Logging.fresh H0 name) as [E|[[f [l [k [E1 _]]]]|E]].
    - left. exact E.
    - rewrite Hfresh in E1. discriminate E1.
    - right. exact E. }
  split; [exact Main|].
  destruct Main as [E|[c [_ [_ E]]]]; rewrite E; simpl; [lia|].
  destruct (Logging.call_console c); simpl; lia.
Qed.
